(** * RetailFort: order placement, stock and sales ledger

    A shallow embedding of [server/storage.ts] ([DatabaseStorage]), of the
    tables of [shared/schema.ts] it writes, and of the [POST /api/orders]
    handler of [server/routes.ts].

    Conventions.
    - A [decimal(p, s)] column holds an integer count of units of [10^-s]:
      stock and stored quantities are thousandths, money is hundredths
      (paise).
    - A quantity that is received (the text of an item, the number of a
      stock adjustment) is kept as the decimal numeral it is, with as many
      decimals as it has: the database rounds it when it stores it, and
      rounds the result, not the operand, when it computes a stock with it.
      The money texts the client sends ("120.00") stand for their count of
      hundredths.
    - A [timestamp] column holds microseconds of local wall-clock time; a
      JavaScript [Date] holds milliseconds of the same clock.
    - A JSON field that may be absent is an [option]; [None] is [undefined].
      A field of the wrong primitive type is not represented: of the ways a
      body can be malformed, the missing field is the one modelled; what is
      proved of an answer 400 is therefore what follows it, and which bodies
      with a missing field get it, not which bodies get it in all.
    - The tables are lists of rows in insertion order.  Columns that no
      operation below reads or constrains (free text such as notes and
      delivery address, offline/sync flags, [updatedAt]) are projected away;
      [users] and [customers] are kept as their primary-key columns. *)

From Stdlib Require Import ZArith List String Bool Arith Lia Permutation.
Import ListNotations.
Local Open Scope string_scope.
Local Open Scope Z_scope.
Local Open Scope list_scope.

Set Implicit Arguments.

(** ** Rows *)

Definition Id := string.

(** products *)
Record Product := mkProduct {
  p_id : Id;
  p_name : string;
  p_userId : Id;
  p_price : Z;               (* decimal(10,2) *)
  p_stock : Z;               (* decimal(10,3), not null, default 0 *)
  p_unit : string;
  p_minStock : option Z      (* decimal(10,3), nullable, default 0 *)
}.

(** orders *)
Record Order := mkOrder {
  o_id : Id;
  o_orderNumber : string;
  o_customerId : option Id;
  o_userId : Id;
  o_status : string;
  o_paymentStatus : string;
  o_paymentMethod : option string;
  o_upiApp : option string;
  o_totalAmount : Z;
  o_paidAmount : option Z;
  o_discountAmount : option Z;
  o_gstAmount : option Z;
  o_createdAt : option Z
}.

(** order_items *)
Record OrderItem := mkOrderItem {
  oi_id : Id;
  oi_orderId : Id;
  oi_productId : Id;
  oi_quantity : Z;           (* decimal(10,3) *)
  oi_unitPrice : Z;
  oi_totalPrice : Z;
  oi_gstRate : option Z      (* decimal(5,2), default 0 *)
}.

(** transactions *)
Record Transaction := mkTransaction {
  t_id : Id;
  t_orderId : option Id;
  t_customerId : option Id;
  t_userId : Id;
  t_type : string;
  t_amount : Z;
  t_paymentMethod : string;
  t_upiApp : option string;
  t_description : option string;
  t_createdAt : option Z
}.

(** stock_movements *)
Record StockMovement := mkStockMovement {
  sm_id : Id;
  sm_productId : Id;
  sm_userId : Id;
  sm_type : string;
  sm_quantity : Z;           (* decimal(10,3), signed *)
  sm_reason : option string;
  sm_orderId : option Id;
  sm_notes : option string;
  sm_createdAt : option Z
}.

(** ** Decimal numerals *)

(** A number as it is written: [digits] read with [decimals] digits after
    the point.  "2" is [mkNumeral 2 0], "1.0005" is [mkNumeral 10005 4]. *)
Record Numeral := mkNumeral {
  digits : Z;
  decimals : nat
}.

(** A numeral of three decimals: [milli 2000] is "2.000". *)
Definition milli (n : Z) : Numeral := mkNumeral n 3.

(** What one unit is worth in [digits]. *)
Definition unit_of (x : Numeral) : Z := 10 ^ Z.of_nat (decimals x).

(** [n / d] rounded to the nearest integer, a half going away from zero:
    what PostgreSQL does to a [numeric] that goes into a column of a smaller
    scale. *)
Definition round_div (n d : Z) : Z :=
  Z.sgn n * ((2 * Z.abs n + d) / (2 * d)).

(** The numeral as a [decimal(_, 3)] column stores it, in thousandths. *)
Definition stored3 (x : Numeral) : Z :=
  round_div (digits x * 1000) (unit_of x).

(** [stock - x] and [stock + x] for a stock in thousandths: the difference
    and the sum are exact, and rounded when they go into the column. *)
Definition minus3 (stock : Z) (x : Numeral) : Z :=
  round_div (stock * unit_of x - digits x * 1000) (unit_of x).

Definition plus3 (stock : Z) (x : Numeral) : Z :=
  round_div (stock * unit_of x + digits x * 1000) (unit_of x).

(** The numeral with its sign changed, and without its sign. *)
Definition opposite (x : Numeral) : Numeral :=
  mkNumeral (- digits x) (decimals x).

Definition magnitude (x : Numeral) : Numeral :=
  mkNumeral (Z.abs (digits x)) (decimals x).

(** No digit other than zero beyond the third decimal. *)
Definition in_thousandths (x : Numeral) : bool :=
  (digits x * 1000) mod unit_of x =? 0.

(** ** Values handed to [insert] *)

(** [InsertOrder]: what [insertOrderSchema] infers ([id], [createdAt],
    [updatedAt] and [userId] omitted). *)
Record InsertOrder := mkInsertOrder {
  io_orderNumber : string;
  io_customerId : option Id;
  io_status : option string;
  io_paymentStatus : option string;
  io_paymentMethod : option string;
  io_upiApp : option string;
  io_totalAmount : Z;
  io_paidAmount : option Z;
  io_discountAmount : option Z;
  io_gstAmount : option Z
}.

(** [InsertOrder & { userId: string }] *)
Record InsertOrderOfUser := withUser {
  io_header :> InsertOrder;
  io_userId : Id
}.

(** An element of [items].  [createOrder] declares [InsertOrderItem[]], but
    the route forwards [req.body.items] as received, so at run time any field
    may be missing. *)
Record InsertOrderItem := mkItem {
  it_orderId : option Id;
  it_productId : option Id;
  it_quantity : option Numeral;
  it_unitPrice : option Z;
  it_totalPrice : option Z;
  it_gstRate : option Z
}.

(** The object literal given to [tx.insert(stockMovements)].  [quantity] is
    the text [`-${item.quantity}`]; [None] stands for a text that is not a
    numeric literal. *)
Record InsertStockMovement := mkInsertStockMovement {
  ism_productId : option Id;
  ism_userId : Id;
  ism_type : string;
  ism_quantity : option Numeral;
  ism_reason : option string;
  ism_orderId : option Id;
  ism_notes : option string
}.

(** [InsertTransaction & { userId: string }] *)
Record InsertTransaction := mkInsertTransaction {
  itx_orderId : option Id;
  itx_customerId : option Id;
  itx_userId : Id;
  itx_type : string;
  itx_amount : Z;
  itx_paymentMethod : string;
  itx_upiApp : option string;
  itx_description : option string
}.

(** ** The database *)

Record Store := mkStore {
  users : list Id;
  customers : list Id;
  products : list Product;
  orders : list Order;
  orderItems : list OrderItem;
  transactions : list Transaction;
  stockMovements : list StockMovement
}.

Definition with_products (s : Store) (ps : list Product) : Store :=
  mkStore (users s) (customers s) ps (orders s) (orderItems s)
          (transactions s) (stockMovements s).

Definition with_orders (s : Store) (os : list Order) : Store :=
  mkStore (users s) (customers s) (products s) os (orderItems s)
          (transactions s) (stockMovements s).

Definition with_orderItems (s : Store) (l : list OrderItem) : Store :=
  mkStore (users s) (customers s) (products s) (orders s) l
          (transactions s) (stockMovements s).

Definition with_transactions (s : Store) (l : list Transaction) : Store :=
  mkStore (users s) (customers s) (products s) (orders s) (orderItems s)
          l (stockMovements s).

Definition with_stockMovements (s : Store) (l : list StockMovement) : Store :=
  mkStore (users s) (customers s) (products s) (orders s) (orderItems s)
          (transactions s) l.

(** Every statement sent to the database, with the values it carries. *)
Inductive Statement :=
| InsertOrders (v : InsertOrderOfUser)
| InsertOrderItems (v : InsertOrderItem)
| UpdateProductsStock (productId : option Id) (quantity : option Numeral)
| InsertStockMovements (v : InsertStockMovement)
| InsertTransactions (v : InsertTransaction).

(** The database together with the journal of statements issued so far.  The
    journal is not part of the data: it survives a rollback. *)
Record World := mkWorld {
  db : Store;
  journal : list Statement
}.

(** What the program does not control, indexed by the number of statements
    issued before: the value of [gen_random_uuid()], the value of [now()], and
    whether the statement is lost for a reason outside the data (connection
    loss, a constraint on a projected column).  Nothing is assumed of these
    three: in particular [now] may repeat itself, as it does between the
    statements of one transaction. *)
Record Env := mkEnv {
  gen_random_uuid : nat -> Id;
  now : nat -> Z;
  fails : nat -> bool
}.

Inductive PgError :=
| ConnectionLost
| UniqueViolation
| ForeignKeyViolation
| NotNullViolation
| NumericOverflow
| InvalidNumericText
| MissingParameter.

Inductive Exn :=
| ZodError
| DatabaseError (e : PgError).

(** ** Column constraints *)

(** [decimal(p, s)]: at most [p] digits in all. *)
Definition numeric (precision : Z) (v : Z) : bool := Z.abs v <? 10 ^ precision.

Definition numeric_opt (precision : Z) (v : option Z) : bool :=
  match v with Some x => numeric precision x | None => true end.

Definition mem (x : Id) (l : list Id) : bool := existsb (String.eqb x) l.

(** A nullable reference: [NULL] refers to nothing. *)
Definition mem_opt (x : option Id) (l : list Id) : bool :=
  match x with Some i => mem i l | None => true end.

(** A nullable reference that leads to [id]. *)
Definition refers (x : option Id) (id : Id) : bool :=
  match x with Some i => String.eqb i id | None => false end.

Definition or_default {A} (d : A) (v : option A) : A :=
  match v with Some x => x | None => d end.

(** [`-${item.quantity}`]: a minus sign glued in front of the text of the
    quantity.  In front of a text that already carries a sign, or of
    [undefined], the result is not a numeric literal. *)
Definition neg_text (q : option Numeral) : option Numeral :=
  match q with
  | Some x => if digits x <? 0 then None else Some (opposite x)
  | None => None
  end.

Definition set_stock (p : Product) (v : Z) : Product :=
  mkProduct (p_id p) (p_name p) (p_userId p) (p_price p) v (p_unit p)
            (p_minStock p).

(** [{ ...item, orderId }] *)
Definition spread_orderId (item : InsertOrderItem) (orderId : Id)
  : InsertOrderItem :=
  mkItem (Some orderId) (it_productId item) (it_quantity item)
         (it_unitPrice item) (it_totalPrice item) (it_gstRate item).

(** ** Statements and the transaction monad *)

Definition M (A : Type) : Type := World -> (Exn + A) * World.

Definition ret {A} (a : A) : M A := fun w => (inr a, w).

(** A computation that touches nothing: it returns or throws. *)
Definition lift {A} (r : Exn + A) : M A := fun w => (r, w).

Definition bind {A B} (m : M A) (k : A -> M B) : M B :=
  fun w =>
    match m w with
    | (inr a, w') => k a w'
    | (inl e, w') => (inl e, w')
    end.

Notation "x <- m ;; k" := (bind m (fun x => k))
  (at level 61, m at next level, right associativity).
Notation "m ;;; k" := (bind m (fun _ => k))
  (at level 61, right associativity).

(** [for (const x of l) { await f(x) }] *)
Fixpoint forEach {A} (f : A -> M unit) (l : list A) : M unit :=
  match l with
  | [] => ret tt
  | x :: rest => f x ;;; forEach f rest
  end.

(** [db.transaction(body)]: commit the body's writes when it returns, undo
    them when it throws, and rethrow. *)
Definition db_transaction {A} (body : M A) : M A :=
  fun w =>
    match body w with
    | (inr a, w') => (inr a, w')
    | (inl e, w') => (inl e, mkWorld (db w) (journal w'))
    end.

Section Storage.

Variable env : Env.

(** One statement: it is journalled, then either lost, refused by the
    database, or applied. *)
Definition statement {A} (stmt : Statement)
           (run : nat -> Store -> PgError + A * Store) : M A :=
  fun w =>
    let t := List.length (journal w) in
    let j := journal w ++ [stmt] in
    if fails env t then (inl (DatabaseError ConnectionLost), mkWorld (db w) j)
    else
      match run t (db w) with
      | inl e => (inl (DatabaseError e), mkWorld (db w) j)
      | inr (a, s') => (inr a, mkWorld s' j)
      end.

Definition orders_row (v : InsertOrderOfUser) (t : nat) : Order :=
  mkOrder (gen_random_uuid env t)
          (io_orderNumber v) (io_customerId v) (io_userId v)
          (or_default "pending" (io_status v))
          (or_default "pending" (io_paymentStatus v))
          (io_paymentMethod v) (io_upiApp v) (io_totalAmount v)
          (Some (or_default 0 (io_paidAmount v)))
          (Some (or_default 0 (io_discountAmount v)))
          (Some (or_default 0 (io_gstAmount v)))
          (Some (now env t)).

(** The database takes a row in four steps, and refuses it at the first
    that fails: the values are converted to the types of their columns, the
    [NOT NULL] columns are checked, the row enters the index of the primary
    key, and the references are looked up. *)

(** [insert(orders).values(v).returning()] *)
Definition run_insert_orders (v : InsertOrderOfUser) (t : nat) (s : Store)
  : PgError + Order * Store :=
  let row := orders_row v t in
  if negb (numeric 10 (o_totalAmount row)
           && numeric_opt 10 (o_paidAmount row)
           && numeric_opt 10 (o_discountAmount row)
           && numeric_opt 10 (o_gstAmount row))
  then inl NumericOverflow
  else if mem (o_id row) (map o_id (orders s)) then inl UniqueViolation
  else if negb (mem (o_userId row) (users s)
                && mem_opt (o_customerId row) (customers s))
  then inl ForeignKeyViolation
  else inr (row, with_orders s (orders s ++ [row])).

(** [insert(orderItems).values(v)] *)
Definition run_insert_orderItems (v : InsertOrderItem) (t : nat) (s : Store)
  : PgError + OrderItem * Store :=
  let quantity := option_map stored3 (it_quantity v) in
  let gstRate := Some (or_default 0 (it_gstRate v)) in
  if negb (numeric_opt 10 quantity && numeric_opt 10 (it_unitPrice v)
           && numeric_opt 10 (it_totalPrice v) && numeric_opt 5 gstRate)
  then inl NumericOverflow
  else
    match it_orderId v, it_productId v, quantity,
          it_unitPrice v, it_totalPrice v with
    | Some oid, Some pid, Some q, Some up, Some tp =>
        let row := mkOrderItem (gen_random_uuid env t) oid pid q up tp
                               gstRate in
        if mem (oi_id row) (map oi_id (orderItems s)) then inl UniqueViolation
        else if negb (mem oid (map o_id (orders s))
                      && mem pid (map p_id (products s)))
        then inl ForeignKeyViolation
        else inr (row, with_orderItems s (orderItems s ++ [row]))
    | _, _, _, _, _ => inl NotNullViolation
    end.

(** [update(products).set({ stock: sql`stock - ${q}` }).where(eq(id, pid))]:
    [q] is a parameter of the statement and is subtracted as it is written;
    it is the difference that is rounded to the scale of [stock]. *)
Definition run_update_products_stock (pid : option Id) (q : option Numeral)
           (t : nat) (s : Store) : PgError + unit * Store :=
  match pid, q with
  | Some pid, Some q =>
      if forallb (fun p => negb (String.eqb (p_id p) pid)
                           || numeric 10 (minus3 (p_stock p) q)) (products s)
      then inr (tt, with_products s
                      (map (fun p => if String.eqb (p_id p) pid
                                     then set_stock p (minus3 (p_stock p) q)
                                     else p) (products s)))
      else inl NumericOverflow
  | _, _ => inl MissingParameter
  end.

(** [insert(stockMovements).values(v)] *)
Definition run_insert_stockMovements (v : InsertStockMovement) (t : nat)
           (s : Store) : PgError + StockMovement * Store :=
  match ism_quantity v with
  | None => inl InvalidNumericText
  | Some x =>
      let q := stored3 x in
      if negb (numeric 10 q) then inl NumericOverflow
      else
        match ism_productId v with
        | None => inl NotNullViolation
        | Some pid =>
            let row := mkStockMovement (gen_random_uuid env t) pid
                                       (ism_userId v) (ism_type v) q
                                       (ism_reason v) (ism_orderId v)
                                       (ism_notes v) (Some (now env t)) in
            if mem (sm_id row) (map sm_id (stockMovements s))
            then inl UniqueViolation
            else if negb (mem pid (map p_id (products s))
                          && mem (ism_userId v) (users s)
                          && mem_opt (ism_orderId v) (map o_id (orders s)))
            then inl ForeignKeyViolation
            else inr (row, with_stockMovements s (stockMovements s ++ [row]))
        end
  end.

(** [insert(transactions).values(v).returning()] *)
Definition run_insert_transactions (v : InsertTransaction) (t : nat)
           (s : Store) : PgError + Transaction * Store :=
  let row := mkTransaction (gen_random_uuid env t) (itx_orderId v)
                           (itx_customerId v) (itx_userId v) (itx_type v)
                           (itx_amount v) (itx_paymentMethod v) (itx_upiApp v)
                           (itx_description v) (Some (now env t)) in
  if negb (numeric 10 (itx_amount v)) then inl NumericOverflow
  else if mem (t_id row) (map t_id (transactions s)) then inl UniqueViolation
  else if negb (mem_opt (itx_orderId v) (map o_id (orders s))
                && mem_opt (itx_customerId v) (customers s)
                && mem (itx_userId v) (users s))
  then inl ForeignKeyViolation
  else inr (row, with_transactions s (transactions s ++ [row])).

Definition insert_orders (v : InsertOrderOfUser) : M Order :=
  statement (InsertOrders v) (run_insert_orders v).

Definition insert_orderItems (v : InsertOrderItem) : M OrderItem :=
  statement (InsertOrderItems v) (run_insert_orderItems v).

Definition update_products_stock (pid : option Id) (q : option Numeral)
  : M unit :=
  statement (UpdateProductsStock pid q) (run_update_products_stock pid q).

Definition insert_stockMovements (v : InsertStockMovement) : M StockMovement :=
  statement (InsertStockMovements v) (run_insert_stockMovements v).

(** ** [DatabaseStorage] *)

(** The body of the loop of [createOrder], for one item. *)
Definition sell (order : InsertOrderOfUser) (newOrder : Order)
           (item : InsertOrderItem) : M unit :=
  insert_orderItems (spread_orderId item (o_id newOrder)) ;;;
  update_products_stock (it_productId item) (it_quantity item) ;;;
  insert_stockMovements
    (mkInsertStockMovement (it_productId item) (io_userId order) "out"
                           (neg_text (it_quantity item)) (Some "sale")
                           (Some (o_id newOrder)) None) ;;;
  ret tt.

Definition createOrder (order : InsertOrderOfUser)
           (items : list InsertOrderItem) : M Order :=
  db_transaction
    (newOrder <- insert_orders order ;;
     forEach (sell order newOrder) items ;;;
     ret newOrder).

Definition createTransaction (transaction : InsertTransaction)
  : M Transaction :=
  statement (InsertTransactions transaction)
            (run_insert_transactions transaction).

End Storage.

(** ** Derived reads *)

(** [sql`${products.stock} <= ${products.minStock}`]: a comparison with
    [NULL] is not true. *)
Definition lowStock (p : Product) : bool :=
  match p_minStock p with
  | Some m => p_stock p <=? m
  | None => false
  end.

Definition getLowStockProducts (s : Store) (userId : Id) : list Product :=
  filter (fun p => String.eqb (p_userId p) userId && lowStock p) (products s).

Definition msPerDay : Z := 86400000.

(** [d.setHours(h, m, s, ms)] on a [Date] of the local clock. *)
Definition setHours (date h m s ms : Z) : Z :=
  date - date mod msPerDay + ((h * 60 + m) * 60 + s) * 1000 + ms.

(** A [Date] bound as a query parameter, in the unit of the column. *)
Definition timestamp_of_Date (d : Z) : Z := d * 1000.

Definition sql_ge (x : option Z) (y : Z) : bool :=
  match x with Some v => y <=? v | None => false end.

Definition sql_le (x : option Z) (y : Z) : bool :=
  match x with Some v => v <=? y | None => false end.

(** [SUM(e)] over a set of rows: [NULL] over no row. *)
Definition sql_sum {A} (e : A -> Z) (rows : list A) : option Z :=
  match rows with
  | [] => None
  | _ => Some (fold_left (fun acc r => acc + e r) rows 0)
  end.

(** [COUNT(e)]: the rows where [e] is not [NULL]. *)
Definition sql_count {A B} (e : A -> option B) (rows : list A) : Z :=
  Z.of_nat (List.length (filter (fun r => match e r with
                                          | Some _ => true
                                          | None => false
                                          end) rows)).

Definition coalesce (v : option Z) (d : Z) : Z := or_default d v.

Record DailySales := mkDailySales {
  total : Z;
  upiTotal : Z;
  count : Z
}.

Definition getDailySales (s : Store) (userId : Id) (date : Z) : DailySales :=
  let startOfDay := setHours date 0 0 0 0 in
  let endOfDay := setHours date 23 59 59 999 in
  let rows :=
    filter (fun t => String.eqb (t_userId t) userId
                     && sql_ge (t_createdAt t) (timestamp_of_Date startOfDay)
                     && sql_le (t_createdAt t) (timestamp_of_Date endOfDay))
           (transactions s) in
  let results :=
    [ mkDailySales
        (coalesce (sql_sum (fun t => if String.eqb (t_type t) "sale"
                                     then t_amount t else 0) rows) 0)
        (coalesce (sql_sum (fun t => if String.eqb (t_type t) "sale"
                                        && String.eqb (t_paymentMethod t) "upi"
                                     then t_amount t else 0) rows) 0)
        (sql_count (fun t => if String.eqb (t_type t) "sale"
                             then Some 1 else None) rows) ] in
  hd (mkDailySales 0 0 0) results.

(** ** [POST /api/orders] *)

(** [req.body.order] as received. *)
Record OrderBody := mkOrderBody {
  ob_orderNumber : option string;
  ob_customerId : option Id;
  ob_status : option string;
  ob_paymentStatus : option string;
  ob_paymentMethod : option string;
  ob_upiApp : option string;
  ob_totalAmount : option Z;
  ob_paidAmount : option Z;
  ob_discountAmount : option Z;
  ob_gstAmount : option Z
}.

Record RequestBody := mkRequestBody {
  rb_order : OrderBody;
  rb_items : list InsertOrderItem
}.

Inductive Response :=
| Json (order : Order)
| Status (code : Z) (error : string).

(** [insertOrderSchema.parse]: [orderNumber] and [totalAmount] are the
    columns that are [notNull] without a default. *)
Definition insertOrderSchema_parse (b : OrderBody) : Exn + InsertOrder :=
  match ob_orderNumber b, ob_totalAmount b with
  | Some n, Some a =>
      inr (mkInsertOrder n (ob_customerId b) (ob_status b)
                         (ob_paymentStatus b) (ob_paymentMethod b)
                         (ob_upiApp b) a (ob_paidAmount b)
                         (ob_discountAmount b) (ob_gstAmount b))
  | _, _ => inl ZodError
  end.

(** [insertOrderItemSchema]: every column of [order_items] but [id]; the
    [notNull] ones without a default are required. *)
Definition insertOrderItemSchema_accepts (item : InsertOrderItem) : bool :=
  match it_orderId item, it_productId item, it_quantity item,
        it_unitPrice item, it_totalPrice item with
  | Some _, Some _, Some _, Some _, Some _ => true
  | _, _, _, _, _ => false
  end.

(** [x || d] on a nullable text: [null] and the empty text are falsy. *)
Definition js_or (x : option string) (d : string) : string :=
  match x with
  | Some EmptyString => d
  | Some v => v
  | None => d
  end.

Definition post_api_orders (env : Env) (body : RequestBody)
  : World -> Response * World :=
  fun w =>
    let userId := "user-1" in
    let attempt :=
      validatedOrder <- lift (insertOrderSchema_parse (rb_order body)) ;;
      order <- createOrder env (withUser validatedOrder userId)
                           (rb_items body) ;;
      (if String.eqb (o_paymentStatus order) "paid"
       then createTransaction env
              (mkInsertTransaction (Some (o_id order)) (o_customerId order)
                 userId "sale" (o_totalAmount order)
                 (js_or (o_paymentMethod order) "cash") (o_upiApp order)
                 (Some (String.append "Sale for order "
                                      (o_orderNumber order)))) ;;;
            ret tt
       else ret tt) ;;;
      ret order in
    match attempt w with
    | (inr order, w') => (Json order, w')
    | (inl ZodError, w') => (Status 400 "Invalid order data", w')
    | (inl _, w') => (Status 500 "Failed to create order", w')
    end.

(** ** A shop to run the operations on *)

Module Shop.

(** The n-th generated identifier: a mark followed by n strokes. *)
Fixpoint strokes (n : nat) : string :=
  match n with
  | O => EmptyString
  | S k => String.append "|" (strokes k)
  end.

Definition uuid (n : nat) : Id := String.append "#" (strokes n).

Definition env : Env := mkEnv uuid (fun n => Z.of_nat n) (fun _ => false).

(** The same surroundings, except that the sixth statement is lost. *)
Definition flaky : Env :=
  mkEnv uuid (fun n => Z.of_nat n) (fun n => Nat.eqb n 5).

Definition productA : Product :=
  mkProduct "A" "Atta" "user-1" 5000 10000 "kg" (Some 9000).
Definition productB : Product :=
  mkProduct "B" "Besan" "user-1" 2000 1000 "kg" (Some 0).

Definition store : Store :=
  mkStore ["user-1"] ["c1"] [productA; productB] [] [] [] [].

Definition world : World := mkWorld store [].

Definition header : InsertOrder :=
  mkInsertOrder "ORD-1" None (Some "completed") (Some "paid") (Some "upi")
                None 12000 (Some 12000) None None.

Definition itemA : InsertOrderItem :=
  mkItem None (Some "A") (Some (milli 2000)) (Some 5000) (Some 10000) None.
Definition itemB : InsertOrderItem :=
  mkItem None (Some "B") (Some (milli 1000)) (Some 2000) (Some 2000) None.
(** An item for a product the shop does not have. *)
Definition itemC : InsertOrderItem :=
  mkItem None (Some "C") (Some (milli 1000)) (Some 100) (Some 100) None.

Definition order : InsertOrderOfUser := withUser header "user-1".
Definition cart : list InsertOrderItem := [itemA; itemB].
Definition cart3 : list InsertOrderItem := [itemA; itemB; itemC].
(** Five kilograms of a product of which one is left. *)
Definition greedy : list InsertOrderItem :=
  [mkItem None (Some "B") (Some (milli 5000)) (Some 2000) (Some 10000)
          None].

Definition newOrder : Order :=
  mkOrder "#" "ORD-1" None "user-1" "completed" "paid" (Some "upi") None
          12000 (Some 12000) (Some 0) (Some 0) (Some 0).

(** A kilogram and half a gram of the first product: "1.0005". *)
Definition sliver : InsertOrderItem :=
  mkItem None (Some "A") (Some (mkNumeral 10005 4)) (Some 5000) (Some 5003)
         None.

(** The shop after the cart is sold, after the sale of [cart3] is refused,
    and after the sliver is sold. *)
Definition sold : World :=
  Eval vm_compute in snd (createOrder env order cart world).
Definition refused : World :=
  Eval vm_compute in snd (createOrder env order cart3 world).
Definition slivered : World :=
  Eval vm_compute in snd (createOrder env order [sliver] world).

(** The shop inside the transaction that sells the cart, at the moment the
    sixth statement is lost. *)
Definition interrupted : World :=
  Eval vm_compute in
    snd ((newOrder <- insert_orders flaky order ;;
          forEach (sell flaky order newOrder) cart ;;;
          ret newOrder) world).

(** Requests.  [request] is the paid sale of [cart]; [walk_in] is a paid sale
    that names no payment method; [careless] has an item without product. *)
Definition paid (method : option string) : OrderBody :=
  mkOrderBody (Some "ORD-1") None (Some "completed") (Some "paid") method
              None (Some 12000) (Some 12000) None None.

Definition request : RequestBody := mkRequestBody (paid (Some "upi")) cart.
Definition walk_in : RequestBody := mkRequestBody (paid None) cart.

Definition item_without_product : InsertOrderItem :=
  mkItem None None (Some (milli 1000)) (Some 100) (Some 100) None.
Definition careless : RequestBody :=
  mkRequestBody (paid (Some "upi")) [item_without_product].

Definition walk_in_order : Order :=
  mkOrder "#" "ORD-1" None "user-1" "completed" "paid" None None
          12000 (Some 12000) (Some 0) (Some 0) (Some 0).
Definition walk_in_sold : World :=
  Eval vm_compute in snd (post_api_orders env walk_in world).

(** A ledger around day 20000 of the local clock.  [day] is its first
    instant, in milliseconds. *)
Definition day : Z := 20000 * msPerDay.

Definition entry (id userId type : string) (amount : Z) (method : string)
           (createdAt : Z) : Transaction :=
  mkTransaction id None None userId type amount method None None
                (Some createdAt).

Definition ledger : list Transaction :=
  [ entry "t1" "user-1" "sale" 10000 "upi" (day * 1000);
    entry "t2" "user-1" "sale" 25050 "cash" ((day + 43200000) * 1000);
    entry "t3" "user-1" "sale" 4000 "cash" ((day + 86399999) * 1000);
    entry "t4" "user-1" "sale" 99900 "cash" ((day + 86400000) * 1000);
    entry "t5" "user-1" "sale" 77700 "upi" ((day - 1) * 1000);
    entry "t6" "user-1" "purchase" 55500 "cash" ((day + 1000) * 1000);
    entry "t7" "user-2" "sale" 33300 "upi" ((day + 2000) * 1000) ].

Definition books : Store := mkStore ["user-1"; "user-2"] [] [] [] [] ledger [].

End Shop.


(** ** What a sale is meant to leave behind *)

(** The statements [createOrder] issues for one item, in order. *)
Definition sell_statements (order : InsertOrderOfUser) (orderId : Id)
           (item : InsertOrderItem) : list Statement :=
  [ InsertOrderItems (spread_orderId item orderId);
    UpdateProductsStock (it_productId item) (it_quantity item);
    InsertStockMovements
      (mkInsertStockMovement (it_productId item) (io_userId order) "out"
                             (neg_text (it_quantity item)) (Some "sale")
                             (Some orderId) None) ].

(** The quantity of product [pid] asked for by one item, and by a cart, as
    the rows of [order_items] record it. *)
Definition asks (pid : Id) (item : InsertOrderItem) : Z :=
  match it_productId item, it_quantity item with
  | Some p, Some q => if String.eqb pid p then stored3 q else 0
  | _, _ => 0
  end.

Fixpoint demand (items : list InsertOrderItem) (pid : Id) : Z :=
  match items with
  | [] => 0
  | item :: rest => asks pid item + demand rest pid
  end.

(** A product after one item has been taken from its stock, and after a cart
    has, item after item. *)
Definition take (item : InsertOrderItem) (p : Product) : Product :=
  match it_productId item, it_quantity item with
  | Some pid, Some q =>
      if String.eqb (p_id p) pid then set_stock p (minus3 (p_stock p) q)
      else p
  | _, _ => p
  end.

Definition deplete (items : list InsertOrderItem) (p : Product) : Product :=
  fold_left (fun left item => take item left) items p.

(** The items of the cart that name product [pid]. *)
Definition naming (pid : Id) (items : list InsertOrderItem)
  : list InsertOrderItem :=
  filter (fun item => refers (it_productId item) pid) items.

(** Every quantity of the cart is written with three decimals at most. *)
Definition three_decimals (items : list InsertOrderItem) : bool :=
  forallb (fun item => match it_quantity item with
                       | Some q => in_thousandths q
                       | None => true
                       end) items.

(** The row of [order_items] that belongs to an item of the cart. *)
Definition item_row (orderId : Id) (item : InsertOrderItem)
           (row : OrderItem) : Prop :=
  oi_orderId row = orderId
  /\ it_productId item = Some (oi_productId row)
  /\ option_map stored3 (it_quantity item) = Some (oi_quantity row)
  /\ it_unitPrice item = Some (oi_unitPrice row)
  /\ it_totalPrice item = Some (oi_totalPrice row).

(** The row of [stock_movements] that belongs to an item of the cart. *)
Definition movement_row (userId orderId : Id) (item : InsertOrderItem)
           (row : StockMovement) : Prop :=
  it_productId item = Some (sm_productId row)
  /\ (exists q, it_quantity item = Some q /\ sm_quantity row = - stored3 q)
  /\ sm_type row = "out"
  /\ sm_reason row = Some "sale"
  /\ sm_orderId row = Some orderId
  /\ sm_userId row = userId.

(** The same item with another [orderId] written in it by the caller. *)
Definition claim_orderId (x : option Id) (item : InsertOrderItem)
  : InsertOrderItem :=
  mkItem x (it_productId item) (it_quantity item) (it_unitPrice item)
         (it_totalPrice item) (it_gstRate item).

(** ** What the database asks of a sale, stock aside *)

Definition header_ok (s : Store) (order : InsertOrderOfUser) : bool :=
  mem (io_userId order) (users s)
  && mem_opt (io_customerId order) (customers s)
  && numeric 10 (io_totalAmount order)
  && numeric_opt 10 (io_paidAmount order)
  && numeric_opt 10 (io_discountAmount order)
  && numeric_opt 10 (io_gstAmount order).

Definition item_ok (productIds : list Id) (item : InsertOrderItem) : bool :=
  match it_productId item, it_quantity item,
        it_unitPrice item, it_totalPrice item with
  | Some pid, Some q, Some up, Some tp =>
      mem pid productIds && (0 <=? digits q) && numeric 10 (stored3 q)
      && numeric 10 up && numeric 10 tp && numeric_opt 5 (it_gstRate item)
  | _, _, _, _ => false
  end.

(** What must hold before each turn of the loop for the rest of the cart to
    go through.  Nothing here compares a stock with a quantity asked, except
    that the result must still fit the column. *)
Definition ready (env : Env) (userId orderId : Id) (items : list InsertOrderItem)
           (w : World) : Prop :=
  (forall t, (List.length (journal w) <= t)%nat -> fails env t = false)
  /\ (forall a b, (List.length (journal w) <= a < b)%nat ->
                  gen_random_uuid env a <> gen_random_uuid env b)
  /\ (forall t, (List.length (journal w) <= t)%nat ->
                ~ In (gen_random_uuid env t) (map oi_id (orderItems (db w)))
                /\ ~ In (gen_random_uuid env t)
                        (map sm_id (stockMovements (db w))))
  /\ In userId (users (db w))
  /\ In orderId (map o_id (orders (db w)))
  /\ forallb (item_ok (map p_id (products (db w)))) items = true
  /\ (forall p, In p (products (db w)) ->
                - 10000000000 < p_stock (deplete items p)
                /\ p_stock p < 10000000000).

(** ** The daily aggregate, as the specification words it *)

Definition sumZ {A} (e : A -> Z) (l : list A) : Z :=
  fold_right (fun r acc => e r + acc) 0 l.

(** 00:00:00.000 and 23:59:59.999 of the day of [date], in milliseconds. *)
Definition firstInstant (date : Z) : Z := date - date mod msPerDay.
Definition lastInstant (date : Z) : Z := firstInstant date + (msPerDay - 1).

Definition within_day (date : Z) (createdAt : option Z) : bool :=
  match createdAt with
  | Some c => (firstInstant date * 1000 <=? c) && (c <=? lastInstant date * 1000)
  | None => false
  end.

(** The sales of a user on the day of [date]. *)
Definition sales_of_day (s : Store) (userId : Id) (date : Z)
  : list Transaction :=
  filter (fun t => String.eqb (t_userId t) userId
                   && String.eqb (t_type t) "sale"
                   && within_day date (t_createdAt t))
         (transactions s).

Definition dailySales_spec (s : Store) (userId : Id) (date : Z) : DailySales :=
  let sales := sales_of_day s userId date in
  mkDailySales
    (sumZ t_amount sales)
    (sumZ t_amount
          (filter (fun t => String.eqb (t_paymentMethod t) "upi") sales))
    (Z.of_nat (List.length sales)).

(** * The rest of the storage and of the routes *)

(** ** Reads by key *)

(** [const [row] = await db.select()...where(eq(id, ...)); return row ||
    undefined] *)
Definition getProduct (s : Store) (id : Id) : option Product :=
  hd_error (filter (fun p => String.eqb (p_id p) id) (products s)).

Definition getOrder (s : Store) (id : Id) : option Order :=
  hd_error (filter (fun o => String.eqb (o_id o) id) (orders s)).

(** [.from(orderItems).innerJoin(products, eq(orderItems.productId,
    products.id))] *)
Definition innerJoin_products (items : list OrderItem) (ps : list Product)
  : list (OrderItem * Product) :=
  flat_map (fun oi => map (pair oi)
                          (filter (fun p => String.eqb (oi_productId oi)
                                                       (p_id p)) ps))
           items.

Definition getOrderWithItems (s : Store) (id : Id)
  : option (Order * list (OrderItem * Product)) :=
  match hd_error (filter (fun o => String.eqb (o_id o) id) (orders s)) with
  | None => None
  | Some order =>
      Some (order,
            filter (fun row => String.eqb (oi_orderId (fst row)) id)
                   (innerJoin_products (orderItems s) (products s)))
  end.

Record DashboardStats := mkDashboardStats {
  todaySales : Z;
  ordersCount : Z;
  lowStockCount : Z;
  upiCollection : Z
}.

(** [today] is what [new Date()] reads when the function is called. *)
Definition getDashboardStats (s : Store) (userId : Id) (today : Z)
  : DashboardStats :=
  let dailySales := getDailySales s userId today in
  let lowStockProducts := getLowStockProducts s userId in
  mkDashboardStats (total dailySales) (count dailySales)
                   (Z.of_nat (List.length lowStockProducts))
                   (upiTotal dailySales).

(** ** Deletions *)

(** [db.delete(orders).where(eq(orders.id, id))], as a database that is
    reached executes it: the references to [orders.id] declared in the schema
    have no [onDelete], so a row that is referred to stays. *)
Definition deleteOrder (s : Store) (id : Id) : PgError + Store :=
  if existsb (fun o => String.eqb (o_id o) id) (orders s)
     && (existsb (fun r => String.eqb (oi_orderId r) id) (orderItems s)
         || existsb (fun t => refers (t_orderId t) id) (transactions s)
         || existsb (fun m => refers (sm_orderId m) id) (stockMovements s))
  then inl ForeignKeyViolation
  else inr (with_orders s (filter (fun o => negb (String.eqb (o_id o) id))
                                  (orders s))).

(** [db.delete(products).where(eq(products.id, id))], likewise. *)
Definition deleteProduct (s : Store) (id : Id) : PgError + Store :=
  if existsb (fun p => String.eqb (p_id p) id) (products s)
     && (existsb (fun r => String.eqb (oi_productId r) id) (orderItems s)
         || existsb (fun m => String.eqb (sm_productId m) id)
                    (stockMovements s))
  then inl ForeignKeyViolation
  else inr (with_products s (filter (fun p => negb (String.eqb (p_id p) id))
                                    (products s))).

(** ** Manual stock adjustment *)

Section Adjustment.

Variable env : Env.

Definition createStockMovement (movement : InsertStockMovement)
  : M StockMovement :=
  statement env (InsertStockMovements movement)
            (run_insert_stockMovements env movement).

(** [update(products).set({ stock: sql`stock + ${quantity}` })
    .where(eq(id, ...)).returning()] *)
Definition run_updateProductStock (id : Id) (quantity : Numeral) (t : nat)
           (s : Store) : PgError + option Product * Store :=
  if forallb (fun p => negb (String.eqb (p_id p) id)
                       || numeric 10 (plus3 (p_stock p) quantity))
             (products s)
  then
    let ps := map (fun p => if String.eqb (p_id p) id
                            then set_stock p (plus3 (p_stock p) quantity)
                            else p) (products s) in
    inr (hd_error (filter (fun p => String.eqb (p_id p) id) ps),
         with_products s ps)
  else inl NumericOverflow.

(** Journalled as the lowering of the stock by the opposite quantity, which
    is the same update. *)
Definition updateProductStock (id : Id) (quantity : Numeral)
  : M (option Product) :=
  statement env (UpdateProductsStock (Some id) (Some (opposite quantity)))
            (run_updateProductStock id quantity).

End Adjustment.

(** What a route other than [POST /api/orders] answers. *)
Inductive Reply (A : Type) :=
| Sent (a : A)
| Refused (code : Z) (error : string).

Arguments Sent {A} a.
Arguments Refused {A} code error.

(** [PUT /api/products/:id/stock], with [quantity] the number in the body:
    it is a parameter of the update as it is, and [Math.abs(quantity)
    .toString()] is the text of the movement. *)
Definition put_api_products_stock (env : Env) (id : Id) (quantity : Numeral)
  : World -> Reply (option Product) * World :=
  fun w =>
    let userId := "user-1" in
    let attempt :=
      product <- updateProductStock env id quantity ;;
      createStockMovement env
        (mkInsertStockMovement (Some id) userId
           (if 0 <? digits quantity then "in" else "out")
           (Some (magnitude quantity)) (Some "adjustment") None
           (Some "Manual stock adjustment")) ;;;
      ret product in
    match attempt w with
    | (inr product, w') => (Sent product, w')
    | (inl _, w') => (Refused 500 "Failed to update product stock", w')
    end.

(** ** [POST /api/transactions] *)

(** [req.body] as received. *)
Record TransactionBody := mkTransactionBody {
  tb_orderId : option Id;
  tb_customerId : option Id;
  tb_type : option string;
  tb_amount : option Z;
  tb_paymentMethod : option string;
  tb_upiApp : option string;
  tb_description : option string
}.

(** [insertTransactionSchema.parse], then [{ ...transactionData, userId }]:
    [type], [amount] and [paymentMethod] are the columns that are [notNull]
    without a default. *)
Definition insertTransactionSchema_parse (b : TransactionBody)
  : Exn + (Id -> InsertTransaction) :=
  match tb_type b, tb_amount b, tb_paymentMethod b with
  | Some ty, Some a, Some m =>
      inr (fun userId =>
             mkInsertTransaction (tb_orderId b) (tb_customerId b) userId ty a
                                 m (tb_upiApp b) (tb_description b))
  | _, _, _ => inl ZodError
  end.

Definition post_api_transactions (env : Env) (body : TransactionBody)
  : World -> Reply Transaction * World :=
  fun w =>
    let userId := "user-1" in
    let attempt :=
      transactionData <- lift (insertTransactionSchema_parse body) ;;
      createTransaction env (transactionData userId) in
    match attempt w with
    | (inr transaction, w') => (Sent transaction, w')
    | (inl ZodError, w') => (Refused 400 "Invalid transaction data", w')
    | (inl _, w') => (Refused 500 "Failed to create transaction", w')
    end.

(** ** Tables that agree with their schema *)

(** Primary keys are unique and every reference declared in the schema leads
    to a row. *)
Record consistent (s : Store) : Prop := mkConsistent {
  products_key : NoDup (map p_id (products s));
  orders_key : NoDup (map o_id (orders s));
  orderItems_key : NoDup (map oi_id (orderItems s));
  transactions_key : NoDup (map t_id (transactions s));
  stockMovements_key : NoDup (map sm_id (stockMovements s));
  products_refs :
    Forall (fun p => In (p_userId p) (users s)) (products s);
  orders_refs :
    Forall (fun o => In (o_userId o) (users s)
                     /\ mem_opt (o_customerId o) (customers s) = true)
           (orders s);
  orderItems_refs :
    Forall (fun r => In (oi_orderId r) (map o_id (orders s))
                     /\ In (oi_productId r) (map p_id (products s)))
           (orderItems s);
  transactions_refs :
    Forall (fun t => mem_opt (t_orderId t) (map o_id (orders s)) = true
                     /\ mem_opt (t_customerId t) (customers s) = true
                     /\ In (t_userId t) (users s))
           (transactions s);
  stockMovements_refs :
    Forall (fun m => In (sm_productId m) (map p_id (products s))
                     /\ In (sm_userId m) (users s)
                     /\ mem_opt (sm_orderId m) (map o_id (orders s)) = true)
           (stockMovements s)
}.

(** A computation keeps a property of the tables when it holds after any
    run, returning or throwing, that started with it. *)
Definition keeps (P : Store -> Prop) {A} (m : M A) : Prop :=
  forall w r w', P (db w) -> m w = (r, w') -> P (db w').

(** The ledger figures of a day added up. *)
Definition plus_sales (a b : DailySales) : DailySales :=
  mkDailySales (total a + total b) (upiTotal a + upiTotal b)
               (count a + count b).

(** What one ledger entry weighs in the figures of a user and a day. *)
Definition weight (userId : Id) (date : Z) (t : Transaction) : DailySales :=
  if String.eqb (t_userId t) userId && String.eqb (t_type t) "sale"
     && within_day date (t_createdAt t)
  then mkDailySales (t_amount t)
                    (if String.eqb (t_paymentMethod t) "upi"
                     then t_amount t else 0) 1
  else mkDailySales 0 0 0.

(** The movements of a product added up. *)
Definition moved (pid : Id) (mvs : list StockMovement) : Z :=
  sumZ sm_quantity (filter (fun m => String.eqb (sm_productId m) pid) mvs).

(** The ledger entry that [POST /api/orders] writes for a paid order. *)
Definition sale_entry (order : Order) : InsertTransaction :=
  mkInsertTransaction (Some (o_id order)) (o_customerId order) "user-1"
    "sale" (o_totalAmount order) (js_or (o_paymentMethod order) "cash")
    (o_upiApp order)
    (Some (String.append "Sale for order " (o_orderNumber order))).

(** A computation whose only exceptions come from the database. *)
Definition database_only {A} (m : M A) : Prop :=
  forall w e w', m w = (inl e, w') -> exists pe, e = DatabaseError pe.

(** The same tables with the owner of every product renamed. *)
Definition set_owner (p : Product) (userId : Id) : Product :=
  mkProduct (p_id p) (p_name p) userId (p_price p) (p_stock p) (p_unit p)
            (p_minStock p).

Definition reown (f : Id -> Id) (s : Store) : Store :=
  with_products s (map (fun p => set_owner p (f (p_userId p))) (products s)).

Definition reown_world (f : Id -> Id) (w : World) : World :=
  mkWorld (reown f (db w)) (journal w).

(** A computation that does not look at the owners of the products: run on
    tables where they are renamed, it does the same and leaves the same
    tables, renamed. *)
Definition blind (f : Id -> Id) {A} (m : M A) : Prop :=
  forall w, m (reown_world f w) = (fst (m w), reown_world f (snd (m w))).

Definition reown_run (f : Id -> Id) {A} (r : PgError + A * Store)
  : PgError + A * Store :=
  match r with
  | inl e => inl e
  | inr (a, s) => inr (a, reown f s)
  end.

(** ** More of the shop *)

Module Till.

(** Surroundings in which the second statement is lost. *)
Definition halting : Env :=
  mkEnv Shop.uuid (fun n => Z.of_nat n) (fun n => Nat.eqb n 1).

(** The sale of [Shop.cart] left unpaid. *)
Definition unpaid : RequestBody :=
  mkRequestBody
    (mkOrderBody (Some "ORD-2") None None None None None (Some 12000) None
                 None None)
    Shop.cart.

Definition unpaid_order : Order :=
  mkOrder "#" "ORD-2" None "user-1" "pending" "pending" None None
          12000 (Some 0) (Some 0) (Some 0) (Some 0).

Definition after_unpaid : World :=
  Eval vm_compute in snd (post_api_orders Shop.env unpaid Shop.world).

Definition after_paid : World :=
  Eval vm_compute in snd (post_api_orders Shop.env Shop.request Shop.world).

(** A header with nothing in it. *)
Definition blank : RequestBody :=
  mkRequestBody
    (mkOrderBody None None None None None None None None None None) Shop.cart.

(** An order for no item at all, and the shop after it. *)
Definition after_bare : World :=
  Eval vm_compute in snd (createOrder Shop.env Shop.order [] Shop.world).

(** A return of two kilograms, written as a negative quantity. *)
Definition returned : InsertOrderItem :=
  mkItem None (Some "A") (Some (milli (-2000))) (Some 5000)
         (Some (-10000)) None.

(** Half a gram added to a stock. *)
Definition pinch : Numeral := mkNumeral 5 4.

(** Ledger entries as posted. *)
Definition expense : TransactionBody :=
  mkTransactionBody None None (Some "expense") (Some 4500) (Some "cash")
                    None (Some "tea").
Definition orphan : TransactionBody :=
  mkTransactionBody (Some "no such order") None (Some "sale") (Some 4500)
                    (Some "cash") None None.

(** Everything handed over to another user. *)
Definition handover (userId : Id) : Id := "user-2".

End Till.

(** * Proofs *)

(** ** Generic facts *)

Lemma mem_In (x : Id) (l : list Id) : mem x l = true <-> In x l.
Proof.
  unfold mem. rewrite existsb_exists. split.
  - intros [y [Hy E]]. apply String.eqb_eq in E. now subst.
  - intros H. exists x. split; [assumption | apply String.eqb_refl].
Qed.

Lemma mem_not_In (x : Id) (l : list Id) : mem x l = false <-> ~ In x l.
Proof.
  rewrite <- mem_In. destruct (mem x l); split; intros H;
    try reflexivity; try discriminate; try (intros E; discriminate).
  exfalso. now apply H.
Qed.

(** ** Numerals and their rounding *)

Lemma unit_of_pos (x : Numeral) : 0 < unit_of x.
Proof. unfold unit_of. apply Z.pow_pos_nonneg; lia. Qed.

(** The quotient of a rounding, between its bounds. *)
Lemma round_div_pos (n d : Z) :
  0 < d -> 0 <= n ->
  round_div n d = (2 * n + d) / (2 * d)
  /\ 2 * d * round_div n d <= 2 * n + d < 2 * d * round_div n d + 2 * d.
Proof.
  intros Hd Hn. unfold round_div. rewrite (Z.abs_eq n) by assumption.
  assert (E : Z.sgn n * ((2 * n + d) / (2 * d)) = (2 * n + d) / (2 * d)).
  { destruct (Z.eq_dec n 0) as [-> | Hne].
    - change (Z.sgn 0) with 0. rewrite Z.mul_0_l. symmetry.
      apply Z.div_small. lia.
    - rewrite Z.sgn_pos by lia. apply Z.mul_1_l. }
  rewrite E. split; [reflexivity|].
  pose proof (Z.mul_div_le (2 * n + d) (2 * d)).
  pose proof (Z.mul_succ_div_gt (2 * n + d) (2 * d)). lia.
Qed.

Lemma round_div_opp (n d : Z) : round_div (- n) d = - round_div n d.
Proof. unfold round_div. rewrite Z.sgn_opp, Z.abs_opp. lia. Qed.

Lemma round_div_neg (n d : Z) :
  0 < d -> n <= 0 ->
  2 * d * round_div n d - 2 * d < 2 * n - d <= 2 * d * round_div n d.
Proof.
  intros Hd Hn. replace n with (- - n) by lia. rewrite round_div_opp.
  destruct (@round_div_pos (- n) d Hd) as [_ H]; lia.
Qed.

Lemma round_div_mul (m d : Z) : 0 < d -> round_div (m * d) d = m.
Proof.
  intros Hd. destruct (Z.le_gt_cases 0 m) as [Hm | Hm].
  - destruct (@round_div_pos (m * d) d Hd) as [_ H]; nia.
  - pose proof (@round_div_neg (m * d) d Hd). nia.
Qed.

Lemma round_div_nonneg (n d : Z) : 0 < d -> 0 <= n -> 0 <= round_div n d.
Proof. intros Hd Hn. destruct (round_div_pos Hd Hn) as [_ H]. nia. Qed.

Lemma round_div_below (n d s : Z) :
  0 < d -> n <= s * d -> round_div n d <= s.
Proof.
  intros Hd H. destruct (Z.le_gt_cases 0 n) as [Hn | Hn].
  - destruct (round_div_pos Hd Hn) as [_ B]. nia.
  - pose proof (@round_div_neg n d Hd). nia.
Qed.

(** Rounding a difference with an integer, against the difference with the
    rounded operand: the same, or one more when the operand ends in a half
    that the difference rounds the other way. *)
Lemma round_div_shift (s n d : Z) :
  0 < d -> 0 <= n ->
  s - round_div n d <= round_div (s * d - n) d <= s - round_div n d + 1.
Proof.
  intros Hd Hn. destruct (round_div_pos Hd Hn) as [_ B].
  destruct (Z.le_gt_cases 0 (s * d - n)) as [Hm | Hm].
  - destruct (round_div_pos Hd Hm) as [_ C]. nia.
  - pose proof (@round_div_neg (s * d - n) d Hd). nia.
Qed.

Lemma round_div_short (s n d : Z) :
  0 < d -> s < round_div n d -> round_div (s * d - n) d < 0.
Proof.
  intros Hd H. destruct (Z.le_gt_cases 0 n) as [Hn | Hn].
  - destruct (round_div_pos Hd Hn) as [_ B].
    assert (Hm : s * d - n <= 0) by nia.
    pose proof (@round_div_neg (s * d - n) d Hd Hm). nia.
  - pose proof (@round_div_neg n d Hd).
    assert (Hm : s * d - n <= 0) by nia.
    pose proof (@round_div_neg (s * d - n) d Hd Hm). nia.
Qed.

Lemma stored3_opposite (x : Numeral) : stored3 (opposite x) = - stored3 x.
Proof.
  unfold stored3, opposite, unit_of. cbn [digits decimals].
  rewrite <- round_div_opp. f_equal. lia.
Qed.

Lemma stored3_magnitude (x : Numeral) :
  stored3 (magnitude x) = Z.abs (stored3 x).
Proof.
  unfold magnitude. destruct (Z.le_gt_cases 0 (digits x)) as [H | H].
  - rewrite Z.abs_eq by assumption.
    rewrite Z.abs_eq; [now destruct x|].
    apply round_div_nonneg; [apply unit_of_pos | lia].
  - replace (mkNumeral (Z.abs (digits x)) (decimals x)) with (opposite x)
      by (unfold opposite; f_equal; lia).
    rewrite stored3_opposite.
    assert (0 <= stored3 (opposite x)).
    { apply round_div_nonneg; [apply unit_of_pos | cbn; lia]. }
    rewrite stored3_opposite in *. lia.
Qed.

Lemma stored3_nonneg (x : Numeral) : 0 <= digits x -> 0 <= stored3 x.
Proof. intros H. apply round_div_nonneg; [apply unit_of_pos | lia]. Qed.

Lemma plus3_opposite (s : Z) (x : Numeral) :
  plus3 s x = minus3 s (opposite x).
Proof.
  unfold plus3, minus3, opposite, unit_of. cbn [digits decimals].
  f_equal. lia.
Qed.

Lemma in_thousandths_stored3 (x : Numeral) :
  in_thousandths x = true -> digits x * 1000 = stored3 x * unit_of x.
Proof.
  unfold in_thousandths. rewrite Z.eqb_eq. intros H.
  pose proof (unit_of_pos x) as Hu.
  apply Z.mod_divide in H; [|lia]. destruct H as [k E].
  unfold stored3. rewrite E, round_div_mul by assumption. reflexivity.
Qed.

Lemma minus3_exact (s : Z) (x : Numeral) :
  in_thousandths x = true -> minus3 s x = s - stored3 x.
Proof.
  intros H. unfold minus3. rewrite (in_thousandths_stored3 _ H).
  rewrite <- Z.mul_sub_distr_r. apply round_div_mul, unit_of_pos.
Qed.

Lemma plus3_exact (s : Z) (x : Numeral) :
  in_thousandths x = true -> plus3 s x = s + stored3 x.
Proof.
  intros H. unfold plus3. rewrite (in_thousandths_stored3 _ H).
  rewrite <- Z.mul_add_distr_r. apply round_div_mul, unit_of_pos.
Qed.

Lemma minus3_le (s : Z) (x : Numeral) : 0 <= digits x -> minus3 s x <= s.
Proof.
  intros H. apply round_div_below; [apply unit_of_pos|].
  pose proof (unit_of_pos x). nia.
Qed.

Lemma minus3_near (s : Z) (x : Numeral) :
  0 <= digits x -> s - stored3 x <= minus3 s x <= s - stored3 x + 1.
Proof.
  intros H. apply round_div_shift; [apply unit_of_pos | lia].
Qed.

Lemma minus3_short (s : Z) (x : Numeral) : s < stored3 x -> minus3 s x < 0.
Proof. intros H. apply round_div_short; [apply unit_of_pos | exact H]. Qed.

(** ** Stock *)

Lemma set_stock_same (p : Product) : set_stock p (p_stock p) = p.
Proof. now destruct p. Qed.

Lemma set_stock_twice (p : Product) (a b : Z) :
  set_stock (set_stock p a) b = set_stock p b.
Proof. reflexivity. Qed.

Lemma deplete_nil (ps : list Product) : map (deplete []) ps = ps.
Proof.
  induction ps as [|p ps IH]; [reflexivity|].
  cbn [map]. rewrite IH. reflexivity.
Qed.

Lemma deplete_cons (pid : Id) (q : Numeral) (item : InsertOrderItem)
      (rest : list InsertOrderItem) (ps : list Product) :
  it_productId item = Some pid ->
  it_quantity item = Some q ->
  map (deplete rest)
      (map (fun p => if String.eqb (p_id p) pid
                     then set_stock p (minus3 (p_stock p) q) else p) ps)
  = map (deplete (item :: rest)) ps.
Proof.
  intros Hp Hq. rewrite map_map. apply map_ext. intros p.
  unfold deplete. cbn [fold_left]. unfold take. rewrite Hp, Hq.
  reflexivity.
Qed.

Lemma deplete_snoc (items : list InsertOrderItem) (item : InsertOrderItem)
      (p : Product) :
  deplete (items ++ [item]) p = take item (deplete items p).
Proof. unfold deplete. now rewrite fold_left_app. Qed.

Lemma take_id (item : InsertOrderItem) (p : Product) :
  p_id (take item p) = p_id p.
Proof.
  unfold take. destruct (it_productId item); [|reflexivity].
  destruct (it_quantity item); [|reflexivity].
  now destruct (String.eqb (p_id p) i).
Qed.

Lemma deplete_id (items : list InsertOrderItem) :
  forall p, p_id (deplete items p) = p_id p.
Proof.
  induction items as [|item rest IH]; intros p; [reflexivity|].
  unfold deplete. cbn [fold_left]. fold (deplete rest (take item p)).
  now rewrite IH, take_id.
Qed.

(** A cart whose quantities have three decimals at most takes from each stock
    what its rows of [order_items] record. *)
Lemma deplete_three_decimals (items : list InsertOrderItem) :
  three_decimals items = true ->
  forall p, deplete items p
            = set_stock p (p_stock p - demand items (p_id p)).
Proof.
  induction items as [|item rest IH]; intros H p.
  - cbn [demand]. unfold deplete. cbn [fold_left].
    now rewrite Z.sub_0_r, set_stock_same.
  - unfold three_decimals in H. cbn [forallb] in H.
    apply andb_true_iff in H. destruct H as [Hitem Hrest].
    unfold deplete. cbn [fold_left]. fold (deplete rest (take item p)).
    rewrite (IH Hrest). cbn [demand]. rewrite take_id.
    unfold take, asks.
    destruct (it_productId item) as [pid|]; [|f_equal; lia].
    destruct (it_quantity item) as [q|]; [|f_equal; lia].
    destruct (String.eqb (p_id p) pid); [|f_equal; lia].
    cbn [p_stock set_stock].
    rewrite set_stock_twice, (minus3_exact _ _ Hitem). f_equal. lia.
Qed.

(** A product asked for by one item of the cart only is asked for that
    item's quantity. *)
Lemma demand_single (before after : list InsertOrderItem)
      (item : InsertOrderItem) (pid : Id) (q : Numeral) :
  it_productId item = Some pid ->
  it_quantity item = Some q ->
  (forall other, In other (before ++ after) ->
                 it_productId other <> Some pid) ->
  demand (before ++ item :: after) pid = stored3 q.
Proof.
  intros Hp Hq Hothers.
  assert (Z0 : forall l, (forall other, In other l ->
                                        it_productId other <> Some pid) ->
                         demand l pid = 0).
  { induction l as [|x l IH]; intros H; [reflexivity|].
    cbn [demand]. rewrite IH by (intros o Ho; apply H; now right).
    unfold asks. specialize (H x (or_introl eq_refl)).
    destruct (it_productId x) as [p|]; [|reflexivity].
    destruct (it_quantity x); [|reflexivity].
    destruct (String.eqb_spec pid p) as [-> | _]; [congruence | reflexivity]. }
  induction before as [|x before IH].
  - cbn [app demand]. rewrite (Z0 after Hothers).
    unfold asks. rewrite Hp, Hq, String.eqb_refl. lia.
  - cbn [app demand]. rewrite IH by (intros o Ho; apply Hothers; now right).
    specialize (Hothers x (or_introl eq_refl)).
    unfold asks. destruct (it_productId x) as [p|]; [|lia].
    destruct (it_quantity x); [|lia].
    destruct (String.eqb_spec pid p) as [-> | _]; [congruence | lia].
Qed.

(** Otherwise each item that names the product takes what its row records,
    or one thousandth less. *)
Lemma deplete_near (items : list InsertOrderItem) :
  Forall (fun item => exists q, it_quantity item = Some q
                                /\ 0 <= digits q) items ->
  forall p,
    p_stock p - demand items (p_id p) <= p_stock (deplete items p)
    <= p_stock p - demand items (p_id p)
       + Z.of_nat (List.length (naming (p_id p) items)).
Proof.
  induction 1 as [|item rest [q [Eq Hq]] _ IH]; intros p.
  - cbn. lia.
  - unfold deplete. cbn [fold_left]. fold (deplete rest (take item p)).
    specialize (IH (take item p)). rewrite take_id in IH.
    unfold naming in *. cbn [demand filter]. unfold take, asks, refers in *.
    rewrite Eq in *.
    destruct (it_productId item) as [pid|]; [|lia].
    rewrite (String.eqb_sym pid) in *.
    destruct (String.eqb (p_id p) pid); [|lia].
    cbn [p_stock set_stock List.length] in *.
    pose proof (minus3_near (p_stock p) q Hq). lia.
Qed.

(** ** The monad *)

Lemma bind_cases {A B} (m : M A) (k : A -> M B) (w w' : World)
      (r : Exn + B) :
  bind m k w = (r, w') ->
  (exists e, m w = (inl e, w') /\ r = inl e)
  \/ (exists a w1, m w = (inr a, w1) /\ k a w1 = (r, w')).
Proof.
  unfold bind. destruct (m w) as [[e | a] w1]; intros H.
  - left. exists e. now inversion H.
  - right. now exists a, w1.
Qed.

Lemma bind_inr {A B} (m : M A) (k : A -> M B) (w w' : World) (b : B) :
  bind m k w = (inr b, w') ->
  exists a w1, m w = (inr a, w1) /\ k a w1 = (inr b, w').
Proof.
  intros H. destruct (bind_cases _ _ _ H) as [[e [_ E]] | ?];
    [discriminate | assumption].
Qed.

Lemma ret_inv {A} (a b : A) (w w' : World) :
  ret a w = (inr b, w') -> a = b /\ w = w'.
Proof. unfold ret. intros H. now inversion H. Qed.

Section StorageFacts.

Variable env : Env.

Lemma statement_cases {A} (stmt : Statement)
      (run : nat -> Store -> PgError + A * Store) (w w' : World)
      (r : Exn + A) :
  statement env stmt run w = (r, w') ->
  journal w' = journal w ++ [stmt]
  /\ ((exists e, r = inl (DatabaseError e) /\ db w' = db w)
      \/ (exists a, r = inr a
                    /\ fails env (List.length (journal w)) = false
                    /\ run (List.length (journal w)) (db w)
                       = inr (a, db w'))).
Proof.
  unfold statement. destruct (fails env _).
  - intros H. inversion H. split; [reflexivity|]. left. now eexists.
  - destruct (run _ _) as [e | [a s']]; intros H; inversion H;
      (split; [reflexivity|]).
    + left. now eexists.
    + right. now exists a.
Qed.

Lemma statement_inr {A} (stmt : Statement)
      (run : nat -> Store -> PgError + A * Store) (w w' : World) (a : A) :
  statement env stmt run w = (inr a, w') ->
  journal w' = journal w ++ [stmt]
  /\ fails env (List.length (journal w)) = false
  /\ run (List.length (journal w)) (db w) = inr (a, db w').
Proof.
  intros H. destruct (statement_cases _ _ _ H) as [J [[e [E _]] | [b [E R]]]].
  - discriminate.
  - inversion E. subst b. now split.
Qed.

End StorageFacts.

(** ** What each statement does when the database accepts it *)

(** A run that ends in [inr] went past every check on its way: drop the
    branches where one of them refused. *)
Ltac accepted :=
  repeat match goal with
         | |- (if negb ?c then inl _ else _) = inr _ -> _ =>
             destruct c; [|discriminate]; cbn [negb]
         end.

Section Effects.

Variable env : Env.

Lemma run_insert_orders_inr (v : InsertOrderOfUser) (t : nat) (s s' : Store)
      (row : Order) :
  run_insert_orders env v t s = inr (row, s') ->
  row = orders_row env v t
  /\ s' = with_orders s (orders s ++ [row])
  /\ ~ In (o_id row) (map o_id (orders s)).
Proof.
  unfold run_insert_orders. cbv zeta. accepted.
  destruct (mem _ (map o_id (orders s))) eqn:Hpk; [discriminate|].
  accepted.
  intros H. inversion H. subst. repeat split.
  now apply mem_not_In.
Qed.

Lemma run_insert_orderItems_inr (v : InsertOrderItem) (t : nat)
      (s s' : Store) (row : OrderItem) :
  run_insert_orderItems env v t s = inr (row, s') ->
  s' = with_orderItems s (orderItems s ++ [row])
  /\ it_orderId v = Some (oi_orderId row)
  /\ it_productId v = Some (oi_productId row)
  /\ option_map stored3 (it_quantity v) = Some (oi_quantity row)
  /\ it_unitPrice v = Some (oi_unitPrice row)
  /\ it_totalPrice v = Some (oi_totalPrice row).
Proof.
  unfold run_insert_orderItems. cbv zeta. accepted.
  destruct (it_orderId v) as [oid|]; [|discriminate].
  destruct (it_productId v) as [pid|]; [|discriminate].
  destruct (it_quantity v) as [q|]; [|discriminate]. cbn [option_map].
  destruct (it_unitPrice v) as [up|]; [|discriminate].
  destruct (it_totalPrice v) as [tp|]; [|discriminate].
  destruct (mem _ (map oi_id (orderItems s))); [discriminate|].
  accepted.
  intros H. inversion H. subst. now repeat split.
Qed.

Lemma run_update_products_stock_inr (pid : option Id) (q : option Numeral)
      (t : nat) (s s' : Store) (u : unit) :
  run_update_products_stock pid q t s = inr (u, s') ->
  exists p0 q0,
    pid = Some p0 /\ q = Some q0
    /\ s' = with_products s
              (map (fun p => if String.eqb (p_id p) p0
                             then set_stock p (minus3 (p_stock p) q0) else p)
                   (products s)).
Proof.
  unfold run_update_products_stock.
  destruct pid as [p0|]; [|discriminate].
  destruct q as [q0|]; [|discriminate].
  destruct (forallb _ _); [|discriminate].
  intros H. inversion H. now exists p0, q0.
Qed.

Lemma run_insert_stockMovements_inr (v : InsertStockMovement) (t : nat)
      (s s' : Store) (row : StockMovement) :
  run_insert_stockMovements env v t s = inr (row, s') ->
  s' = with_stockMovements s (stockMovements s ++ [row])
  /\ ism_productId v = Some (sm_productId row)
  /\ option_map stored3 (ism_quantity v) = Some (sm_quantity row)
  /\ sm_type row = ism_type v
  /\ sm_reason row = ism_reason v
  /\ sm_orderId row = ism_orderId v
  /\ sm_userId row = ism_userId v.
Proof.
  unfold run_insert_stockMovements.
  destruct (ism_quantity v) as [q|]; [|discriminate].
  cbv zeta. accepted.
  destruct (ism_productId v) as [pid|]; [|discriminate].
  destruct (mem _ (map sm_id (stockMovements s))); [discriminate|].
  accepted.
  intros H. inversion H. subst. now repeat split.
Qed.

Lemma run_insert_transactions_inr (v : InsertTransaction) (t : nat)
      (s s' : Store) (row : Transaction) :
  run_insert_transactions env v t s = inr (row, s') ->
  s' = with_transactions s (transactions s ++ [row])
  /\ t_orderId row = itx_orderId v
  /\ t_customerId row = itx_customerId v
  /\ t_userId row = itx_userId v
  /\ t_type row = itx_type v
  /\ t_amount row = itx_amount v
  /\ t_paymentMethod row = itx_paymentMethod v
  /\ ~ In (t_id row) (map t_id (transactions s)).
Proof.
  unfold run_insert_transactions. cbv zeta. accepted.
  destruct (mem _ (map t_id (transactions s))) eqn:Hpk; [discriminate|].
  accepted.
  intros H. inversion H. subst. repeat split.
  now apply mem_not_In.
Qed.

(** One turn of the loop that runs to its end. *)
Lemma sell_effect (order : InsertOrderOfUser) (newOrder : Order)
      (item : InsertOrderItem) (w w' : World) :
  sell env order newOrder item w = (inr tt, w') ->
  exists oi mv pid q,
    item_row (o_id newOrder) item oi
    /\ movement_row (io_userId order) (o_id newOrder) item mv
    /\ it_productId item = Some pid /\ it_quantity item = Some q
    /\ 0 <= digits q
    /\ db w' =
       mkStore (users (db w)) (customers (db w))
               (map (fun p => if String.eqb (p_id p) pid
                              then set_stock p (minus3 (p_stock p) q) else p)
                    (products (db w)))
               (orders (db w)) (orderItems (db w) ++ [oi])
               (transactions (db w)) (stockMovements (db w) ++ [mv])
    /\ journal w' = journal w ++ sell_statements order (o_id newOrder) item.
Proof.
  unfold sell. intros H.
  apply bind_inr in H. destruct H as [oi [w1 [H1 H]]].
  apply bind_inr in H. destruct H as [u [w2 [H2 H]]].
  apply bind_inr in H. destruct H as [mv [w3 [H3 H]]].
  apply ret_inv in H. destruct H as [_ <-].
  apply statement_inr in H1. destruct H1 as [J1 [_ R1]].
  apply statement_inr in H2. destruct H2 as [J2 [_ R2]].
  apply statement_inr in H3. destruct H3 as [J3 [_ R3]].
  apply run_insert_orderItems_inr in R1.
  destruct R1 as [S1 [Io [Ip [Iq [Iu It]]]]].
  apply run_update_products_stock_inr in R2.
  destruct R2 as [pid [q [Ep [Eq S2]]]].
  apply run_insert_stockMovements_inr in R3.
  destruct R3 as [S3 [Mp [Mq [Mt [Mr [Mo Mu]]]]]].
  cbn [spread_orderId it_orderId it_productId it_quantity it_unitPrice
       it_totalPrice ism_productId ism_quantity ism_type ism_reason
       ism_orderId ism_userId] in Io, Ip, Iq, Iu, It, Mp, Mq, Mt, Mr, Mo, Mu.
  assert (Hq : 0 <= digits q /\ sm_quantity mv = - stored3 q).
  { rewrite Eq in Mq. cbn [neg_text] in Mq.
    destruct (Z.ltb_spec (digits q) 0) as [Hneg | Hpos]; [discriminate|].
    cbn [option_map] in Mq. rewrite stored3_opposite in Mq.
    split; [assumption | congruence]. }
  destruct Hq as [Hpos Em].
  exists oi, mv, pid, q.
  split; [repeat split; try assumption; congruence|].
  split; [repeat split; try assumption; now exists q|].
  repeat split; try assumption.
  - rewrite S3, S2, S1. reflexivity.
  - rewrite J3, J2, J1. unfold sell_statements.
    rewrite <- !app_assoc. reflexivity.
Qed.

(** The whole loop, by induction on the cart. *)
Lemma forEach_sell_effect (order : InsertOrderOfUser) (newOrder : Order)
      (items : list InsertOrderItem) :
  forall w w',
    forEach (sell env order newOrder) items w = (inr tt, w') ->
    exists ois mvs,
      Forall2 (item_row (o_id newOrder)) items ois
      /\ Forall2 (movement_row (io_userId order) (o_id newOrder)) items mvs
      /\ db w' =
         mkStore (users (db w)) (customers (db w))
                 (map (deplete items) (products (db w)))
                 (orders (db w)) (orderItems (db w) ++ ois)
                 (transactions (db w)) (stockMovements (db w) ++ mvs)
      /\ journal w' =
         journal w ++ flat_map (sell_statements order (o_id newOrder)) items.
Proof.
  induction items as [|item rest IH]; intros w w' H.
  - apply ret_inv in H. destruct H as [_ <-].
    exists [], []. repeat split; try constructor.
    + rewrite deplete_nil, !app_nil_r. now destruct (db w).
    + cbn. now rewrite app_nil_r.
  - cbn [forEach] in H. apply bind_inr in H.
    destruct H as [[] [w1 [H1 H2]]].
    apply sell_effect in H1.
    destruct H1 as [oi [mv [pid [q [Hi [Hm [Hp [Hq [_ [D1 J1]]]]]]]]]].
    apply IH in H2. destruct H2 as [ois [mvs [Fi [Fm [D2 J2]]]]].
    exists (oi :: ois), (mv :: mvs).
    repeat split; try (constructor; assumption).
    + rewrite D2, D1. cbn [users customers products orders orderItems
                           transactions stockMovements].
      rewrite (deplete_cons item rest _ Hp Hq), <- !app_assoc. reflexivity.
    + rewrite J2, J1. cbn [flat_map]. now rewrite <- app_assoc.
Qed.

(** A loop that runs to its end met no negative quantity. *)
Lemma forEach_sell_quantities (order : InsertOrderOfUser)
      (newOrder : Order) (items : list InsertOrderItem) :
  forall w w',
    forEach (sell env order newOrder) items w = (inr tt, w') ->
    Forall (fun item => exists q, it_quantity item = Some q
                                  /\ 0 <= digits q) items.
Proof.
  induction items as [|item rest IH]; intros w w' H; [constructor|].
  cbn [forEach] in H. apply bind_inr in H. destruct H as [[] [w1 [H1 H2]]].
  apply sell_effect in H1.
  destruct H1 as [_ [_ [_ [q [_ [_ [_ [Hq [Hpos _]]]]]]]]].
  constructor; [now exists q | eapply IH; eassumption].
Qed.

(** [createOrder] that returns: the rows it leaves and the statements it
    sent. *)
Lemma createOrder_effect (order : InsertOrderOfUser)
      (items : list InsertOrderItem) (w w' : World) (newOrder : Order) :
  createOrder env order items w = (inr newOrder, w') ->
  newOrder = orders_row env order (List.length (journal w))
  /\ ~ In (o_id newOrder) (map o_id (orders (db w)))
  /\ exists ois mvs,
      Forall2 (item_row (o_id newOrder)) items ois
      /\ Forall2 (movement_row (io_userId order) (o_id newOrder)) items mvs
      /\ db w' =
         mkStore (users (db w)) (customers (db w))
                 (map (deplete items) (products (db w)))
                 (orders (db w) ++ [newOrder]) (orderItems (db w) ++ ois)
                 (transactions (db w)) (stockMovements (db w) ++ mvs)
      /\ journal w' =
         journal w ++ InsertOrders order
                 :: flat_map (sell_statements order (o_id newOrder)) items.
Proof.
  unfold createOrder, db_transaction. intros H.
  destruct (bind _ _ w) as [[e | o] w1] eqn:B; [discriminate|].
  inversion H. subst o w1. clear H.
  apply bind_inr in B. destruct B as [o [w1 [H1 B]]].
  apply bind_inr in B. destruct B as [[] [w2 [H2 B]]].
  apply ret_inv in B. destruct B as [-> ->].
  apply statement_inr in H1. destruct H1 as [J1 [_ R1]].
  apply run_insert_orders_inr in R1. destruct R1 as [Hrow [S1 Hpk]].
  apply forEach_sell_effect in H2.
  destruct H2 as [ois [mvs [Fi [Fm [D2 J2]]]]].
  split; [assumption|]. split; [assumption|].
  exists ois, mvs. repeat split; try assumption.
  - rewrite D2, S1. reflexivity.
  - rewrite J2, J1, <- app_assoc. reflexivity.
Qed.

Lemma createOrder_quantities (order : InsertOrderOfUser)
      (items : list InsertOrderItem) (w w' : World) (newOrder : Order) :
  createOrder env order items w = (inr newOrder, w') ->
  Forall (fun item => exists q, it_quantity item = Some q
                                /\ 0 <= digits q) items.
Proof.
  unfold createOrder, db_transaction. intros H.
  destruct (bind _ _ w) as [[e | o] w1] eqn:B; [discriminate|].
  apply bind_inr in B. destruct B as [o1 [w2 [_ B]]].
  apply bind_inr in B. destruct B as [[] [w3 [B _]]].
  eapply forEach_sell_quantities; eassumption.
Qed.

End Effects.

(** * The order-placement transaction *)

Section OrderPlacement.

Variable env : Env.


(** The statements of a turn of the loop that runs to its end were not
    lost. *)
Lemma sell_up (order : InsertOrderOfUser) (newOrder : Order)
      (item : InsertOrderItem) (w w' : World) :
  sell env order newOrder item w = (inr tt, w') ->
  forall k, (k < 3)%nat -> fails env (List.length (journal w) + k) = false.
Proof.
  unfold sell. intros H.
  apply bind_inr in H. destruct H as [oi [w1 [H1 H]]].
  apply bind_inr in H. destruct H as [u [w2 [H2 H]]].
  apply bind_inr in H. destruct H as [mv [w3 [H3 _]]].
  apply statement_inr in H1. destruct H1 as [J1 [F1 _]].
  apply statement_inr in H2. destruct H2 as [J2 [F2 _]].
  apply statement_inr in H3. destruct H3 as [J3 [F3 _]].
  rewrite J2, J1, !length_app in F3. rewrite J1, length_app in F2.
  cbn [List.length] in F2, F3.
  intros k Hk.
  destruct k as [|[|[|k]]]; [| | |lia].
  - now rewrite Nat.add_0_r.
  - exact F2.
  - now rewrite <- Nat.add_assoc in F3.
Qed.

Lemma forEach_sell_up (order : InsertOrderOfUser) (newOrder : Order)
      (items : list InsertOrderItem) :
  forall w w',
    forEach (sell env order newOrder) items w = (inr tt, w') ->
    forall k, (k < 3 * List.length items)%nat ->
              fails env (List.length (journal w) + k) = false.
Proof.
  induction items as [|item rest IH]; intros w w' H k Hk.
  - cbn in Hk. lia.
  - cbn [forEach] in H. apply bind_inr in H.
    destruct H as [[] [w1 [H1 H2]]].
    destruct (Nat.lt_ge_cases k 3) as [Hlt | Hge].
    + now apply (@sell_up order newOrder item w w1 H1).
    + pose proof (@sell_effect env order newOrder item w w1 H1)
        as [_ [_ [_ [_ [_ [_ [_ [_ [_ [_ J1]]]]]]]]]].
      specialize (IH w1 w' H2 (k - 3)%nat).
      rewrite J1, length_app in IH. cbn [List.length sell_statements] in IH.
      replace (List.length (journal w) + 3 + (k - 3))%nat
        with (List.length (journal w) + k)%nat in IH by lia.
      apply IH. cbn [List.length] in Hk. lia.
Qed.

Lemma createOrder_up (order : InsertOrderOfUser)
      (items : list InsertOrderItem) (w w' : World) (newOrder : Order) :
  createOrder env order items w = (inr newOrder, w') ->
  forall k, (k <= 3 * List.length items)%nat ->
            fails env (List.length (journal w) + k) = false.
Proof.
  unfold createOrder, db_transaction. intros H.
  destruct (bind _ _ w) as [[e | o] w1] eqn:B; [discriminate|].
  inversion H. subst o w1. clear H.
  apply bind_inr in B. destruct B as [o [w1 [H1 B]]].
  apply bind_inr in B. destruct B as [[] [w2 [H2 _]]].
  apply statement_inr in H1. destruct H1 as [J1 [F1 _]].
  intros k Hk. destruct k as [|k].
  - now rewrite Nat.add_0_r.
  - pose proof (@forEach_sell_up order o items w1 w2 H2 k) as F.
    rewrite J1, length_app in F. cbn [List.length] in F.
    replace (List.length (journal w) + S k)%nat
      with (List.length (journal w) + 1 + k)%nat by lia.
    apply F. lia.
Qed.

(** C2.  A call of [createOrder] that throws leaves every table as it was
    before the call, whichever statement failed and for whatever reason; and
    the call does throw as soon as one of its statements (the insertion of
    the order, or the insertion of an item, the lowering of a stock or the
    insertion of a movement for any item) is lost. *)
Theorem createOrder_rollback (order : InsertOrderOfUser)
        (items : list InsertOrderItem) (w : World) :
  (forall e w', createOrder env order items w = (inl e, w') -> db w' = db w)
  /\ (forall k, (k <= 3 * List.length items)%nat ->
                fails env (List.length (journal w) + k) = true ->
                exists e w', createOrder env order items w = (inl e, w')
                             /\ db w' = db w).
Proof.
  assert (R : forall e w', createOrder env order items w = (inl e, w') ->
                           db w' = db w).
  { intros e w'. unfold createOrder, db_transaction.
    destruct (bind _ _ w) as [[e0 | o] w1]; intros H; inversion H.
    reflexivity. }
  split; [exact R|].
  intros k Hk Hlost.
  destruct (createOrder env order items w) as [[e | o] w'] eqn:H.
  - exists e, w'. split; [reflexivity | now apply (R e)].
  - rewrite (@createOrder_up order items w w' o H k Hk) in Hlost.
    discriminate.
Qed.

(** C8.  Two calls of [createOrder] with the same header and the same cart,
    one after the other, both returning, leave two orders with the same order
    number and different identifiers, each with its own rows of
    [order_items]: nothing recognises the second call as a repetition. *)
Theorem createOrder_twice (order : InsertOrderOfUser)
        (items : list InsertOrderItem) (w w1 w2 : World) (o1 o2 : Order) :
  createOrder env order items w = (inr o1, w1) ->
  createOrder env order items w1 = (inr o2, w2) ->
  o_id o1 <> o_id o2
  /\ o_orderNumber o1 = io_orderNumber order
  /\ o_orderNumber o2 = io_orderNumber order
  /\ orders (db w2) = orders (db w) ++ [o1; o2]
  /\ exists ois1 ois2,
      orderItems (db w2) = orderItems (db w) ++ ois1 ++ ois2
      /\ Forall2 (item_row (o_id o1)) items ois1
      /\ Forall2 (item_row (o_id o2)) items ois2.
Proof.
  intros H1 H2.
  apply createOrder_effect in H1.
  destruct H1 as [R1 [_ [ois1 [mvs1 [F1 [_ [D1 _]]]]]]].
  apply createOrder_effect in H2.
  destruct H2 as [R2 [P2 [ois2 [mvs2 [F2 [_ [D2 _]]]]]]].
  repeat split.
  - intros E. apply P2. rewrite D1. cbn. rewrite map_app, in_app_iff.
    right. left. assumption.
  - now subst o1.
  - now subst o2.
  - rewrite D2, D1. cbn. now rewrite <- app_assoc.
  - exists ois1, ois2. repeat split; try assumption.
    rewrite D2, D1. cbn. now rewrite <- app_assoc.
Qed.

Lemma forEach_sell_claim (order : InsertOrderOfUser) (newOrder : Order)
      (x : option Id) (items : list InsertOrderItem) :
  forEach (sell env order newOrder) (map (claim_orderId x) items)
  = forEach (sell env order newOrder) items.
Proof.
  induction items as [|item rest IH]; [reflexivity|].
  cbn [map forEach]. rewrite IH. reflexivity.
Qed.

(** C10.  Every row of [order_items] that a returning call of [createOrder]
    adds carries the identifier of the order created by that call; and the
    [orderId] the caller wrote in the items has no influence on the call at
    all. *)
Theorem createOrder_items_belong (order : InsertOrderOfUser)
        (items : list InsertOrderItem) (w w' : World) (newOrder : Order) :
  createOrder env order items w = (inr newOrder, w') ->
  (exists ois,
      orderItems (db w') = orderItems (db w) ++ ois
      /\ List.length ois = List.length items
      /\ Forall (fun row => oi_orderId row = o_id newOrder) ois)
  /\ In newOrder (orders (db w'))
  /\ forall x,
      createOrder env order (map (claim_orderId x) items) w
      = (inr newOrder, w').
Proof.
  intros H. split; [|split].
  - apply createOrder_effect in H.
    destruct H as [_ [_ [ois [mvs [Fi [_ [D _]]]]]]].
    exists ois. rewrite D. cbn. repeat split.
    + symmetry. eapply Forall2_length. eassumption.
    + clear D. induction Fi as [|item row its rows Hrow _ IH];
        constructor; [apply Hrow | assumption].
  - apply createOrder_effect in H.
    destruct H as [_ [_ [ois [mvs [_ [_ [D _]]]]]]].
    rewrite D. cbn. apply in_or_app. right. now left.
  - intros x. rewrite <- H. unfold createOrder, db_transaction, bind.
    destruct (insert_orders env order w) as [[e | o] w1]; [reflexivity|].
    now rewrite forEach_sell_claim.
Qed.

(** What has been sent when a turn of the loop stops, wherever it stops. *)
Lemma sell_journal (order : InsertOrderOfUser) (newOrder : Order)
      (item : InsertOrderItem) (w w' : World) (r : Exn + unit) :
  sell env order newOrder item w = (r, w') ->
  exists n, (n <= 3)%nat
    /\ journal w' =
       journal w ++ firstn n (sell_statements order (o_id newOrder) item).
Proof.
  unfold sell. intros H.
  destruct (bind_cases _ _ _ H) as [[e [H1 _]] | [oi [w1 [H1 K1]]]];
    apply statement_cases in H1; destruct H1 as [J1 _].
  { exists 1%nat. split; [lia | exact J1]. }
  destruct (bind_cases _ _ _ K1) as [[e [H2 _]] | [u [w2 [H2 K2]]]];
    apply statement_cases in H2; destruct H2 as [J2 _].
  { exists 2%nat. split; [lia|]. rewrite J2, J1, <- app_assoc. reflexivity. }
  destruct (bind_cases _ _ _ K2) as [[e [H3 _]] | [mv [w3 [H3 K3]]]];
    apply statement_cases in H3; destruct H3 as [J3 _].
  { exists 3%nat. split; [lia|].
    rewrite J3, J2, J1, <- !app_assoc. reflexivity. }
  unfold ret in K3. inversion K3. subst w'.
  exists 3%nat. split; [lia|].
  rewrite J3, J2, J1, <- !app_assoc. reflexivity.
Qed.

Lemma forEach_sell_journal (order : InsertOrderOfUser) (newOrder : Order)
      (items : list InsertOrderItem) :
  forall (w w' : World) (r : Exn + unit),
    forEach (sell env order newOrder) items w = (r, w') ->
    exists n,
      journal w' =
      journal w
      ++ firstn n (flat_map (sell_statements order (o_id newOrder)) items).
Proof.
  induction items as [|item rest IH]; intros w w' r H.
  - unfold forEach, ret in H. inversion H. exists 0%nat.
    cbn. now rewrite app_nil_r.
  - cbn [forEach] in H.
    destruct (bind_cases _ _ _ H) as [[e [H1 _]] | [[] [w1 [H1 K]]]].
    + apply sell_journal in H1. destruct H1 as [n [Hn J]].
      exists n. rewrite J. cbn [flat_map]. rewrite firstn_app.
      replace (n - List.length (sell_statements order (o_id newOrder) item))%nat
        with 0%nat by (cbn; lia).
      cbn [firstn]. now rewrite app_nil_r.
    + apply sell_effect in H1.
      destruct H1 as [_ [_ [_ [_ [_ [_ [_ [_ [_ [_ J1]]]]]]]]]].
      apply IH in K. destruct K as [m J2].
      exists (List.length (sell_statements order (o_id newOrder) item) + m)%nat.
      rewrite J2, J1. cbn [flat_map].
      rewrite firstn_app_2, <- app_assoc. reflexivity.
Qed.

(** ** The statements performed

    What follows counts the statements of the loop that went through: when
    [n] of them have, the rows of the first [(n + 2) / 3] items have been
    inserted, the stock has been lowered for the first [(n + 1) / 3], and
    the movements of the first [n / 3] have been inserted. *)

Lemma length_sell_statements (order : InsertOrderOfUser) (orderId : Id)
      (items : list InsertOrderItem) :
  List.length (flat_map (sell_statements order orderId) items)
  = (3 * List.length items)%nat.
Proof.
  induction items as [|x l IH]; [reflexivity|].
  cbn [flat_map]. rewrite length_app, IH. cbn [List.length sell_statements].
  lia.
Qed.

Lemma firstn_head {A} (k : nat) (x : A) (l : list A) :
  (k <= 1)%nat -> firstn k (x :: l) = firstn k [x].
Proof. intros H. destruct k as [|[|k]]; [reflexivity | reflexivity | lia]. Qed.

Lemma third_more (m k : nat) : ((3 + m + k) / 3 = S ((m + k) / 3))%nat.
Proof.
  replace (3 + m + k)%nat with (1 * 3 + (m + k))%nat by lia.
  rewrite Nat.div_add_l by discriminate. reflexivity.
Qed.

(** One turn of the loop, wherever it stops. *)
Lemma sell_progress (order : InsertOrderOfUser) (newOrder : Order)
      (item : InsertOrderItem) (w w' : World) (r : Exn + unit) :
  sell env order newOrder item w = (r, w') ->
  exists n ois mvs,
    match r with inr _ => n = 3%nat | inl _ => (n < 3)%nat end
    /\ journal w'
       = journal w
         ++ firstn (match r with inr _ => n | inl _ => S n end)
                   (sell_statements order (o_id newOrder) item)
    /\ db w'
       = mkStore (users (db w)) (customers (db w))
                 (map (deplete (firstn ((n + 1) / 3) [item]))
                      (products (db w)))
                 (orders (db w)) (orderItems (db w) ++ ois)
                 (transactions (db w)) (stockMovements (db w) ++ mvs)
    /\ Forall2 (item_row (o_id newOrder)) (firstn ((n + 2) / 3) [item]) ois
    /\ Forall2 (movement_row (io_userId order) (o_id newOrder))
               (firstn (n / 3) [item]) mvs.
Proof.
  intros H. destruct r as [e | []].
  - unfold sell in H.
    destruct (bind_cases _ _ _ H) as [[e1 [H1 _]] | [oi [w1 [H1 K1]]]].
    { apply statement_cases in H1.
      destruct H1 as [J1 [[pe [_ D1]] | [a [E _]]]]; [|discriminate].
      exists 0%nat, [], []. split; [lia|]. split; [exact J1|].
      split; [|split; constructor].
      rewrite D1. cbn [firstn Nat.div]. rewrite deplete_nil, !app_nil_r.
      now destruct (db w). }
    apply statement_inr in H1. destruct H1 as [J1 [_ R1]].
    apply run_insert_orderItems_inr in R1.
    destruct R1 as [S1 [Io [Ip [Iq [Iu It]]]]].
    cbn [spread_orderId it_orderId it_productId it_quantity it_unitPrice
         it_totalPrice] in Io, Ip, Iq, Iu, It.
    assert (Hrow : item_row (o_id newOrder) item oi)
      by (unfold item_row; repeat split; try assumption; congruence).
    destruct (bind_cases _ _ _ K1) as [[e2 [H2 _]] | [u [w2 [H2 K2]]]].
    { apply statement_cases in H2.
      destruct H2 as [J2 [[pe [_ D2]] | [a [E _]]]]; [|discriminate].
      exists 1%nat, [oi], []. split; [lia|].
      split; [rewrite J2, J1, <- app_assoc; reflexivity|].
      split; [|split; [constructor; [exact Hrow | constructor]
                      | constructor]].
      rewrite D2, S1. change ((1 + 1) / 3)%nat with 0%nat.
      cbn [firstn]. rewrite deplete_nil, app_nil_r. reflexivity. }
    apply statement_inr in H2. destruct H2 as [J2 [_ R2]].
    apply run_update_products_stock_inr in R2.
    destruct R2 as [pid [q [Ep [Eq S2]]]].
    destruct (bind_cases _ _ _ K2) as [[e3 [H3 _]] | [mv [w3 [H3 K3]]]];
      [|unfold ret in K3; discriminate].
    apply statement_cases in H3.
    destruct H3 as [J3 [[pe [_ D3]] | [a [E _]]]]; [|discriminate].
    exists 2%nat, [oi], []. split; [lia|].
    split; [rewrite J3, J2, J1, <- !app_assoc; reflexivity|].
    split; [|split; [constructor; [exact Hrow | constructor]
                    | constructor]].
    rewrite D3, S2, S1. change ((2 + 1) / 3)%nat with 1%nat.
    unfold with_products, with_orderItems.
    cbn [firstn users customers products orders orderItems transactions
         stockMovements].
    rewrite app_nil_r. f_equal. apply map_ext. intros p.
    unfold deplete. cbn [fold_left]. unfold take. now rewrite Ep, Eq.
  - apply sell_effect in H.
    destruct H as [oi [mv [pid [q [Hi [Hm [Ep [Eq [_ [D J]]]]]]]]]].
    exists 3%nat, [oi], [mv]. split; [reflexivity|].
    split; [exact J|].
    split; [|split; constructor; try assumption; constructor].
    rewrite D. change ((3 + 1) / 3)%nat with 1%nat. cbn [firstn].
    f_equal. apply map_ext. intros p.
    unfold deplete. cbn [fold_left]. unfold take. now rewrite Ep, Eq.
Qed.

(** The whole loop, wherever it stops. *)
Lemma forEach_sell_progress (order : InsertOrderOfUser) (newOrder : Order)
      (items : list InsertOrderItem) :
  forall (w w' : World) (r : Exn + unit),
    forEach (sell env order newOrder) items w = (r, w') ->
    exists n ois mvs,
      match r with
      | inr _ => n = (3 * List.length items)%nat
      | inl _ => (n < 3 * List.length items)%nat
      end
      /\ journal w'
         = journal w
           ++ firstn (match r with inr _ => n | inl _ => S n end)
                     (flat_map (sell_statements order (o_id newOrder)) items)
      /\ db w'
         = mkStore (users (db w)) (customers (db w))
                   (map (deplete (firstn ((n + 1) / 3) items))
                        (products (db w)))
                   (orders (db w)) (orderItems (db w) ++ ois)
                   (transactions (db w)) (stockMovements (db w) ++ mvs)
      /\ Forall2 (item_row (o_id newOrder)) (firstn ((n + 2) / 3) items) ois
      /\ Forall2 (movement_row (io_userId order) (o_id newOrder))
                 (firstn (n / 3) items) mvs.
Proof.
  induction items as [|item rest IH]; intros w w' r H.
  - unfold forEach, ret in H. inversion H. subst r w'.
    exists 0%nat, [], []. split; [reflexivity|].
    split; [cbn; now rewrite app_nil_r|].
    split; [|split; constructor].
    cbn [firstn]. rewrite deplete_nil, !app_nil_r. now destruct (db w).
  - cbn [forEach] in H.
    destruct (bind_cases _ _ _ H) as [[e [H1 ->]] | [[] [w1 [H1 K]]]].
    + apply sell_progress in H1.
      destruct H1 as [n [ois [mvs [Hn [J [D [Fi Fm]]]]]]].
      exists n, ois, mvs. cbn [List.length].
      split; [lia|]. split; [|split; [|split]].
      * rewrite J. cbn [flat_map]. rewrite firstn_app.
        replace (S n - List.length
                         (sell_statements order (o_id newOrder) item))%nat
          with 0%nat by (cbn [List.length sell_statements]; lia).
        cbn [firstn]. now rewrite app_nil_r.
      * rewrite D. do 3 f_equal. symmetry. apply firstn_head.
        destruct n as [|[|[|n]]]; cbn; lia.
      * rewrite firstn_head; [exact Fi|].
        destruct n as [|[|[|n]]]; cbn; lia.
      * rewrite firstn_head; [exact Fm|].
        destruct n as [|[|[|n]]]; cbn; lia.
    + apply sell_progress in H1.
      destruct H1 as [n1 [ois1 [mvs1 [-> [J1 [D1 [Fi1 Fm1]]]]]]].
      change ((3 + 1) / 3)%nat with 1%nat in D1.
      change ((3 + 2) / 3)%nat with 1%nat in Fi1.
      change (3 / 3)%nat with 1%nat in Fm1. cbn [firstn] in D1, Fi1, Fm1.
      apply IH in K. destruct K as [n [ois [mvs [Hn [J [D [Fi Fm]]]]]]].
      exists (3 + n)%nat, (ois1 ++ ois), (mvs1 ++ mvs). cbn [List.length].
      split; [destruct r; lia|]. split; [|split; [|split]].
      * rewrite J, J1. cbn [flat_map]. rewrite <- app_assoc. f_equal.
        set (stmts := sell_statements order (o_id newOrder) item).
        assert (L3 : List.length stmts = 3%nat) by reflexivity.
        assert (F3 : firstn 3 stmts = stmts) by reflexivity.
        rewrite F3. destruct r as [e | u].
        -- replace (S (3 + n)) with (List.length stmts + S n)%nat
             by (rewrite L3; lia).
           now rewrite firstn_app_2.
        -- replace (3 + n)%nat with (List.length stmts + n)%nat
             by (rewrite L3; lia).
           now rewrite firstn_app_2.
      * rewrite D, D1. cbn [users customers products orders orderItems
                            transactions stockMovements].
        rewrite third_more, <- !app_assoc. cbn [firstn]. f_equal.
        rewrite map_map. apply map_ext. intros p.
        unfold deplete. reflexivity.
      * rewrite third_more. cbn [firstn].
        apply (Forall2_app Fi1 Fi).
      * replace (3 + n)%nat with (3 + n + 0)%nat by lia.
        rewrite third_more, Nat.add_0_r. cbn [firstn].
        apply (Forall2_app Fm1 Fm).
Qed.

(** C9.  [createOrder] runs, inside its transaction, the insertion of the
    order and then, for each item of the cart in the order of the cart, the
    insertion of its [order_items] row, the lowering of the stock of its
    product by its quantity, and the insertion of its [stock_movements] row.
    The statements are sent in this order: a call that returns has sent all
    of them, a call that throws a beginning of that sequence.  And each is
    performed before the next is sent: when [n] statements have gone
    through, whether the call then returns or the next statement fails, the
    tables inside the transaction hold the order (from the first statement
    on), the rows of the first [(n + 1) / 3] items, the stocks with the
    first [n / 3] items taken from them, and the movements of the first
    [(n - 1) / 3] items.  A call that returns leaves these tables, with
    every statement performed; a call that throws leaves the tables it
    found. *)
Theorem createOrder_statements (order : InsertOrderOfUser)
        (items : list InsertOrderItem) (w w' : World) (r : Exn + Order) :
  createOrder env order items w = (r, w') ->
  let orderId := gen_random_uuid env (List.length (journal w)) in
  let plan :=
    InsertOrders order :: flat_map (sell_statements order orderId) items in
  (exists n, journal w' = journal w ++ firstn n plan)
  /\ (forall newOrder, r = inr newOrder ->
      o_id newOrder = orderId /\ journal w' = journal w ++ plan)
  /\ exists (n : nat) (w0 : World) (ois : list OrderItem)
            (mvs : list StockMovement),
      (newOrder <- insert_orders env order ;;
       forEach (sell env order newOrder) items ;;;
       ret newOrder) w = (r, w0)
      /\ w' = match r with
              | inr _ => w0
              | inl _ => mkWorld (db w) (journal w0)
              end
      /\ match r with
         | inr _ => n = List.length plan
         | inl _ => (n < List.length plan)%nat
         end
      /\ journal w0
         = journal w ++ firstn (match r with inr _ => n | inl _ => S n end)
                               plan
      /\ orders (db w0)
         = orders (db w)
           ++ firstn n [orders_row env order (List.length (journal w))]
      /\ orderItems (db w0) = orderItems (db w) ++ ois
      /\ Forall2 (item_row orderId) (firstn ((n + 1) / 3) items) ois
      /\ products (db w0)
         = map (deplete (firstn (n / 3) items)) (products (db w))
      /\ stockMovements (db w0) = stockMovements (db w) ++ mvs
      /\ Forall2 (movement_row (io_userId order) orderId)
                 (firstn ((n - 1) / 3) items) mvs
      /\ transactions (db w0) = transactions (db w).
Proof.
  intros H orderId plan. split; [|split].
  - unfold createOrder, db_transaction in H.
    destruct (bind _ _ w) as [r0 w0] eqn:B.
    assert (J : journal w' = journal w0)
      by (destruct r0; inversion H; reflexivity).
    rewrite J. clear H J.
    destruct (bind_cases _ _ _ B) as [[e [H1 _]] | [o [w1 [H1 K]]]].
    + apply statement_cases in H1. destruct H1 as [J1 _].
      exists 1%nat. exact J1.
    + apply statement_cases in H1.
      destruct H1 as [J1 [[e [E _]] | [a [E [_ R]]]]]; [discriminate|].
      inversion E. subst a.
      apply run_insert_orders_inr in R. destruct R as [Hrow _].
      assert (Hid : o_id o = orderId) by (now subst o).
      destruct (bind_cases _ _ _ K) as [[e [H2 _]] | [[] [w2 [H2 K2]]]].
      * apply forEach_sell_journal in H2. destruct H2 as [n J2].
        exists (S n). rewrite J2, J1, Hid, <- app_assoc. reflexivity.
      * apply forEach_sell_journal in H2. destruct H2 as [n J2].
        unfold ret in K2. inversion K2. subst w0.
        exists (S n). rewrite J2, J1, Hid, <- app_assoc. reflexivity.
  - intros newOrder ->. apply createOrder_effect in H.
    destruct H as [Hrow [_ [_ [_ [_ [_ [_ J]]]]]]].
    assert (Hid : o_id newOrder = orderId) by (now subst newOrder).
    split; [assumption|]. rewrite J, Hid. reflexivity.
  - assert (L : List.length plan = S (3 * List.length items)).
    { unfold plan. cbn [List.length]. now rewrite length_sell_statements. }
    unfold createOrder, db_transaction in H.
    destruct (bind _ _ w) as [r0 w0] eqn:B.
    assert (Hr : r0 = r /\ w' = match r with
                                | inr _ => w0
                                | inl _ => mkWorld (db w) (journal w0)
                                end)
      by (destruct r0; inversion H; now split).
    destruct Hr as [-> Hw]. clear H.
    destruct (bind_cases _ _ _ B) as [[e [H1 ->]] | [o [w1 [H1 K]]]].
    + apply statement_cases in H1.
      destruct H1 as [J1 [[pe [_ D1]] | [a [E _]]]]; [|discriminate].
      exists 0%nat, w0, [], [].
      split; [reflexivity|]. split; [exact Hw|]. split; [rewrite L; lia|].
      split; [exact J1|]. rewrite D1, !app_nil_r.
      change (0 / 3)%nat with 0%nat. change ((0 + 1) / 3)%nat with 0%nat.
      change ((0 - 1) / 3)%nat with 0%nat. cbn [firstn].
      rewrite deplete_nil. repeat split; constructor.
    + apply statement_inr in H1. destruct H1 as [J1 [_ R1]].
      apply run_insert_orders_inr in R1. destruct R1 as [Hrow [S1 _]].
      assert (Hid : o_id o = orderId) by (now subst o).
      assert (Hloop : exists r1 w2,
                 forEach (sell env order o) items w1 = (r1, w2)
                 /\ w0 = w2
                 /\ match r1, r with
                    | inr _, inr o' => o' = o
                    | inl e1, inl e => e = e1
                    | _, _ => False
                    end).
      { destruct (bind_cases _ _ _ K) as [[e [H2 ->]] | [[] [w2 [H2 K2]]]].
        - exists (inl e), w0. now repeat split.
        - unfold ret in K2. inversion K2. subst.
          exists (inr tt), w0. now repeat split. }
      destruct Hloop as [r1 [w2 [H2 [<- Hrr]]]].
      apply forEach_sell_progress in H2.
      destruct H2 as [m [ois [mvs [Hm [J2 [D2 [Fi Fm]]]]]]].
      rewrite Hid in *.
      exists (S m), w0, ois, mvs.
      split; [reflexivity|]. split; [exact Hw|].
      split; [rewrite L; destruct r1, r; try contradiction; lia|].
      split.
      { rewrite J2, J1, <- app_assoc. f_equal. unfold plan.
        destruct r1, r; try contradiction; reflexivity. }
      rewrite D2, S1.
      cbn [users customers products orders orderItems transactions
           stockMovements with_orders].
      replace ((S m + 1) / 3)%nat with ((m + 2) / 3)%nat
        by (f_equal; lia).
      replace (S m / 3)%nat with ((m + 1) / 3)%nat by (f_equal; lia).
      replace ((S m - 1) / 3)%nat with (m / 3)%nat by (f_equal; lia).
      cbn [firstn]. rewrite firstn_nil.
      repeat split; try assumption. now subst o.
Qed.

End OrderPlacement.

(** ** The transaction at work in the shop *)



Lemma createOrder_rollback_witness :
  (createOrder Shop.env Shop.order Shop.cart3 Shop.world
   = (inl (DatabaseError ForeignKeyViolation), Shop.refused)
   /\ List.length (journal Shop.refused) = 8%nat
   /\ db Shop.refused = db Shop.world)
  /\ (fails Shop.flaky 5 = true
      /\ exists e w', createOrder Shop.flaky Shop.order Shop.cart Shop.world
                      = (inl e, w')
                      /\ db w' = db Shop.world).
Proof.
  assert (H : createOrder Shop.env Shop.order Shop.cart3 Shop.world
              = (inl (DatabaseError ForeignKeyViolation), Shop.refused))
    by (vm_compute; reflexivity).
  split.
  - split; [exact H|]. split; [reflexivity|].
    exact (proj1 (createOrder_rollback Shop.env Shop.order Shop.cart3
                                       Shop.world) _ _ H).
  - split; [reflexivity|].
    apply (proj2 (createOrder_rollback Shop.flaky Shop.order Shop.cart
                                       Shop.world) 5%nat).
    + cbn. lia.
    + reflexivity.
Defined.

Lemma createOrder_twice_witness :
  exists o2 w2,
    createOrder Shop.env Shop.order Shop.cart Shop.world
    = (inr Shop.newOrder, Shop.sold)
    /\ createOrder Shop.env Shop.order Shop.cart Shop.sold = (inr o2, w2)
    /\ o_id Shop.newOrder <> o_id o2
    /\ o_orderNumber o2 = o_orderNumber Shop.newOrder
    /\ orders (db w2) = [Shop.newOrder; o2].
Proof.
  assert (H1 : createOrder Shop.env Shop.order Shop.cart Shop.world
               = (inr Shop.newOrder, Shop.sold)) by (vm_compute; reflexivity).
  destruct (createOrder Shop.env Shop.order Shop.cart Shop.sold)
    as [[e | o2] w2] eqn:H2; [vm_compute in H2; discriminate|].
  exists o2, w2.
  destruct (createOrder_twice Shop.env Shop.order Shop.cart Shop.world H1 H2)
    as [Hne [N1 [N2 [Ho _]]]].
  repeat split; assumption.
Defined.

Lemma createOrder_statements_witness :
  (createOrder Shop.env Shop.order Shop.cart Shop.world
   = (inr Shop.newOrder, Shop.sold)
   /\ journal Shop.sold
      = InsertOrders Shop.order
        :: sell_statements Shop.order "#" Shop.itemA
        ++ sell_statements Shop.order "#" Shop.itemB)
  /\ (fails Shop.flaky 5 = true
      /\ createOrder Shop.flaky Shop.order Shop.cart Shop.world
         = (inl (DatabaseError ConnectionLost),
            mkWorld (db Shop.world) (journal Shop.interrupted))
      /\ List.length (journal Shop.interrupted) = 6%nat
      /\ List.length (orders (db Shop.interrupted)) = 1%nat
      /\ List.length (orderItems (db Shop.interrupted)) = 2%nat
      /\ map p_stock (products (db Shop.interrupted)) = [8000; 1000]
      /\ List.length (stockMovements (db Shop.interrupted)) = 1%nat).
Proof.
  split.
  - assert (H : createOrder Shop.env Shop.order Shop.cart Shop.world
                = (inr Shop.newOrder, Shop.sold)) by (vm_compute; reflexivity).
    split; [exact H|].
    destruct (createOrder_statements Shop.env Shop.order Shop.cart
                                     Shop.world H) as [_ [Hall _]].
    destruct (Hall Shop.newOrder eq_refl) as [_ J].
    rewrite J. reflexivity.
  - assert (H : createOrder Shop.flaky Shop.order Shop.cart Shop.world
                = (inl (DatabaseError ConnectionLost),
                   mkWorld (db Shop.world) (journal Shop.interrupted)))
      by (vm_compute; reflexivity).
    split; [reflexivity|]. split; [exact H|]. split; [reflexivity|].
    destruct (createOrder_statements Shop.flaky Shop.order Shop.cart
                                     Shop.world H)
      as [_ [_ [n [w0 [ois [mvs [B [_ [Hn [J [Ho [Hi [Fi [Hp [Hm [Fm _]
         ]]]]]]]]]]]]]]].
    assert (E : w0 = Shop.interrupted)
      by (vm_compute in B; inversion B; reflexivity).
    subst w0.
    assert (N : n = 5%nat).
    { apply (f_equal (@List.length Statement)) in J.
      rewrite length_app, length_firstn in J.
      cbn [List.length journal Shop.world] in Hn. cbn in J. lia. }
    subst n. rewrite Ho, Hi, Hp, Hm, !length_app.
    apply Forall2_length in Fi. apply Forall2_length in Fm.
    rewrite <- Fi, <- Fm. repeat split.
Defined.

Lemma createOrder_items_belong_witness :
  createOrder Shop.env Shop.order Shop.cart Shop.world
  = (inr Shop.newOrder, Shop.sold)
  /\ Forall (fun row => oi_orderId row = "#") (orderItems (db Shop.sold))
  /\ createOrder Shop.env Shop.order
                 (map (claim_orderId (Some "another order")) Shop.cart)
                 Shop.world
     = (inr Shop.newOrder, Shop.sold).
Proof.
  assert (H : createOrder Shop.env Shop.order Shop.cart Shop.world
              = (inr Shop.newOrder, Shop.sold)) by (vm_compute; reflexivity).
  split; [exact H|].
  destruct (createOrder_items_belong Shop.env Shop.order Shop.cart
                                     Shop.world H)
    as [[ois [Hi [_ F]]] [_ Hx]].
  split; [|apply Hx].
  rewrite Hi. exact F.
Defined.

(** * Derived reads *)

Lemma setHours_first (date : Z) : setHours date 0 0 0 0 = firstInstant date.
Proof. unfold setHours, firstInstant. lia. Qed.

Lemma setHours_last (date : Z) :
  setHours date 23 59 59 999 = lastInstant date.
Proof. unfold setHours, lastInstant, firstInstant, msPerDay. lia. Qed.

Lemma fold_left_sumZ {A} (e : A -> Z) (l : list A) (a : Z) :
  fold_left (fun acc r => acc + e r) l a = a + sumZ e l.
Proof.
  revert a. induction l as [|x l IH]; intros a; cbn.
  - lia.
  - rewrite IH. unfold sumZ. lia.
Qed.

Lemma coalesce_sql_sum {A} (e : A -> Z) (l : list A) :
  coalesce (sql_sum e l) 0 = sumZ e l.
Proof.
  destruct l as [|x l]; [reflexivity|].
  unfold sql_sum, coalesce, or_default. now rewrite fold_left_sumZ.
Qed.

Lemma sumZ_case {A} (c : A -> bool) (e : A -> Z) (l : list A) :
  sumZ (fun r => if c r then e r else 0) l = sumZ e (filter c l).
Proof.
  unfold sumZ. induction l as [|x l IH]; [reflexivity|].
  cbn. destruct (c x); cbn; rewrite IH; reflexivity.
Qed.

Lemma filter_filter {A} (f g : A -> bool) (l : list A) :
  filter g (filter f l) = filter (fun x => f x && g x) l.
Proof.
  induction l as [|x l IH]; [reflexivity|].
  cbn. destruct (f x); cbn; [destruct (g x)|]; now rewrite IH.
Qed.

Lemma getDailySales_refines (s : Store) (userId : Id) (date : Z) :
  getDailySales s userId date = dailySales_spec s userId date.
Proof.
  unfold getDailySales, dailySales_spec, sales_of_day. cbv zeta. cbn [hd].
  rewrite setHours_first, setHours_last.
  rewrite !coalesce_sql_sum, !sumZ_case. unfold sql_count.
  rewrite !filter_filter.
  f_equal; [f_equal | f_equal | do 2 f_equal]; apply filter_ext; intros t;
    unfold within_day, sql_ge, sql_le, timestamp_of_Date;
    destruct (t_createdAt t) as [c|];
    destruct (String.eqb (t_userId t) userId);
    destruct (String.eqb (t_type t) "sale"); cbn;
    rewrite ?andb_false_r, ?andb_true_r; reflexivity.
Qed.

(** C6.  [getDailySales] returns, for a user and a date, the sum of the
    amounts of that user's transactions of type "sale" created from
    00:00:00.000 to 23:59:59.999 of that date, both ends included, the sum of
    those among them paid by "upi", and their number.  A sale created at
    23:59:59.999 counts, one created at 00:00:00.000 of the next day does not.
    In the ledger of the shop, sales of 100.00 (upi), 250.50 and 40.00 on the
    day give 390.50, 100.00 and 3. *)
Theorem getDailySales_window (s : Store) (userId : Id) (date : Z) :
  (let sales := sales_of_day s userId date in
   getDailySales s userId date
   = mkDailySales
       (sumZ t_amount sales)
       (sumZ t_amount
             (filter (fun t => String.eqb (t_paymentMethod t) "upi") sales))
       (Z.of_nat (List.length sales)))
  /\ (forall t,
        In t (sales_of_day s userId date) <->
        In t (transactions s)
        /\ t_userId t = userId
        /\ t_type t = "sale"
        /\ exists c, t_createdAt t = Some c
                     /\ timestamp_of_Date (setHours date 0 0 0 0) <= c
                     /\ c <= timestamp_of_Date (setHours date 23 59 59 999))
  /\ within_day date
        (Some (timestamp_of_Date (setHours date 23 59 59 999))) = true
  /\ within_day date
        (Some (timestamp_of_Date (setHours date 0 0 0 0 + msPerDay))) = false
  /\ getDailySales Shop.books "user-1" (Shop.day + 55800000)
     = mkDailySales 39050 10000 3.
Proof.
  split; [apply getDailySales_refines|].
  split; [|split; [|split]].
  - intros t. unfold sales_of_day. rewrite filter_In.
    rewrite !andb_true_iff, !String.eqb_eq.
    rewrite setHours_first, setHours_last. unfold within_day, timestamp_of_Date.
    split.
    + intros [Hin [[Hu Ht] Hw]]. repeat split; try assumption.
      destruct (t_createdAt t) as [c|]; [|discriminate].
      apply andb_true_iff in Hw. destruct Hw as [Hl Hr].
      exists c. repeat split; [apply Z.leb_le, Hl | apply Z.leb_le, Hr].
    + intros [Hin [Hu [Ht [c [Hc [Hl Hr]]]]]]. repeat split; try assumption.
      rewrite Hc. apply andb_true_iff. split; now apply Z.leb_le.
  - rewrite setHours_last. unfold within_day, timestamp_of_Date, lastInstant.
    apply andb_true_iff. split; apply Z.leb_le; unfold msPerDay; lia.
  - rewrite setHours_first. unfold within_day, timestamp_of_Date, lastInstant.
    apply andb_false_iff. right. apply Z.leb_gt. unfold msPerDay. lia.
  - vm_compute. reflexivity.
Qed.

(** C7.  A product is reported as low on stock exactly when its stock is at or
    below its minimum stock: 5 against 10 and 10 against 10 are low, 11
    against 10 is not.  [getLowStockProducts] applies this test to the stock
    found in the table when it is called, so it follows every change of the
    stock. *)
Theorem lowStock_inclusive :
  (forall p, lowStock p = true <->
             exists m, p_minStock p = Some m /\ p_stock p <= m)
  /\ (forall s userId p,
        In p (getLowStockProducts s userId) <->
        In p (products s) /\ p_userId p = userId
        /\ exists m, p_minStock p = Some m /\ p_stock p <= m)
  /\ (forall p v, lowStock (set_stock p v) = true <->
                  exists m, p_minStock p = Some m /\ v <= m)
  /\ (forall id name userId price unit,
        lowStock (mkProduct id name userId price 5000 unit (Some 10000)) = true
        /\ lowStock (mkProduct id name userId price 10000 unit (Some 10000))
           = true
        /\ lowStock (mkProduct id name userId price 11000 unit (Some 10000))
           = false)
  /\ getLowStockProducts (db Shop.world) "user-1" = []
  /\ map p_id (getLowStockProducts (db Shop.sold) "user-1") = ["A"; "B"].
Proof.
  assert (L : forall p, lowStock p = true <->
                        exists m, p_minStock p = Some m /\ p_stock p <= m).
  { intros p. unfold lowStock. destruct (p_minStock p) as [m|].
    - rewrite Z.leb_le. split.
      + intros H. now exists m.
      + intros [m' [E H]]. inversion E. now subst.
    - split; [discriminate | intros [m [E _]]; discriminate]. }
  split; [exact L|]. split; [|split; [|split; [|split]]].
  - intros s userId p. unfold getLowStockProducts.
    rewrite filter_In, andb_true_iff, String.eqb_eq, L. tauto.
  - intros p v. rewrite L. reflexivity.
  - intros. repeat split.
  - reflexivity.
  - reflexivity.
Qed.

(** * The route *)

(** A header that does not parse is answered 400 with nothing sent to the
    database. *)
Lemma post_api_orders_invalid_header (env : Env) (body : RequestBody)
      (w : World) (e : Exn) :
  insertOrderSchema_parse (rb_order body) = inl e ->
  post_api_orders env body w = (Status 400 "Invalid order data", w).
Proof.
  intros H.
  assert (E : e = ZodError).
  { unfold insertOrderSchema_parse in H.
    destruct (ob_orderNumber (rb_order body));
      destruct (ob_totalAmount (rb_order body)); congruence. }
  subst e. unfold post_api_orders, bind, lift. now rewrite H.
Qed.

(** C4.  Once [createOrder] has returned the order, the route appends a
    ledger entry exactly when the payment status of the order is "paid": of
    type "sale", for the order and its customer, of the total amount of the
    order, and with the payment method of the order, or "cash" when the order
    has none.  The entry is a statement of its own, sent after the order is
    committed: when it fails the answer is 500 and the order, its items, the
    stock and the movements stay as committed. *)
Theorem post_api_orders_ledger (env : Env) (body : RequestBody)
        (w w1 : World) (validated : InsertOrder) (order : Order) :
  insertOrderSchema_parse (rb_order body) = inr validated ->
  createOrder env (withUser validated "user-1") (rb_items body) w
  = (inr order, w1) ->
  (o_paymentStatus order <> "paid" ->
   post_api_orders env body w = (Json order, w1))
  /\ (o_paymentStatus order = "paid" ->
      exists w2,
        (exists v, journal w2 = journal w1 ++ [InsertTransactions v])
        /\ In order (orders (db w2))
        /\ orders (db w2) = orders (db w1)
        /\ orderItems (db w2) = orderItems (db w1)
        /\ products (db w2) = products (db w1)
        /\ stockMovements (db w2) = stockMovements (db w1)
        /\ ((exists t,
               post_api_orders env body w = (Json order, w2)
               /\ transactions (db w2) = transactions (db w1) ++ [t]
               /\ t_type t = "sale"
               /\ t_orderId t = Some (o_id order)
               /\ t_customerId t = o_customerId order
               /\ t_amount t = o_totalAmount order
               /\ t_paymentMethod t = js_or (o_paymentMethod order) "cash")
            \/ (post_api_orders env body w
                = (Status 500 "Failed to create order", w2)
                /\ transactions (db w2) = transactions (db w1)))).
Proof.
  intros Hparse Hcreate.
  assert (Hin : In order (orders (db w1))).
  { destruct (createOrder_effect _ _ _ _ Hcreate)
      as [_ [_ [ois [mvs [_ [_ [D _]]]]]]].
    rewrite D. cbn. apply in_or_app. right. now left. }
  split.
  - intros Hnot. unfold post_api_orders, bind, lift.
    rewrite Hparse, Hcreate.
    destruct (String.eqb_spec (o_paymentStatus order) "paid") as [E | _];
      [contradiction | reflexivity].
  - intros Hpaid. unfold post_api_orders, bind, lift.
    rewrite Hparse, Hcreate. rewrite Hpaid. cbn [String.eqb Ascii.eqb Bool.eqb].
    match goal with
    | |- context [createTransaction env ?v w1] =>
        destruct (createTransaction env v w1) as [r w2] eqn:T
    end.
    unfold createTransaction in T. apply statement_cases in T.
    destruct T as [J [[e [-> D]] | [t [-> [_ R]]]]].
    + exists w2. rewrite D, J.
      split; [eexists; reflexivity|]. split; [exact Hin|].
      repeat split. right. split; reflexivity.
    + apply run_insert_transactions_inr in R.
      destruct R as [S [To [Tc [_ [Tt [Ta [Tm _]]]]]]].
      exists w2. rewrite S, J.
      split; [eexists; reflexivity|]. split; [exact Hin|].
      repeat split. left. exists t. repeat split; assumption.
Qed.

Lemma post_api_orders_ledger_witness :
  insertOrderSchema_parse (rb_order Shop.request) = inr Shop.header
  /\ createOrder Shop.env Shop.order (rb_items Shop.request) Shop.world
     = (inr Shop.newOrder, Shop.sold)
  /\ exists w2,
      post_api_orders Shop.env Shop.request Shop.world
      = (Json Shop.newOrder, w2)
      /\ map t_paymentMethod (transactions (db w2)) = ["upi"]
      /\ map t_amount (transactions (db w2)) = [12000].
Proof.
  assert (P : insertOrderSchema_parse (rb_order Shop.request)
              = inr Shop.header) by reflexivity.
  assert (H : createOrder Shop.env (withUser Shop.header "user-1")
                          (rb_items Shop.request) Shop.world
              = (inr Shop.newOrder, Shop.sold)) by (vm_compute; reflexivity).
  split; [exact P|]. split; [exact H|].
  destruct (post_api_orders_ledger Shop.env Shop.request Shop.world P H)
    as [_ Hpaid].
  destruct (Hpaid eq_refl) as [w2 [_ [_ [_ [_ [_ [_ [Hok | Hko]]]]]]]].
  - destruct Hok as [t [R [T [_ [_ [_ [Ta Tm]]]]]]].
    exists w2. split; [exact R|].
    rewrite T. cbn. rewrite Ta, Tm. split; reflexivity.
  - destruct Hko as [R _]. vm_compute in R. discriminate.
Defined.

(** The payment method of the ledger entry is not always that of the order:
    a paid order that names none gets an entry paid by "cash". *)
Lemma post_api_orders_ledger_method_counterexample :
  post_api_orders Shop.env Shop.walk_in Shop.world
  = (Json Shop.walk_in_order, Shop.walk_in_sold)
  /\ o_paymentStatus Shop.walk_in_order = "paid"
  /\ o_paymentMethod Shop.walk_in_order = None
  /\ map t_orderId (transactions (db Shop.walk_in_sold))
     = [Some (o_id Shop.walk_in_order)]
  /\ map t_paymentMethod (transactions (db Shop.walk_in_sold)) = ["cash"]
  /\ ~ (forall t, In t (transactions (db Shop.walk_in_sold)) ->
                  Some (t_paymentMethod t)
                  = o_paymentMethod Shop.walk_in_order).
Proof.
  repeat split; try (vm_compute; reflexivity).
  intros H.
  specialize (H (hd (Shop.entry EmptyString EmptyString EmptyString 0
                                EmptyString 0)
                    (transactions (db Shop.walk_in_sold)))).
  cbn in H. discriminate H. left. reflexivity.
Qed.

(** An item that names no product is refused by the database, not before:
    the order has been sent by then. *)
Lemma createOrder_item_without_product (env : Env)
      (order : InsertOrderOfUser) (item : InsertOrderItem)
      (rest : list InsertOrderItem) (w : World) :
  it_productId item = None ->
  exists e w',
    createOrder env order (item :: rest) w = (inl (DatabaseError e), w')
    /\ db w' = db w
    /\ exists more, journal w' = journal w ++ InsertOrders order :: more.
Proof.
  intros Hnone.
  assert (Hsell : forall o w1 r w2,
             sell env order o item w1 = (r, w2) ->
             exists e, r = inl (DatabaseError e)
                       /\ db w2 = db w1
                       /\ journal w2 = journal w1
                                       ++ [InsertOrderItems
                                             (spread_orderId item (o_id o))]).
  { intros o w1 r w2 H. unfold sell in H.
    destruct (bind_cases _ _ _ H) as [[e [H1 ->]] | [oi [w3 [H1 _]]]];
      apply statement_cases in H1;
      destruct H1 as [J [[e1 [E D]] | [a [E [_ R]]]]]; try discriminate.
    - inversion E. subst e. now exists e1.
    - unfold run_insert_orderItems in R. cbv zeta in R.
      cbn [spread_orderId it_orderId it_productId] in R.
      rewrite Hnone in R. destruct (negb _) in R; discriminate. }
  destruct (createOrder env order (item :: rest) w) as [r w'] eqn:H.
  unfold createOrder, db_transaction in H.
  destruct (bind _ _ w) as [r0 w0] eqn:B.
  destruct (bind_cases _ _ _ B) as [[e [H1 ->]] | [o [w1 [H1 K]]]];
    apply statement_cases in H1;
    destruct H1 as [J1 [[e1 [E1 D1]] | [a [E1 _]]]]; try discriminate.
  - inversion E1. subst e. inversion H. subst r w'.
    exists e1, (mkWorld (db w) (journal w0)). repeat split.
    exists []. exact J1.
  - inversion E1. subst a. clear E1.
    destruct (bind_cases _ _ _ K) as [[e [H2 ->]] | [[] [w2 [H2 _]]]].
    + cbn [forEach] in H2.
      destruct (bind_cases _ _ _ H2) as [[e' [H3 E3]] | [[] [w3 [H3 _]]]];
        apply Hsell in H3; destruct H3 as [e3 [E [D3 J3]]];
        try discriminate.
      inversion E3. subst e'. inversion E. subst e.
      inversion H. subst r w'.
      exists e3, (mkWorld (db w) (journal w0)). repeat split.
      eexists. cbn [journal]. rewrite J3, J1, <- app_assoc. reflexivity.
    + cbn [forEach] in H2. apply bind_inr in H2.
      destruct H2 as [[] [w3 [H3 _]]].
      apply Hsell in H3. destruct H3 as [e3 [E _]]. discriminate.
Qed.

(** C3, where it fails.  When the header parses and the first item names no
    product (an item [insertOrderItemSchema] refuses), the route does not
    answer 400: it sends the order to the database, the item is refused
    there, the transaction is undone and the answer is 500. *)
Theorem post_api_orders_item_not_validated (env : Env) (body : RequestBody)
        (w : World) (validated : InsertOrder) (item : InsertOrderItem)
        (rest : list InsertOrderItem) :
  insertOrderSchema_parse (rb_order body) = inr validated ->
  rb_items body = item :: rest ->
  it_productId item = None ->
  insertOrderItemSchema_accepts item = false
  /\ exists w',
      post_api_orders env body w = (Status 500 "Failed to create order", w')
      /\ db w' = db w
      /\ exists more,
          journal w'
          = journal w ++ InsertOrders (withUser validated "user-1") :: more.
Proof.
  intros Hparse Hitems Hnone. split.
  - unfold insertOrderItemSchema_accepts. rewrite Hnone.
    now destruct (it_orderId item).
  - destruct (createOrder_item_without_product env
                (withUser validated "user-1") item rest w Hnone)
      as [e [w' [Hrun [Hdb Hj]]]].
    exists w'. split; [|split; assumption].
    unfold post_api_orders, bind, lift. now rewrite Hparse, Hitems, Hrun.
Qed.

Lemma post_api_orders_item_not_validated_witness :
  insertOrderSchema_parse (rb_order Shop.careless) = inr Shop.header
  /\ it_productId Shop.item_without_product = None
  /\ post_api_orders Shop.env Shop.careless Shop.world
     = (Status 500 "Failed to create order",
        mkWorld Shop.store
                [ InsertOrders Shop.order;
                  InsertOrderItems
                    (spread_orderId Shop.item_without_product "#") ]).
Proof.
  split; [reflexivity|]. split; [reflexivity|].
  destruct (@post_api_orders_item_not_validated
              Shop.env Shop.careless Shop.world Shop.header
              Shop.item_without_product [] eq_refl eq_refl eq_refl)
    as [_ [w' [Hrun _]]].
  rewrite Hrun. vm_compute in Hrun. inversion Hrun. reflexivity.
Defined.

(** * Selling more than the stock *)

Lemma numeric_10 (v : Z) :
  numeric 10 v = true <-> - 10000000000 < v < 10000000000.
Proof.
  unfold numeric. change (10 ^ 10) with 10000000000.
  rewrite Z.ltb_lt. lia.
Qed.

Lemma numeric_default (p : Z) (v : option Z) :
  0 < p -> numeric_opt p v = true ->
  numeric_opt p (Some (or_default 0 v)) = true.
Proof.
  intros Hp H. destruct v as [x|]; [exact H|].
  cbn. unfold numeric. apply Z.ltb_lt. cbn.
  apply Z.pow_pos_nonneg; lia.
Qed.

Lemma map_p_id_lowered (pid : Id) (q : Numeral) (ps : list Product) :
  map p_id (map (fun p => if String.eqb (p_id p) pid
                          then set_stock p (minus3 (p_stock p) q) else p) ps)
  = map p_id ps.
Proof.
  rewrite map_map. apply map_ext. intros p.
  now destruct (String.eqb (p_id p) pid).
Qed.

Lemma item_ok_inv (pids : list Id) (item : InsertOrderItem) :
  item_ok pids item = true ->
  exists pid q up tp,
    it_productId item = Some pid /\ it_quantity item = Some q
    /\ it_unitPrice item = Some up /\ it_totalPrice item = Some tp
    /\ mem pid pids = true /\ 0 <= digits q /\ numeric 10 (stored3 q) = true
    /\ numeric 10 up = true /\ numeric 10 tp = true
    /\ numeric_opt 5 (it_gstRate item) = true.
Proof.
  unfold item_ok.
  destruct (it_productId item) as [pid|]; [|discriminate].
  destruct (it_quantity item) as [q|]; [|discriminate].
  destruct (it_unitPrice item) as [up|]; [|discriminate].
  destruct (it_totalPrice item) as [tp|]; [|discriminate].
  rewrite !andb_true_iff, Z.leb_le.
  intros [[[[[H1 H2] H3] H4] H5] H6].
  exists pid, q, up, tp. now repeat split.
Qed.

(** An item that is in order takes from the stock, and never adds to it. *)
Lemma take_le (pids : list Id) (item : InsertOrderItem) (p : Product) :
  item_ok pids item = true -> p_stock (take item p) <= p_stock p.
Proof.
  intros H. apply item_ok_inv in H.
  destruct H as [pid [q [up [tp [Hp [Hq [_ [_ [_ [H0 _]]]]]]]]]].
  unfold take. rewrite Hp, Hq.
  destruct (String.eqb (p_id p) pid); cbn [p_stock set_stock]; [|lia].
  now apply minus3_le.
Qed.

Lemma deplete_le (pids : list Id) (items : list InsertOrderItem) :
  forallb (item_ok pids) items = true ->
  forall p, p_stock (deplete items p) <= p_stock p.
Proof.
  induction items as [|item rest IH]; intros H p.
  - cbn. lia.
  - cbn [forallb] in H. apply andb_true_iff in H. destruct H as [H1 H2].
    unfold deplete. cbn [fold_left]. fold (deplete rest (take item p)).
    pose proof (IH H2 (take item p)) as Hrest.
    pose proof (@take_le _ _ p H1) as Hitem. lia.
Qed.

Lemma deplete_app (before after : list InsertOrderItem) (p : Product) :
  deplete (before ++ after) p = deplete after (deplete before p).
Proof. unfold deplete. now rewrite fold_left_app. Qed.

Section Oversell.

Variable env : Env.

Lemma statement_ok {A} (stmt : Statement)
      (run : nat -> Store -> PgError + A * Store)
      (w : World) (a : A) (s' : Store) :
  fails env (List.length (journal w)) = false ->
  run (List.length (journal w)) (db w) = inr (a, s') ->
  statement env stmt run w = (inr a, mkWorld s' (journal w ++ [stmt])).
Proof. intros F R. unfold statement. now rewrite F, R. Qed.

Lemma sell_ok (order : InsertOrderOfUser) (newOrder : Order)
      (item : InsertOrderItem) (rest : list InsertOrderItem) (w : World) :
  ready env (io_userId order) (o_id newOrder) (item :: rest) w ->
  exists w1,
    sell env order newOrder item w = (inr tt, w1)
    /\ ready env (io_userId order) (o_id newOrder) rest w1.
Proof.
  intros [Hup [Hinj [Hfresh [Huser [Horder [Hitems Hstock]]]]]].
  cbn [forallb] in Hitems. apply andb_true_iff in Hitems.
  destruct Hitems as [Hitem Hrest].
  pose proof (@deplete_le _ _ Hrest) as Hdem.
  destruct (item_ok_inv _ _ Hitem)
    as [pid [q [up [tp [Ep [Eq [Eu [Et [Hpid [Hq [Nq [Nu [Nt Ng]]]]]]]]]]]]].
  set (t := List.length (journal w)) in *.
  set (row := mkOrderItem (gen_random_uuid env t) (o_id newOrder) pid
                          (stored3 q) up tp
                          (Some (or_default 0 (it_gstRate item)))).
  set (s1 := with_orderItems (db w) (orderItems (db w) ++ [row])).
  set (lower := fun p => if String.eqb (p_id p) pid
                         then set_stock p (minus3 (p_stock p) q) else p).
  set (s2 := with_products s1 (map lower (products s1))).
  set (mv := mkStockMovement (gen_random_uuid env (S (S t))) pid
                             (io_userId order) "out" (- stored3 q)
                             (Some "sale") (Some (o_id newOrder)) None
                             (Some (now env (S (S t))))).
  set (s3 := with_stockMovements s2 (stockMovements s2 ++ [mv])).
  assert (Htake : forall p, take item p = lower p).
  { intros p. unfold take, lower. now rewrite Ep, Eq. }
  assert (R1 : run_insert_orderItems env (spread_orderId item (o_id newOrder))
                                     t (db w) = inr (row, s1)).
  { unfold run_insert_orderItems. cbn [spread_orderId it_orderId it_productId
      it_quantity it_unitPrice it_totalPrice it_gstRate].
    rewrite Ep, Eq, Eu, Et. cbv zeta. cbn [option_map numeric_opt].
    rewrite Nq, Nu, Nt.
    pose proof (@numeric_default 5 _ eq_refl Ng) as Ng'.
    cbn [numeric_opt] in Ng'. rewrite Ng'. cbn [andb negb oi_id].
    destruct (Hfresh t (le_n _)) as [Hf _]. apply mem_not_In in Hf.
    rewrite Hf. apply mem_In in Horder. rewrite Horder, Hpid.
    reflexivity. }
  assert (R2 : run_update_products_stock (it_productId item)
                                         (it_quantity item) (S t) s1
               = inr (tt, s2)).
  { unfold run_update_products_stock. rewrite Ep, Eq.
    replace (forallb _ (products s1)) with true; [reflexivity|].
    symmetry. apply forallb_forall. intros p Hp.
    destruct (String.eqb_spec (p_id p) pid) as [E | _]; [|reflexivity].
    cbn [negb orb]. apply numeric_10.
    destruct (Hstock p Hp) as [Hlo Hhi].
    unfold deplete in Hlo. cbn [fold_left] in Hlo.
    fold (deplete rest (take item p)) in Hlo.
    specialize (Hdem (take item p)). rewrite Htake in Hlo, Hdem.
    unfold lower in Hlo, Hdem. rewrite E, String.eqb_refl in Hlo, Hdem.
    cbn [p_stock set_stock] in Hdem.
    pose proof (minus3_le (p_stock p) q Hq). lia. }
  assert (R3 : run_insert_stockMovements env
                 (mkInsertStockMovement (it_productId item) (io_userId order)
                    "out" (neg_text (it_quantity item)) (Some "sale")
                    (Some (o_id newOrder)) None) (S (S t)) s2
               = inr (mv, s3)).
  { unfold run_insert_stockMovements.
    cbn [ism_productId ism_quantity ism_userId ism_type ism_reason
         ism_orderId ism_notes].
    rewrite Ep, Eq. cbn [neg_text].
    destruct (Z.ltb_spec (digits q) 0) as [Hneg | _]; [lia|]. cbv zeta.
    rewrite stored3_opposite.
    replace (numeric 10 (- stored3 q)) with true;
      [|symmetry; apply numeric_10; apply numeric_10 in Nq; lia].
    cbn [negb sm_id].
    destruct (Hfresh (S (S t))) as [_ Hf]; [unfold t; lia|].
    apply mem_not_In in Hf. cbn [stockMovements s2 s1 with_products
      with_orderItems products orders users mem_opt].
    rewrite Hf. unfold lower. rewrite map_p_id_lowered, Hpid.
    apply mem_In in Huser. rewrite Huser.
    apply mem_In in Horder. rewrite Horder. reflexivity. }
  exists (mkWorld s3 (((journal w ++ [InsertOrderItems
                                        (spread_orderId item (o_id newOrder))])
                       ++ [UpdateProductsStock (it_productId item)
                                               (it_quantity item)])
                      ++ [InsertStockMovements
                            (mkInsertStockMovement (it_productId item)
                               (io_userId order) "out"
                               (neg_text (it_quantity item)) (Some "sale")
                               (Some (o_id newOrder)) None)])).
  split.
  - unfold sell, bind, insert_orderItems, update_products_stock,
      insert_stockMovements.
    rewrite (statement_ok _ _ w (Hup t (le_n _)) R1).
    rewrite (statement_ok _ _ (mkWorld s1 _) (a := tt) (s' := s2)).
    + rewrite (statement_ok _ _ (mkWorld s2 _) (a := mv) (s' := s3)).
      * reflexivity.
      * cbn [journal]. apply Hup. rewrite !length_app. fold t. lia.
      * cbn [journal db]. rewrite !length_app. cbn [List.length].
        fold t. replace (t + 1 + 1)%nat with (S (S t)) by lia. exact R3.
    + cbn [journal]. apply Hup. rewrite !length_app. fold t. lia.
    + cbn [journal db]. rewrite !length_app. cbn [List.length].
      fold t. replace (t + 1)%nat with (S t) by lia. exact R2.
  - unfold ready. cbn [journal db].
    assert (L : forall t', (List.length
                 (((journal w ++ [InsertOrderItems
                                    (spread_orderId item (o_id newOrder))])
                   ++ [UpdateProductsStock (it_productId item)
                                           (it_quantity item)])
                  ++ [InsertStockMovements
                        (mkInsertStockMovement (it_productId item)
                           (io_userId order) "out"
                           (neg_text (it_quantity item)) (Some "sale")
                           (Some (o_id newOrder)) None)]) <= t')%nat ->
               (S (S t) < t')%nat).
    { intros t'. rewrite !length_app. cbn [List.length]. fold t. lia. }
    split; [|split; [|split; [|split; [|split; [|split]]]]].
    + intros t' H. apply Hup. apply L in H. lia.
    + intros a b [H1 H2]. apply Hinj. apply L in H1. lia.
    + intros t' H. apply L in H.
      destruct (Hfresh t') as [Hi Hm]; [lia|].
      cbn [s3 s2 s1 with_stockMovements with_products with_orderItems
           orderItems stockMovements].
      rewrite !map_app, !in_app_iff. cbn [map In oi_id sm_id row mv].
      split; intros [Hin | [E | []]]; try contradiction.
      * apply (Hinj t t'); [lia | exact E].
      * apply (Hinj (S (S t)) t'); [lia | exact E].
    + exact Huser.
    + exact Horder.
    + cbn [s3 s2 s1 with_stockMovements with_products with_orderItems
           products]. unfold lower. rewrite map_p_id_lowered. exact Hrest.
    + cbn [s3 s2 s1 with_stockMovements with_products with_orderItems
           products]. intros p' Hp'. apply in_map_iff in Hp'.
      destruct Hp' as [p [<- Hp]]. destruct (Hstock p Hp) as [Hlo Hhi].
      unfold deplete in Hlo. cbn [fold_left] in Hlo.
      fold (deplete rest (take item p)) in Hlo. rewrite Htake in Hlo.
      split; [exact Hlo|].
      pose proof (@take_le _ _ p Hitem) as Hle. rewrite Htake in Hle. lia.
Qed.

Lemma forEach_sell_ok (order : InsertOrderOfUser) (newOrder : Order)
      (items : list InsertOrderItem) :
  forall w,
    ready env (io_userId order) (o_id newOrder) items w ->
    exists w', forEach (sell env order newOrder) items w = (inr tt, w').
Proof.
  induction items as [|item rest IH]; intros w H.
  - exists w. reflexivity.
  - destruct (sell_ok order newOrder H) as [w1 [H1 R1]].
    destruct (IH w1 R1) as [w' H'].
    exists w'. cbn [forEach]. unfold bind. now rewrite H1.
Qed.

(** C5.  [createOrder] lowers the stock by the quantity asked without
    comparing the two.  Whenever the database is reachable, the generated
    identifiers are new, the header and the items refer to rows that exist and
    carry values that fit their columns, and every resulting stock still fits
    [decimal(10,3)], the call returns and every stock is the former stock
    with the quantities asked of it taken one after the other.  An item that
    asks more than is left when its turn comes is served all the same, and
    the stock of its product ends below zero.  When the quantities are
    written with three decimals at most, every stock is the former stock
    minus the quantities asked of it, below zero when more was asked than
    there was. *)
Theorem createOrder_oversells (order : InsertOrderOfUser)
        (items : list InsertOrderItem) (w : World) :
  (forall t, (List.length (journal w) <= t)%nat -> fails env t = false) ->
  (forall a b, (List.length (journal w) <= a < b)%nat ->
               gen_random_uuid env a <> gen_random_uuid env b) ->
  (forall t, (List.length (journal w) <= t)%nat ->
             ~ In (gen_random_uuid env t) (map o_id (orders (db w)))
             /\ ~ In (gen_random_uuid env t) (map oi_id (orderItems (db w)))
             /\ ~ In (gen_random_uuid env t)
                     (map sm_id (stockMovements (db w)))) ->
  header_ok (db w) order = true ->
  forallb (item_ok (map p_id (products (db w)))) items = true ->
  (forall p, In p (products (db w)) ->
             - 10000000000 < p_stock (deplete items p)
             /\ p_stock p < 10000000000) ->
  exists newOrder w',
    createOrder env order items w = (inr newOrder, w')
    /\ products (db w') = map (deplete items) (products (db w))
    /\ (forall before item after q p,
          items = before ++ item :: after ->
          In p (products (db w)) ->
          it_productId item = Some (p_id p) ->
          it_quantity item = Some q ->
          p_stock (deplete before p) < stored3 q ->
          exists p', In p' (products (db w'))
                     /\ p_id p' = p_id p
                     /\ p_stock p' < 0)
    /\ (three_decimals items = true ->
        forall p, In p (products (db w)) ->
                  p_stock p < demand items (p_id p) ->
                  exists p', In p' (products (db w'))
                             /\ p_id p' = p_id p
                             /\ p_stock p' = p_stock p - demand items (p_id p)
                             /\ p_stock p' < 0).
Proof.
  intros Hup Hinj Hfresh Hheader Hitems Hstock.
  set (t := List.length (journal w)) in *.
  set (row := orders_row env order t).
  set (s0 := with_orders (db w) (orders (db w) ++ [row])).
  unfold header_ok in Hheader. rewrite !andb_true_iff in Hheader.
  destruct Hheader as [[[[[Hu Hc] Ht] Hp] Hd] Hg].
  assert (R0 : run_insert_orders env order t (db w) = inr (row, s0)).
  { unfold run_insert_orders. fold row. cbv zeta.
    cbn [row orders_row o_totalAmount o_paidAmount o_discountAmount
         o_gstAmount].
    rewrite Ht.
    rewrite (@numeric_default 10 _ eq_refl Hp).
    rewrite (@numeric_default 10 _ eq_refl Hd).
    rewrite (@numeric_default 10 _ eq_refl Hg). cbn [andb negb].
    destruct (Hfresh t (le_n _)) as [Hf _]. apply mem_not_In in Hf.
    unfold row at 1. cbn [o_id orders_row]. rewrite Hf.
    cbn [row orders_row o_userId o_customerId].
    rewrite Hu, Hc. reflexivity. }
  assert (Rdy : ready env (io_userId order) (o_id row) items
                      (mkWorld s0 (journal w ++ [InsertOrders order]))).
  { unfold ready. cbn [journal db].
    assert (L : forall t', (List.length (journal w ++ [InsertOrders order])
                            <= t')%nat -> (t < t')%nat).
    { intros t'. rewrite length_app. cbn [List.length]. fold t. lia. }
    split; [|split; [|split; [|split; [|split; [|split]]]]].
    - intros t' H. apply Hup. apply L in H. lia.
    - intros a b [H1 H2]. apply Hinj. apply L in H1. lia.
    - intros t' H. apply L in H.
      destruct (Hfresh t') as [_ [Hi Hm]]; [lia|]. now split.
    - apply mem_In. exact Hu.
    - cbn [s0 with_orders orders]. rewrite map_app, in_app_iff.
      right. now left.
    - exact Hitems.
    - exact Hstock. }
  destruct (forEach_sell_ok order row Rdy) as [w' Hloop].
  assert (Hrun : createOrder env order items w = (inr row, w')).
  { unfold createOrder, db_transaction, bind, insert_orders.
    rewrite (statement_ok _ _ w (Hup t (le_n _)) R0).
    now rewrite Hloop. }
  exists row, w'. split; [exact Hrun|].
  apply createOrder_effect in Hrun.
  destruct Hrun as [_ [_ [ois [mvs [_ [_ [D _]]]]]]].
  assert (P : products (db w') = map (deplete items) (products (db w)))
    by (now rewrite D).
  split; [exact P|]. split.
  - intros before item after q p -> Hin Ep Eq Hshort.
    exists (deplete (before ++ item :: after) p). rewrite P.
    split; [now apply in_map|]. split; [apply deplete_id|].
    change (item :: after) with ([item] ++ after).
    rewrite app_assoc, deplete_app, deplete_snoc.
    rewrite forallb_app in Hitems. apply andb_true_iff in Hitems.
    destruct Hitems as [_ Hafter]. cbn [forallb] in Hafter.
    apply andb_true_iff in Hafter. destruct Hafter as [_ Hafter].
    pose proof (@deplete_le _ _ Hafter (take item (deplete before p)))
      as Hle.
    assert (Hneg : p_stock (take item (deplete before p)) < 0).
    { unfold take. rewrite Ep, Eq, deplete_id, String.eqb_refl.
      cbn [p_stock set_stock]. now apply minus3_short. }
    lia.
  - intros Hgram p Hin Hless. exists (deplete items p). rewrite P.
    split; [now apply in_map|].
    rewrite (deplete_three_decimals _ Hgram). cbn [p_id p_stock set_stock].
    repeat split. lia.
Qed.

End Oversell.

Lemma uuid_inj (a b : nat) : Shop.uuid a = Shop.uuid b -> a = b.
Proof.
  unfold Shop.uuid. cbn. intros H. inversion H as [E]. clear H.
  revert b E. induction a as [|a IH]; intros [|b]; cbn; intros E;
    try reflexivity; try discriminate.
  inversion E as [E']. f_equal. now apply IH.
Qed.

Lemma createOrder_oversells_witness :
  exists newOrder w',
    createOrder Shop.env Shop.order Shop.greedy Shop.world = (inr newOrder, w')
    /\ map p_stock (products (db Shop.world)) = [10000; 1000]
    /\ map p_stock (products (db w')) = [10000; -4000].
Proof.
  destruct (@createOrder_oversells Shop.env Shop.order Shop.greedy Shop.world)
    as [newOrder [w' [H [P _]]]].
  - reflexivity.
  - intros a b Hab E. apply uuid_inj in E. lia.
  - intros t _. cbn. tauto.
  - reflexivity.
  - reflexivity.
  - intros p [<- | [<- | []]]; vm_compute; split; reflexivity.
  - exists newOrder, w'. split; [exact H|]. split; [reflexivity|].
    rewrite P. reflexivity.
Defined.

(** * Consistency of the tables *)

Lemma NoDup_map_snoc {A} (f : A -> Id) (l : list A) (x : A) :
  NoDup (map f l) -> ~ In (f x) (map f l) -> NoDup (map f (l ++ [x])).
Proof.
  intros N F. rewrite map_app. cbn [map].
  induction (map f l) as [|y ys IH]; cbn.
  - constructor; [intros [] | constructor].
  - inversion N as [|? ? Hy Nys]. subst. constructor.
    + rewrite in_app_iff. intros [H | [H | []]]; [now apply Hy|].
      apply F. now left.
    + apply IH; [assumption|]. intros H. apply F. now right.
Qed.

Lemma mem_opt_app (x : option Id) (l l' : list Id) :
  mem_opt x l = true -> mem_opt x (l ++ l') = true.
Proof.
  destruct x as [i|]; [|reflexivity]. cbn. rewrite !mem_In, in_app_iff.
  now left.
Qed.

Lemma consistent_insert_order (s : Store) (row : Order) :
  consistent s ->
  ~ In (o_id row) (map o_id (orders s)) ->
  In (o_userId row) (users s) ->
  mem_opt (o_customerId row) (customers s) = true ->
  consistent (with_orders s (orders s ++ [row])).
Proof.
  intros [Kp Ko Ki Kt Km Rp Ro Ri Rt Rm] Hnew Hu Hc.
  constructor; cbn; try assumption.
  - now apply NoDup_map_snoc.
  - apply Forall_app. split; [assumption|]. repeat constructor; assumption.
  - eapply Forall_impl; [|exact Ri]. cbn. intros r [H1 H2].
    split; [|assumption]. rewrite map_app, in_app_iff. now left.
  - eapply Forall_impl; [|exact Rt]. cbn. intros t [H1 H2].
    split; [|assumption]. rewrite map_app. now apply mem_opt_app.
  - eapply Forall_impl; [|exact Rm]. cbn. intros m [H1 [H2 H3]].
    repeat split; try assumption. rewrite map_app. now apply mem_opt_app.
Qed.

Lemma consistent_insert_orderItem (s : Store) (row : OrderItem) :
  consistent s ->
  ~ In (oi_id row) (map oi_id (orderItems s)) ->
  In (oi_orderId row) (map o_id (orders s)) ->
  In (oi_productId row) (map p_id (products s)) ->
  consistent (with_orderItems s (orderItems s ++ [row])).
Proof.
  intros [Kp Ko Ki Kt Km Rp Ro Ri Rt Rm] Hnew Ho Hp.
  constructor; cbn; try assumption.
  - now apply NoDup_map_snoc.
  - apply Forall_app. split; [assumption|]. repeat constructor; assumption.
Qed.

Lemma consistent_insert_stockMovement (s : Store) (row : StockMovement) :
  consistent s ->
  ~ In (sm_id row) (map sm_id (stockMovements s)) ->
  In (sm_productId row) (map p_id (products s)) ->
  In (sm_userId row) (users s) ->
  mem_opt (sm_orderId row) (map o_id (orders s)) = true ->
  consistent (with_stockMovements s (stockMovements s ++ [row])).
Proof.
  intros [Kp Ko Ki Kt Km Rp Ro Ri Rt Rm] Hnew Hp Hu Ho.
  constructor; cbn; try assumption.
  - now apply NoDup_map_snoc.
  - apply Forall_app. split; [assumption|]. repeat constructor; assumption.
Qed.

Lemma consistent_insert_transaction (s : Store) (row : Transaction) :
  consistent s ->
  ~ In (t_id row) (map t_id (transactions s)) ->
  mem_opt (t_orderId row) (map o_id (orders s)) = true ->
  mem_opt (t_customerId row) (customers s) = true ->
  In (t_userId row) (users s) ->
  consistent (with_transactions s (transactions s ++ [row])).
Proof.
  intros [Kp Ko Ki Kt Km Rp Ro Ri Rt Rm] Hnew Ho Hc Hu.
  constructor; cbn; try assumption.
  - now apply NoDup_map_snoc.
  - apply Forall_app. split; [assumption|]. repeat constructor; assumption.
Qed.

(** Rewriting the stock of products touches no key and no reference. *)
Lemma consistent_restock (s : Store) (g : Product -> Z) :
  consistent s ->
  consistent (with_products s (map (fun p => set_stock p (g p)) (products s))).
Proof.
  intros [Kp Ko Ki Kt Km Rp Ro Ri Rt Rm].
  assert (E : map p_id (map (fun p => set_stock p (g p)) (products s))
              = map p_id (products s))
    by (rewrite map_map; apply map_ext; reflexivity).
  constructor; cbn; rewrite ?E; try assumption.
  apply Forall_map. eapply Forall_impl; [|exact Rp]. cbn. tauto.
Qed.

Lemma conditional_restock (c : Product -> bool) (h : Product -> Z)
      (ps : list Product) :
  map (fun p => if c p then set_stock p (h p) else p) ps
  = map (fun p => set_stock p (if c p then h p else p_stock p)) ps.
Proof.
  apply map_ext. intros p. destruct (c p);
    [reflexivity | now rewrite set_stock_same].
Qed.

Section Keeping.

Variable env : Env.
Variable P : Store -> Prop.

Lemma keeps_ret {A} (a : A) : keeps P (ret a).
Proof. intros w r w' H E. unfold ret in E. inversion E. subst. exact H. Qed.

Lemma keeps_lift {A} (x : Exn + A) : keeps P (lift x).
Proof. intros w r w' H E. unfold lift in E. inversion E. subst. exact H. Qed.

Lemma keeps_bind {A B} (m : M A) (k : A -> M B) :
  keeps P m -> (forall a, keeps P (k a)) -> keeps P (bind m k).
Proof.
  intros Hm Hk w r w' H E.
  destruct (bind_cases _ _ _ E) as [[e [E1 _]] | [a [w1 [E1 E2]]]].
  - exact (Hm _ _ _ H E1).
  - exact (Hk a _ _ _ (Hm _ _ _ H E1) E2).
Qed.

Lemma keeps_forEach {A} (f : A -> M unit) (l : list A) :
  (forall x, keeps P (f x)) -> keeps P (forEach f l).
Proof.
  intros Hf. induction l as [|x l IH]; cbn [forEach].
  - apply keeps_ret.
  - apply keeps_bind; [apply Hf | intros _; exact IH].
Qed.

Lemma keeps_db_transaction {A} (body : M A) :
  keeps P body -> keeps P (db_transaction body).
Proof.
  intros Hb w r w' H E. unfold db_transaction in E.
  destruct (body w) as [[e | a] w1] eqn:B; inversion E; subst.
  - exact H.
  - exact (Hb _ _ _ H B).
Qed.

Lemma keeps_statement {A} (stmt : Statement)
      (run : nat -> Store -> PgError + A * Store) :
  (forall t s a s', P s -> run t s = inr (a, s') -> P s') ->
  keeps P (statement env stmt run).
Proof.
  intros Hrun w r w' H E.
  destruct (statement_cases _ _ _ _ E) as [_ [[e [_ D]] | [a [_ [_ R]]]]].
  - now rewrite D.
  - exact (Hrun _ _ _ _ H R).
Qed.

End Keeping.

(** A check of a run that returned had let it through. *)
Ltac let_through H :=
  match goal with
  | |- context [if negb ?c then inl _ else _] =>
      destruct c eqn:H; cbn [negb]; [|discriminate]
  | |- context [if ?c then inl _ else _] =>
      destruct c eqn:H; [discriminate|]
  end.

Section Consistency.

Variable env : Env.

Lemma run_insert_orders_consistent (v : InsertOrderOfUser) (t : nat)
      (s s' : Store) (row : Order) :
  consistent s -> run_insert_orders env v t s = inr (row, s') ->
  consistent s'.
Proof.
  intros C. unfold run_insert_orders. cbv zeta.
  let_through Hnum. let_through Hpk. let_through Hfk.
  intros E. inversion E. subst. clear E.
  apply andb_true_iff in Hfk. destruct Hfk as [Hu Hc].
  apply consistent_insert_order; try assumption.
  - now apply mem_not_In.
  - now apply mem_In.
Qed.

Lemma run_insert_orderItems_consistent (v : InsertOrderItem) (t : nat)
      (s s' : Store) (row : OrderItem) :
  consistent s -> run_insert_orderItems env v t s = inr (row, s') ->
  consistent s'.
Proof.
  intros C. unfold run_insert_orderItems. cbv zeta. let_through Hnum.
  destruct (it_orderId v) as [oid|]; [|discriminate].
  destruct (it_productId v) as [pid|]; [|discriminate].
  destruct (it_quantity v) as [q|]; [|discriminate]. cbn [option_map].
  destruct (it_unitPrice v) as [up|]; [|discriminate].
  destruct (it_totalPrice v) as [tp|]; [|discriminate].
  let_through Hpk. let_through Hfk.
  intros E. inversion E. subst. clear E.
  apply andb_true_iff in Hfk. destruct Hfk as [Ho Hp].
  apply consistent_insert_orderItem; try assumption; cbn.
  - now apply mem_not_In.
  - now apply mem_In.
  - now apply mem_In.
Qed.

Lemma run_update_products_stock_consistent (pid : option Id)
      (q : option Numeral) (t : nat) (s s' : Store) (u : unit) :
  consistent s -> run_update_products_stock pid q t s = inr (u, s') ->
  consistent s'.
Proof.
  intros C E. apply run_update_products_stock_inr in E.
  destruct E as [p0 [q0 [_ [_ ->]]]].
  rewrite (conditional_restock (fun p => String.eqb (p_id p) p0)
                               (fun p => minus3 (p_stock p) q0)).
  now apply consistent_restock.
Qed.

Lemma run_insert_stockMovements_consistent (v : InsertStockMovement)
      (t : nat) (s s' : Store) (row : StockMovement) :
  consistent s -> run_insert_stockMovements env v t s = inr (row, s') ->
  consistent s'.
Proof.
  intros C. unfold run_insert_stockMovements.
  destruct (ism_quantity v) as [q|]; [|discriminate].
  cbv zeta. let_through Hnum.
  destruct (ism_productId v) as [pid|]; [|discriminate].
  let_through Hpk. let_through Hfk.
  intros E. inversion E. subst. clear E.
  rewrite !andb_true_iff in Hfk. destruct Hfk as [[Hp Hu] Ho].
  apply consistent_insert_stockMovement; try assumption; cbn.
  - now apply mem_not_In.
  - now apply mem_In.
  - now apply mem_In.
Qed.

Lemma run_insert_transactions_consistent (v : InsertTransaction) (t : nat)
      (s s' : Store) (row : Transaction) :
  consistent s -> run_insert_transactions env v t s = inr (row, s') ->
  consistent s'.
Proof.
  intros C. unfold run_insert_transactions. cbv zeta.
  let_through Hnum. let_through Hpk. let_through Hfk.
  intros E. inversion E. subst. clear E.
  rewrite !andb_true_iff in Hfk. destruct Hfk as [[Ho Hc] Hu].
  apply consistent_insert_transaction; try assumption; cbn.
  - now apply mem_not_In.
  - now apply mem_In.
Qed.

Lemma run_updateProductStock_consistent (id : Id) (quantity : Numeral)
      (t : nat) (s s' : Store) (found : option Product) :
  consistent s -> run_updateProductStock id quantity t s = inr (found, s') ->
  consistent s'.
Proof.
  intros C. unfold run_updateProductStock.
  destruct (forallb _ _); [|discriminate]. cbv zeta.
  intros E. inversion E. subst. clear E.
  rewrite (conditional_restock (fun p => String.eqb (p_id p) id)
                               (fun p => plus3 (p_stock p) quantity)).
  now apply consistent_restock.
Qed.

Lemma createOrder_keeps_consistent (order : InsertOrderOfUser)
      (items : list InsertOrderItem) :
  keeps consistent (createOrder env order items).
Proof.
  unfold createOrder. apply keeps_db_transaction. apply keeps_bind.
  - apply keeps_statement. intros t s a s'.
    apply run_insert_orders_consistent.
  - intros newOrder. apply keeps_bind; [|intros _; apply keeps_ret].
    apply keeps_forEach. intros item. unfold sell.
    apply keeps_bind.
    { apply keeps_statement. intros t s a s'.
      apply run_insert_orderItems_consistent. }
    intros _. apply keeps_bind.
    { apply keeps_statement. intros t s a s'.
      apply run_update_products_stock_consistent. }
    intros _. apply keeps_bind; [|intros _; apply keeps_ret].
    apply keeps_statement. intros t s a s'.
    apply run_insert_stockMovements_consistent.
Qed.

Lemma createTransaction_keeps_consistent (transaction : InsertTransaction) :
  keeps consistent (createTransaction env transaction).
Proof.
  unfold createTransaction. apply keeps_statement. intros t s a s'.
  apply run_insert_transactions_consistent.
Qed.

End Consistency.

(** X1.  [createOrder] keeps the tables in agreement with their schema:
    whether it returns or throws, primary keys stay unique and every
    reference still leads to a row. *)
Theorem createOrder_consistent (env : Env) (order : InsertOrderOfUser)
        (items : list InsertOrderItem) (w w' : World) (r : Exn + Order) :
  consistent (db w) ->
  createOrder env order items w = (r, w') ->
  consistent (db w').
Proof.
  intros C E. eapply createOrder_keeps_consistent; eassumption.
Qed.

(** X2.  So does the route [POST /api/orders], ledger entry included,
    whatever it answers. *)
Theorem post_api_orders_consistent (env : Env) (body : RequestBody)
        (w w' : World) (resp : Response) :
  consistent (db w) ->
  post_api_orders env body w = (resp, w') ->
  consistent (db w').
Proof.
  intros C. unfold post_api_orders. cbv zeta.
  match goal with
  | |- (match ?m w with _ => _ end) = _ -> _ =>
      assert (K : keeps consistent m); [|destruct (m w) as [r w1] eqn:E]
  end.
  - apply keeps_bind; [apply keeps_lift|]. intros validatedOrder.
    apply keeps_bind; [apply createOrder_keeps_consistent|]. intros order.
    apply keeps_bind; [|intros _; apply keeps_ret].
    destruct (String.eqb (o_paymentStatus order) "paid");
      [|apply keeps_ret].
    apply keeps_bind; [|intros _; apply keeps_ret].
    apply createTransaction_keeps_consistent.
  - assert (C' : consistent (db w1)) by (eapply K; eassumption).
    destruct r as [[|e] | order]; intros H; inversion H; subst; exact C'.
Qed.

(** * Reading back what was written *)

Lemma hd_error_map {A B} (g : A -> B) (l : list A) :
  hd_error (map g l) = option_map g (hd_error l).
Proof. now destruct l. Qed.

Lemma filter_map_swap {A B} (f : B -> bool) (g : A -> B) (l : list A) :
  filter f (map g l) = map g (filter (fun x => f (g x)) l).
Proof.
  induction l as [|x l IH]; [reflexivity|].
  cbn. destruct (f (g x)); cbn; now rewrite IH.
Qed.

Lemma filter_none {A} (f : A -> bool) (l : list A) :
  (forall x, In x l -> f x = false) -> filter f l = [].
Proof.
  induction l as [|x l IH]; intros H; [reflexivity|].
  cbn. rewrite (H x (or_introl eq_refl)). apply IH.
  intros y Hy. apply H. now right.
Qed.

Lemma filter_all {A} (f : A -> bool) (l : list A) :
  (forall x, In x l -> f x = true) -> filter f l = l.
Proof.
  induction l as [|x l IH]; intros H; [reflexivity|].
  cbn. rewrite (H x (or_introl eq_refl)). f_equal. apply IH.
  intros y Hy. apply H. now right.
Qed.

(** In a table with unique keys, a key that is there selects one row. *)
Lemma select_by_key (ps : list Product) (pid : Id) :
  NoDup (map p_id ps) -> In pid (map p_id ps) ->
  exists p, filter (fun x => String.eqb (p_id x) pid) ps = [p]
            /\ p_id p = pid.
Proof.
  induction ps as [|x ps IH]; intros N H; [contradiction|].
  cbn in N, H. inversion N as [|? ? Hx Nps]. subst. cbn [filter].
  destruct (String.eqb_spec (p_id x) pid) as [E | E].
  - exists x. split; [|assumption]. f_equal. apply filter_none.
    intros y Hy. apply String.eqb_neq. intros Ey. apply Hx.
    rewrite E, <- Ey. now apply in_map.
  - destruct H as [H | H]; [contradiction|]. now apply IH.
Qed.

Lemma innerJoin_filter (id : Id) (items : list OrderItem)
      (ps : list Product) :
  filter (fun row => String.eqb (oi_orderId (fst row)) id)
         (innerJoin_products items ps)
  = innerJoin_products (filter (fun r => String.eqb (oi_orderId r) id) items)
                       ps.
Proof.
  unfold innerJoin_products.
  induction items as [|oi items IH]; [reflexivity|].
  cbn [flat_map filter]. rewrite filter_app, IH.
  destruct (String.eqb (oi_orderId oi) id) eqn:E; cbn [flat_map].
  - f_equal. apply filter_all. intros row Hrow.
    apply in_map_iff in Hrow. destruct Hrow as [p [<- _]]. exact E.
  - rewrite filter_none; [reflexivity|]. intros row Hrow.
    apply in_map_iff in Hrow. destruct Hrow as [p [<- _]]. exact E.
Qed.

(** With unique product keys and items that refer to products, the join
    pairs each item with the product it names: no item is lost or doubled. *)
Lemma innerJoin_total (s : Store) (items : list OrderItem) :
  NoDup (map p_id (products s)) ->
  Forall (fun r => In (oi_productId r) (map p_id (products s))) items ->
  map fst (innerJoin_products items (products s)) = items
  /\ Forall (fun row => getProduct s (oi_productId (fst row))
                        = Some (snd row))
            (innerJoin_products items (products s)).
Proof.
  intros N F. unfold innerJoin_products.
  induction F as [|oi items Hoi _ [IH1 IH2]]; [split; constructor|].
  destruct (@select_by_key (products s) (oi_productId oi) N Hoi)
    as [p [Hp _]].
  assert (E : filter (fun x => String.eqb (oi_productId oi) (p_id x))
                     (products s) = [p]).
  { rewrite <- Hp. apply filter_ext. intros x. apply String.eqb_sym. }
  cbn [flat_map]. rewrite E. cbn [map app]. split.
  - cbn [fst]. now rewrite IH1.
  - constructor; [|assumption]. cbn [fst snd]. unfold getProduct.
    now rewrite Hp.
Qed.

Lemma getOrderWithItems_rows (s : Store) (id : Id) (order : Order)
      (rows : list (OrderItem * Product)) :
  consistent s ->
  getOrderWithItems s id = Some (order, rows) ->
  getOrder s id = Some order
  /\ map fst rows = filter (fun r => String.eqb (oi_orderId r) id)
                           (orderItems s)
  /\ Forall (fun row => getProduct s (oi_productId (fst row))
                        = Some (snd row)) rows.
Proof.
  intros C. unfold getOrderWithItems, getOrder.
  destruct (hd_error _) as [o|]; [|discriminate].
  intros E. inversion E. subst o. clear E. split; [reflexivity|].
  rewrite innerJoin_filter. apply innerJoin_total.
  - apply (products_key C).
  - apply incl_Forall with (l1 := orderItems s).
    + intros r Hr. apply filter_In in Hr. tauto.
    + eapply Forall_impl; [|exact (orderItems_refs C)]. cbn. tauto.
Qed.

Lemma getProduct_Some (s : Store) (id : Id) (p : Product) :
  getProduct s id = Some p -> In p (products s) /\ p_id p = id.
Proof.
  unfold getProduct. intros H.
  assert (Hin : In p (filter (fun x => String.eqb (p_id x) id) (products s))).
  { destruct (filter _ _) as [|x l]; [discriminate|].
    inversion H. now left. }
  apply filter_In in Hin. destruct Hin as [Hin E].
  apply String.eqb_eq in E. now split.
Qed.

Section ReadBack.

Variable env : Env.

Lemma orders_after_createOrder (order : InsertOrderOfUser)
      (items : list InsertOrderItem) (w w' : World) (newOrder : Order) :
  createOrder env order items w = (inr newOrder, w') ->
  forall id,
    getOrder (db w') id
    = if String.eqb (o_id newOrder) id then Some newOrder
      else getOrder (db w) id.
Proof.
  intros H id. apply createOrder_effect in H.
  destruct H as [_ [Hnew [ois [mvs [_ [_ [D _]]]]]]].
  unfold getOrder. rewrite D. cbn [orders]. rewrite filter_app.
  cbn [filter]. destruct (String.eqb_spec (o_id newOrder) id) as [E | E].
  - rewrite filter_none; [reflexivity|]. intros o Ho.
    apply String.eqb_neq. intros Eo. apply Hnew. rewrite E, <- Eo.
    now apply in_map.
  - now rewrite app_nil_r.
Qed.

(** X3.  The order [createOrder] returns can be read back by its identifier
    with [getOrder]; that identifier led to nothing before the call, and
    every other identifier leads to what it led to before. *)
Theorem getOrder_createOrder (order : InsertOrderOfUser)
        (items : list InsertOrderItem) (w w' : World) (newOrder : Order) :
  createOrder env order items w = (inr newOrder, w') ->
  getOrder (db w') (o_id newOrder) = Some newOrder
  /\ getOrder (db w) (o_id newOrder) = None
  /\ forall id, id <> o_id newOrder ->
                getOrder (db w') id = getOrder (db w) id.
Proof.
  intros H. pose proof (orders_after_createOrder _ _ _ H) as R.
  split; [|split].
  - rewrite R. now rewrite String.eqb_refl.
  - apply createOrder_effect in H. destruct H as [_ [Hnew _]].
    unfold getOrder. rewrite filter_none; [reflexivity|].
    intros o Ho. apply String.eqb_neq. intros Eo. apply Hnew.
    rewrite <- Eo. now apply in_map.
  - intros id Hid. rewrite R.
    destruct (String.eqb_spec (o_id newOrder) id); [congruence | reflexivity].
Qed.

(** X4.  On tables that agree with their schema, [getOrderWithItems] of the
    identifier returned by [createOrder] gives that order with one row per
    item of the cart: the rows of [order_items] the call added, each paired
    with the product it names as [getProduct] shows it after the sale. *)
Theorem getOrderWithItems_createOrder (order : InsertOrderOfUser)
        (items : list InsertOrderItem) (w w' : World) (newOrder : Order) :
  consistent (db w) ->
  createOrder env order items w = (inr newOrder, w') ->
  exists rows ois,
    getOrderWithItems (db w') (o_id newOrder) = Some (newOrder, rows)
    /\ List.length rows = List.length items
    /\ orderItems (db w') = orderItems (db w) ++ ois
    /\ Forall2 (item_row (o_id newOrder)) items ois
    /\ Permutation (map fst rows) ois
    /\ Forall (fun row => getProduct (db w') (oi_productId (fst row))
                          = Some (snd row)) rows.
Proof.
  intros C H.
  assert (C' : consistent (db w'))
    by (eapply createOrder_keeps_consistent; eassumption).
  pose proof (orders_after_createOrder _ _ _ H (o_id newOrder)) as R.
  rewrite String.eqb_refl in R.
  apply createOrder_effect in H.
  destruct H as [_ [Hnew [ois [mvs [Fi [_ [D _]]]]]]].
  destruct (getOrderWithItems (db w') (o_id newOrder)) as [[o rows]|] eqn:G.
  - destruct (getOrderWithItems_rows _ C' G) as [Ho [Hrows Hprod]].
    rewrite R in Ho. inversion Ho. subst o. clear Ho.
    assert (E : map fst rows = ois).
    { rewrite Hrows, D. cbn [orderItems]. rewrite filter_app.
      rewrite filter_none, filter_all; [reflexivity | |].
      - intros r Hr. apply String.eqb_eq.
        clear - Fi Hr. induction Fi as [|item row its rs Hrow _ IH];
          [contradiction|].
        destruct Hr as [<- | Hr]; [apply Hrow | now apply IH].
      - intros r Hr. apply String.eqb_neq. intros Er. apply Hnew.
        rewrite <- Er. pose proof (orderItems_refs C) as Refs.
        rewrite Forall_forall in Refs. now apply Refs. }
    exists rows, ois. split; [reflexivity|].
    repeat split; try assumption.
    + rewrite <- (length_map fst rows), E. symmetry.
      eapply Forall2_length. eassumption.
    + now rewrite D.
    + now rewrite E.
  - unfold getOrderWithItems in G. unfold getOrder in R. rewrite R in G.
    discriminate.
Qed.

(** X5.  The movements [createOrder] adds say what its rows of [order_items]
    say: for every product, the quantities of the added movements add up to
    the opposite of the quantities recorded for it.  The stock follows them
    to within the rounding: it is lowered by that sum, or by as much as one
    thousandth less for each item that names the product; and by that sum
    exactly when the quantities of the cart have three decimals at most. *)
Theorem createOrder_movements_account (order : InsertOrderOfUser)
        (items : list InsertOrderItem) (w w' : World) (newOrder : Order) :
  createOrder env order items w = (inr newOrder, w') ->
  exists mvs,
    stockMovements (db w') = stockMovements (db w) ++ mvs
    /\ forall pid,
        moved pid mvs = - demand items pid
        /\ (getProduct (db w) pid = None -> getProduct (db w') pid = None)
        /\ forall p,
            getProduct (db w) pid = Some p ->
            exists p',
              getProduct (db w') pid = Some p'
              /\ p_stock p + moved pid mvs <= p_stock p'
                 <= p_stock p + moved pid mvs
                    + Z.of_nat (List.length (naming pid items))
              /\ (three_decimals items = true ->
                  p_stock p' = p_stock p + moved pid mvs).
Proof.
  intros H. pose proof (createOrder_quantities _ _ _ _ H) as Hq.
  apply createOrder_effect in H.
  destruct H as [_ [_ [ois [mvs [_ [Fm [D _]]]]]]].
  exists mvs. split; [now rewrite D|]. intros pid.
  assert (M : moved pid mvs = - demand items pid).
  { clear D Hq. unfold moved.
    induction Fm as [|item mv its ms Hrow _ IH]; [reflexivity|].
    destruct Hrow as [Hp [[q [Hq Hm]] _]].
    cbn [demand filter]. unfold asks. rewrite Hp, Hq.
    rewrite (String.eqb_sym pid).
    destruct (String.eqb (sm_productId mv) pid); cbn [sumZ fold_right];
      fold (sumZ sm_quantity) in *; unfold sumZ in *; lia. }
  split; [exact M|].
  assert (G : getProduct (db w') pid
              = option_map (deplete items) (getProduct (db w) pid)).
  { unfold getProduct. rewrite D. cbn [products].
    rewrite filter_map_swap, hd_error_map. do 2 f_equal.
    apply filter_ext. intros p. now rewrite deplete_id. }
  rewrite G. split; [now intros ->|].
  intros p Hp. rewrite Hp. exists (deplete items p).
  split; [reflexivity|].
  assert (E : p_id p = pid) by (now apply (getProduct_Some (db w))).
  pose proof (deplete_near Hq p) as Hnear. rewrite E in Hnear.
  split; [lia|].
  intros Hgram. rewrite (deplete_three_decimals _ Hgram).
  cbn [p_stock set_stock]. rewrite E. lia.
Qed.

End ReadBack.

(** X6.  On tables that agree with their schema, [getOrderWithItems] answers
    exactly when [getOrder] does, and the join with the products neither
    loses nor doubles an item: the rows returned are the rows of
    [order_items] of that order, each with the product it names. *)
Theorem getOrderWithItems_join (s : Store) (id : Id) :
  consistent s ->
  (getOrderWithItems s id = None <-> getOrder s id = None)
  /\ forall order rows,
      getOrderWithItems s id = Some (order, rows) ->
      getOrder s id = Some order
      /\ Permutation (map fst rows)
                     (filter (fun r => String.eqb (oi_orderId r) id)
                             (orderItems s))
      /\ Forall (fun row => oi_orderId (fst row) = id
                            /\ p_id (snd row) = oi_productId (fst row)
                            /\ getProduct s (oi_productId (fst row))
                               = Some (snd row)) rows.
Proof.
  intros C. split.
  - unfold getOrderWithItems, getOrder.
    destruct (hd_error _); split; intros H; try discriminate; reflexivity.
  - intros order rows G.
    destruct (getOrderWithItems_rows _ C G) as [Ho [Hrows Hprod]].
    split; [exact Ho|]. split; [now rewrite Hrows|].
    rewrite Forall_forall in *. intros row Hrow.
    specialize (Hprod row Hrow). repeat split; try assumption.
    + assert (Hin : In (fst row) (map fst rows)) by now apply in_map.
      rewrite Hrows in Hin. apply filter_In in Hin.
      now apply String.eqb_eq.
    + now apply getProduct_Some in Hprod.
Qed.

(** * What the routes answer *)

Lemma database_only_bind {A B} (m : M A) (k : A -> M B) :
  database_only m -> (forall a, database_only (k a)) ->
  database_only (bind m k).
Proof.
  intros Hm Hk w e w' E.
  destruct (bind_cases _ _ _ E) as [[e0 [E1 E0]] | [a [w1 [_ E2]]]].
  - inversion E0. subst e0. exact (Hm _ _ _ E1).
  - exact (Hk a _ _ _ E2).
Qed.

Lemma database_only_ret {A} (a : A) : database_only (ret a).
Proof. intros w e w' E. discriminate. Qed.

Lemma database_only_forEach {A} (f : A -> M unit) (l : list A) :
  (forall x, database_only (f x)) -> database_only (forEach f l).
Proof.
  intros Hf. induction l as [|x l IH]; cbn [forEach].
  - apply database_only_ret.
  - apply database_only_bind; [apply Hf | intros _; exact IH].
Qed.

Lemma database_only_statement {A} (env : Env) (stmt : Statement)
      (run : nat -> Store -> PgError + A * Store) :
  database_only (statement env stmt run).
Proof.
  intros w e w' E.
  destruct (statement_cases _ _ _ _ E) as [_ [[pe [R _]] | [a [R _]]]];
    inversion R. now exists pe.
Qed.

Lemma createOrder_throws (env : Env) (order : InsertOrderOfUser)
      (items : list InsertOrderItem) (w w' : World) (e : Exn) :
  createOrder env order items w = (inl e, w') ->
  db w' = db w /\ exists pe, e = DatabaseError pe.
Proof.
  unfold createOrder, db_transaction. intros H.
  destruct (bind _ _ w) as [[e0 | o] w1] eqn:B; inversion H. subst.
  split; [reflexivity|]. revert B.
  apply database_only_bind; [apply database_only_statement|].
  intros newOrder. apply database_only_bind; [|intros; apply database_only_ret].
  apply database_only_forEach. intros item. unfold sell.
  repeat (apply database_only_bind;
          [apply database_only_statement | intros _]).
  apply database_only_ret.
Qed.

(** Every way [POST /api/orders] can go. *)
Lemma post_api_orders_cases (env : Env) (body : RequestBody) (w w' : World)
      (resp : Response) :
  post_api_orders env body w = (resp, w') ->
  (insertOrderSchema_parse (rb_order body) = inl ZodError
   /\ resp = Status 400 "Invalid order data" /\ w' = w)
  \/ exists validated,
      insertOrderSchema_parse (rb_order body) = inr validated
      /\ ((exists e,
             createOrder env (withUser validated "user-1") (rb_items body) w
             = (inl e, w')
             /\ resp = Status 500 "Failed to create order")
          \/ exists order w1,
              createOrder env (withUser validated "user-1") (rb_items body) w
              = (inr order, w1)
              /\ ((o_paymentStatus order <> "paid"
                   /\ resp = Json order /\ w' = w1)
                  \/ (o_paymentStatus order = "paid"
                      /\ ((exists t,
                             createTransaction env (sale_entry order) w1
                             = (inr t, w')
                             /\ resp = Json order)
                          \/ (exists e,
                                createTransaction env (sale_entry order) w1
                                = (inl e, w')
                                /\ resp = Status 500
                                            "Failed to create order"))))).
Proof.
  intros H. unfold post_api_orders, bind, lift in H. cbv zeta in H.
  destruct (insertOrderSchema_parse (rb_order body)) as [e | validated] eqn:P.
  - assert (E : e = ZodError).
    { unfold insertOrderSchema_parse in P.
      destruct (ob_orderNumber (rb_order body));
        destruct (ob_totalAmount (rb_order body)); congruence. }
    subst e. inversion H. left. now repeat split.
  - right. exists validated. split; [reflexivity|].
    destruct (createOrder env (withUser validated "user-1") (rb_items body) w)
      as [[e | order] w1] eqn:C.
    + destruct (@createOrder_throws env _ _ _ _ _ C) as [_ [pe ->]].
      inversion H. left. exists (DatabaseError pe). now split.
    + right. exists order, w1. split; [reflexivity|].
      fold (sale_entry order) in H.
      destruct (String.eqb_spec (o_paymentStatus order) "paid") as [E | E].
      * right. split; [exact E|].
        destruct (createTransaction env (sale_entry order) w1)
          as [[e | t] w2] eqn:T.
        -- unfold createTransaction in T.
           destruct (@database_only_statement _ env _ _ _ _ _ T) as [pe ->].
           inversion H. right. exists (DatabaseError pe). now split.
        -- unfold ret in H. inversion H. left. exists t. now split.
      * unfold ret in H. inversion H. left. now repeat split.
Qed.

Lemma sumZ_app {A} (e : A -> Z) (l l' : list A) :
  sumZ e (l ++ l') = sumZ e l + sumZ e l'.
Proof.
  unfold sumZ. induction l as [|x l IH]; cbn; [reflexivity|].
  rewrite IH. lia.
Qed.

(** One more entry in the ledger adds its weight to the figures of every
    user and day. *)
Lemma getDailySales_snoc (s s' : Store) (t : Transaction) :
  transactions s' = transactions s ++ [t] ->
  forall userId date,
    getDailySales s' userId date
    = plus_sales (getDailySales s userId date) (weight userId date t).
Proof.
  intros E userId date. rewrite !getDailySales_refines.
  unfold dailySales_spec, sales_of_day, plus_sales, weight. cbv zeta.
  rewrite E, filter_app. cbn [filter].
  destruct (String.eqb (t_userId t) userId && String.eqb (t_type t) "sale"
            && within_day date (t_createdAt t)); cbn [total upiTotal count].
  - rewrite filter_app, !sumZ_app, length_app. cbn [filter List.length].
    destruct (String.eqb (t_paymentMethod t) "upi"); cbn [sumZ fold_right];
      f_equal; lia.
  - rewrite !app_nil_r. f_equal; lia.
Qed.

Lemma getDailySales_same (s s' : Store) :
  transactions s' = transactions s ->
  forall userId date, getDailySales s' userId date
                      = getDailySales s userId date.
Proof. intros E userId date. unfold getDailySales. now rewrite E. Qed.

Lemma parse_paymentStatus (b : OrderBody) (v : InsertOrder) :
  insertOrderSchema_parse b = inr v ->
  io_paymentStatus v = ob_paymentStatus b
  /\ ob_orderNumber b = Some (io_orderNumber v)
  /\ ob_totalAmount b = Some (io_totalAmount v).
Proof.
  unfold insertOrderSchema_parse.
  destruct (ob_orderNumber b); [|discriminate].
  destruct (ob_totalAmount b); [|discriminate].
  intros E. inversion E. now repeat split.
Qed.

Lemma createTransaction_row (env : Env) (v : InsertTransaction)
      (w w' : World) (t : Transaction) :
  createTransaction env v w = (inr t, w') ->
  t = mkTransaction (gen_random_uuid env (List.length (journal w)))
                    (itx_orderId v) (itx_customerId v) (itx_userId v)
                    (itx_type v) (itx_amount v) (itx_paymentMethod v)
                    (itx_upiApp v) (itx_description v)
                    (Some (now env (List.length (journal w))))
  /\ db w' = with_transactions (db w) (transactions (db w) ++ [t])
  /\ journal w' = journal w ++ [InsertTransactions v].
Proof.
  unfold createTransaction. intros H. apply statement_inr in H.
  destruct H as [J [_ R]]. unfold run_insert_transactions in R.
  cbv zeta in R.
  destruct (negb _); [discriminate|].
  destruct (mem _ (map t_id (transactions (db w)))); [discriminate|].
  destruct (negb _); [discriminate|].
  inversion R. now repeat split.
Qed.

Lemma createOrder_journal_length (env : Env) (order : InsertOrderOfUser)
      (items : list InsertOrderItem) (w w' : World) (newOrder : Order) :
  createOrder env order items w = (inr newOrder, w') ->
  List.length (journal w')
  = (List.length (journal w) + 1 + 3 * List.length items)%nat.
Proof.
  intros H. apply createOrder_effect in H.
  destruct H as [_ [_ [ois [mvs [_ [_ [_ J]]]]]]].
  rewrite J, length_app. cbn [List.length].
  assert (L : List.length (flat_map (sell_statements order (o_id newOrder))
                                    items)
              = (3 * List.length items)%nat).
  { clear J. induction items as [|x l IH]; [reflexivity|].
    cbn [flat_map]. rewrite length_app, IH.
    change (List.length (sell_statements order (o_id newOrder) x)) with 3%nat.
    cbn [List.length]. lia. }
  rewrite L. lia.
Qed.

(** X7.  A header that lacks its order number or its total amount is
    answered 400 by [POST /api/orders].  And whenever the answer is 400,
    nothing has been sent to the database and nothing has changed: a request
    that has reached the database is never answered 400, whatever the
    database does with it. *)
Theorem post_api_orders_400 (env : Env) (body : RequestBody) (w : World) :
  (ob_orderNumber (rb_order body) = None
   \/ ob_totalAmount (rb_order body) = None ->
   post_api_orders env body w = (Status 400 "Invalid order data", w))
  /\ (forall resp w' error,
        post_api_orders env body w = (resp, w') ->
        resp = Status 400 error ->
        w' = w /\ error = "Invalid order data")
  /\ (forall resp w',
        post_api_orders env body w = (resp, w') ->
        journal w' <> journal w ->
        forall error, resp <> Status 400 error).
Proof.
  assert (K : forall resp w' error,
             post_api_orders env body w = (resp, w') ->
             resp = Status 400 error ->
             w' = w /\ error = "Invalid order data").
  { intros resp w' error H R.
    destruct (post_api_orders_cases _ _ _ H)
      as [[P [R' Hw]] | [v [_ [[e [_ R']] | [o [w1 [_ [[_ [R' _]] | [_ [[t [_ R']] | [e [_ R']]]]]]]]]]]];
      try (rewrite R in R'; discriminate).
    split; [exact Hw | congruence]. }
  split; [|split; [exact K|]].
  - intros H. apply post_api_orders_invalid_header with (e := ZodError).
    unfold insertOrderSchema_parse.
    destruct H as [-> | ->]; [reflexivity|].
    now destruct (ob_orderNumber (rb_order body)).
  - intros resp w' H J error R. apply J.
    destruct (K _ _ _ H R) as [-> _]. reflexivity.
Qed.

(** X8.  [POST /api/orders] adds at most one ledger entry, and only when it
    answers with an order whose payment status is "paid": a sale by
    "user-1" for that order.  A header whose payment status is absent or
    anything else leaves the ledger as it was, whatever the answer. *)
Theorem post_api_orders_ledger_only_if_paid (env : Env) (body : RequestBody)
        (w w' : World) (resp : Response) :
  post_api_orders env body w = (resp, w') ->
  (transactions (db w') = transactions (db w)
   \/ exists order t,
       resp = Json order
       /\ o_paymentStatus order = "paid"
       /\ transactions (db w') = transactions (db w) ++ [t]
       /\ t_orderId t = Some (o_id order)
       /\ t_userId t = "user-1"
       /\ t_type t = "sale")
  /\ (ob_paymentStatus (rb_order body) <> Some "paid" ->
      transactions (db w') = transactions (db w)).
Proof.
  intros H.
  destruct (post_api_orders_cases _ _ _ H)
    as [[_ [_ ->]] | [v [P [[e [C _]] | [o [w1 [C Hrest]]]]]]].
  - split; [now left | reflexivity].
  - apply createOrder_throws in C. destruct C as [-> _].
    split; [now left | reflexivity].
  - pose proof (createOrder_effect _ _ _ _ C)
      as [Hrow [_ [ois [mvs [_ [_ [D _]]]]]]].
    assert (T1 : transactions (db w1) = transactions (db w))
      by (now rewrite D).
    assert (Hstatus : ob_paymentStatus (rb_order body) <> Some "paid" ->
                      o_paymentStatus o <> "paid").
    { intros Hb. destruct (parse_paymentStatus _ P) as [Ev _].
      subst o. cbn [o_paymentStatus orders_row io_header]. rewrite Ev.
      destruct (ob_paymentStatus (rb_order body)) as [x|]; cbn.
      - congruence.
      - discriminate. }
    destruct Hrest as [[Hnot [_ ->]] | [Hpaid [[t [T R]] | [e [T _]]]]].
    + split; [now left | intros _; exact T1].
    + apply createTransaction_row in T. destruct T as [Ht [Dt _]].
      split.
      * right. exists o, t. rewrite Dt. cbn [transactions with_transactions].
        rewrite T1. subst t. now repeat split.
      * intros Hb. now apply Hstatus in Hb.
    + unfold createTransaction in T. apply statement_cases in T.
      destruct T as [_ [[pe [_ Dt]] | [a [Ea _]]]]; [|discriminate].
      rewrite Dt. split; [now left | intros _; exact T1].
Qed.

(** X9.  What an answered order does to the dashboard of "user-1".  An order
    that is not paid leaves today's sales, orders count and UPI collection as
    they were, although it is in the table of orders.  A paid order whose
    ledger entry is written today raises the orders count by one, today's
    sales by its total amount, and the UPI collection by that amount when its
    payment method is "upi". *)
Theorem post_api_orders_dashboard (env : Env) (body : RequestBody)
        (w w' : World) (order : Order) (today : Z) :
  post_api_orders env body w = (Json order, w') ->
  let before := getDashboardStats (db w) "user-1" today in
  let after := getDashboardStats (db w') "user-1" today in
  let written :=
    now env (List.length (journal w) + 1 + 3 * List.length (rb_items body)) in
  In order (orders (db w'))
  /\ (o_paymentStatus order <> "paid" ->
      todaySales after = todaySales before
      /\ ordersCount after = ordersCount before
      /\ upiCollection after = upiCollection before)
  /\ (o_paymentStatus order = "paid" ->
      within_day today (Some written) = true ->
      todaySales after = todaySales before + o_totalAmount order
      /\ ordersCount after = ordersCount before + 1
      /\ upiCollection after
         = upiCollection before
           + (if String.eqb (js_or (o_paymentMethod order) "cash") "upi"
              then o_totalAmount order else 0)).
Proof.
  intros H before after written. subst before after.
  unfold getDashboardStats. cbv zeta. cbn [todaySales ordersCount upiCollection].
  destruct (post_api_orders_cases _ _ _ H)
    as [[_ [R _]] | [v [P [[e [_ R]] | [o [w1 [C Hrest]]]]]]];
    try discriminate.
  pose proof (createOrder_effect _ _ _ _ C)
    as [_ [_ [ois [mvs [_ [_ [D _]]]]]]].
  assert (T1 : transactions (db w1) = transactions (db w)) by (now rewrite D).
  assert (O1 : In o (orders (db w1))).
  { rewrite D. cbn. apply in_or_app. right. now left. }
  destruct Hrest as [[Hnot [R ->]] | [Hpaid [[t [T R]] | [e [_ R]]]]];
    try discriminate; inversion R; subst o; clear R.
  - split; [exact O1|]. split; [|contradiction].
    intros _. now rewrite (@getDailySales_same (db w) (db w1) T1).
  - pose proof (createOrder_journal_length _ _ _ _ C) as L.
    apply createTransaction_row in T. destruct T as [Ht [Dt _]].
    assert (T2 : transactions (db w') = transactions (db w) ++ [t]).
    { rewrite Dt. cbn. now rewrite T1. }
    split; [rewrite Dt; exact O1|]. split; [contradiction|].
    intros _ Hday. rewrite (@getDailySales_snoc (db w) (db w') t T2).
    unfold weight, plus_sales. rewrite L in Ht. fold written in Ht.
    subst t. cbn [t_userId t_type t_createdAt t_amount t_paymentMethod
                  sale_entry itx_userId itx_type itx_amount
                  itx_paymentMethod].
    rewrite Hday. cbn [String.eqb Ascii.eqb Bool.eqb andb total upiTotal count].
    now repeat split.
Qed.

(** X10.  The figures of [getDailySales] are bounded by the ledger: the count
    is between zero and the number of entries, a count of zero goes with
    totals of zero, and when no sale has a negative amount the UPI total lies
    between zero and the total. *)
Theorem getDailySales_bounds (s : Store) (userId : Id) (date : Z) :
  let r := getDailySales s userId date in
  0 <= count r <= Z.of_nat (List.length (transactions s))
  /\ (count r = 0 -> total r = 0 /\ upiTotal r = 0)
  /\ ((forall t, In t (transactions s) -> t_type t = "sale" ->
                 0 <= t_amount t) ->
      0 <= upiTotal r <= total r).
Proof.
  cbv zeta. rewrite getDailySales_refines. unfold dailySales_spec.
  cbv zeta. cbn [total upiTotal count].
  set (sales := sales_of_day s userId date).
  assert (Hsub : forall t, In t sales ->
                           In t (transactions s) /\ t_type t = "sale").
  { intros t Ht. unfold sales, sales_of_day in Ht. apply filter_In in Ht.
    destruct Ht as [Hin Hc]. rewrite !andb_true_iff in Hc.
    destruct Hc as [[_ Hs] _]. apply String.eqb_eq in Hs. now split. }
  split; [|split].
  - split; [lia|]. apply inj_le. unfold sales, sales_of_day.
    apply filter_length_le.
  - intros Hz. destruct sales as [|x l]; [now split | cbn in Hz; lia].
  - intros Hpos.
    assert (Hs : forall t, In t sales -> 0 <= t_amount t).
    { intros t Ht. destruct (Hsub t Ht). now apply Hpos. }
    clear Hsub. unfold sumZ.
    induction sales as [|x l IH]; cbn; [lia|].
    assert (Hx : 0 <= t_amount x) by (apply Hs; now left).
    assert (Hl : forall t, In t l -> 0 <= t_amount t)
      by (intros t Ht; apply Hs; now right).
    specialize (IH Hl).
    destruct (String.eqb (t_paymentMethod x) "upi"); cbn; lia.
Qed.

(** * Manual stock adjustment *)

Lemma map_no_match (id : Id) (h : Product -> Product) (ps : list Product) :
  ~ In id (map p_id ps) ->
  map (fun p => if String.eqb (p_id p) id then h p else p) ps = ps.
Proof.
  intros H. induction ps as [|p ps IH]; [reflexivity|].
  cbn in *. destruct (String.eqb_spec (p_id p) id) as [E | _].
  - exfalso. apply H. now left.
  - f_equal. apply IH. intros Hin. apply H. now right.
Qed.

Lemma with_products_same (s : Store) : with_products s (products s) = s.
Proof. now destruct s. Qed.

Section Adjusting.

Variable env : Env.

Lemma updateProductStock_inr (id : Id) (quantity : Numeral) (w w1 : World)
      (found : option Product) :
  updateProductStock env id quantity w = (inr found, w1) ->
  db w1 = with_products (db w)
            (map (fun p => if String.eqb (p_id p) id
                           then set_stock p (plus3 (p_stock p) quantity)
                           else p)
                 (products (db w)))
  /\ found = getProduct (db w1) id
  /\ journal w1
     = journal w ++ [UpdateProductsStock (Some id) (Some (opposite quantity))].
Proof.
  unfold updateProductStock. intros H. apply statement_inr in H.
  destruct H as [J [_ R]]. unfold run_updateProductStock in R.
  destruct (forallb _ _); [|discriminate]. cbv zeta in R.
  inversion R as [[Hf Hd]]. split; [reflexivity|]. split; [|exact J].
  unfold getProduct. reflexivity.
Qed.

(** A movement that was taken refers to a product and a user that exist. *)
Lemma run_insert_stockMovements_refs (v : InsertStockMovement) (t : nat)
      (s s' : Store) (row : StockMovement) :
  run_insert_stockMovements env v t s = inr (row, s') ->
  In (sm_productId row) (map p_id (products s))
  /\ In (sm_userId row) (users s).
Proof.
  unfold run_insert_stockMovements.
  destruct (ism_quantity v) as [q|]; [|discriminate].
  cbv zeta. let_through Hnum.
  destruct (ism_productId v) as [pid|]; [|discriminate].
  let_through Hpk. let_through Hfk.
  intros E. inversion E. subst. clear E. cbn [sm_productId sm_userId].
  rewrite !andb_true_iff in Hfk. destruct Hfk as [[Hp Hu] _].
  split; now apply mem_In.
Qed.

(** X11.  When [PUT /api/products/:id/stock] answers with a product, the
    stock of that product is the former stock plus the quantity of the body,
    rounded to the thousandth (and that sum itself when the quantity has no
    digit beyond the thousandth); the product answered is the product as it
    now reads; and one movement has been added for it: its quantity is the
    quantity of the body without its sign, rounded to the thousandth, never
    negative; its type is "in" for a positive quantity and "out" otherwise
    (zero included), its reason is "adjustment" and it names no order. *)
Theorem put_api_products_stock_sent (id : Id) (quantity : Numeral)
        (w w' : World) (found : option Product) :
  put_api_products_stock env id quantity w = (Sent found, w') ->
  products (db w')
  = map (fun p => if String.eqb (p_id p) id
                  then set_stock p (plus3 (p_stock p) quantity) else p)
        (products (db w))
  /\ (in_thousandths quantity = true ->
      products (db w')
      = map (fun p => if String.eqb (p_id p) id
                      then set_stock p (p_stock p + stored3 quantity) else p)
            (products (db w)))
  /\ found = getProduct (db w') id
  /\ (exists p, found = Some p /\ p_id p = id)
  /\ (exists mv,
        stockMovements (db w') = stockMovements (db w) ++ [mv]
        /\ sm_productId mv = id
        /\ sm_quantity mv = stored3 (magnitude quantity)
        /\ sm_quantity mv = Z.abs (stored3 quantity)
        /\ 0 <= sm_quantity mv
        /\ sm_type mv = (if 0 <? digits quantity then "in" else "out")
        /\ sm_reason mv = Some "adjustment"
        /\ sm_orderId mv = None)
  /\ orders (db w') = orders (db w)
  /\ orderItems (db w') = orderItems (db w)
  /\ transactions (db w') = transactions (db w).
Proof.
  unfold put_api_products_stock. cbv zeta. intros H.
  match type of H with
  | (match ?m w with _ => _ end) = _ =>
      destruct (m w) as [[e | a] w0] eqn:B; inversion H; subst a w0; clear H
  end.
  apply bind_inr in B. destruct B as [product [w1 [U B]]].
  apply bind_inr in B. destruct B as [mv [w2 [S B]]].
  apply ret_inv in B. destruct B as [-> ->].
  apply updateProductStock_inr in U. destruct U as [D1 [Hf _]].
  unfold createStockMovement in S. apply statement_inr in S.
  destruct S as [_ [_ R]].
  pose proof (run_insert_stockMovements_refs _ _ _ R) as [Hin _].
  apply run_insert_stockMovements_inr in R.
  destruct R as [D2 [Mp [Mq [Mt [Mr [Mo _]]]]]].
  cbn [ism_productId ism_quantity ism_type ism_reason ism_orderId option_map]
    in Mp, Mq, Mt, Mr, Mo.
  assert (Ep : sm_productId mv = id) by congruence.
  assert (Eq : sm_quantity mv = stored3 (magnitude quantity)) by congruence.
  rewrite Ep in Hin.
  assert (G : getProduct (db w') id = getProduct (db w1) id)
    by (unfold getProduct; now rewrite D2).
  assert (P : products (db w')
              = map (fun p => if String.eqb (p_id p) id
                              then set_stock p (plus3 (p_stock p) quantity)
                              else p) (products (db w)))
    by (now rewrite D2, D1).
  split; [exact P|]. split.
  { intros Hgram. rewrite P. apply map_ext. intros p.
    now rewrite (plus3_exact _ _ Hgram). }
  split; [now rewrite G|].
  split; [|split; [|now rewrite D2, D1]].
  - rewrite Hf. unfold getProduct.
    destruct (filter (fun p => String.eqb (p_id p) id) (products (db w1)))
      as [|p l] eqn:F.
    + exfalso. apply in_map_iff in Hin. destruct Hin as [p [Ep' Hp]].
      assert (Hp' : In p (filter (fun p => String.eqb (p_id p) id)
                                 (products (db w1)))).
      { apply filter_In. split; [assumption|]. now apply String.eqb_eq. }
      rewrite F in Hp'. contradiction.
    + exists p. split; [reflexivity|].
      assert (Hp : In p (filter (fun p => String.eqb (p_id p) id)
                                (products (db w1))))
        by (rewrite F; now left).
      apply filter_In in Hp. now apply String.eqb_eq.
  - exists mv. rewrite Eq, stored3_magnitude.
    repeat split; try assumption.
    + now rewrite D2, D1.
    + apply Z.abs_nonneg.
Qed.

(** X12.  [PUT /api/products/:id/stock] for an identifier that no product
    has is answered 500, and no table has changed. *)
Theorem put_api_products_stock_unknown (id : Id) (quantity : Numeral)
        (w : World) :
  ~ In id (map p_id (products (db w))) ->
  exists w',
    put_api_products_stock env id quantity w
    = (Refused 500 "Failed to update product stock", w')
    /\ db w' = db w.
Proof.
  intros Hid. unfold put_api_products_stock. cbv zeta.
  match goal with
  | |- exists w', (match ?m w with _ => _ end) = _ /\ _ =>
      destruct (m w) as [r w2] eqn:B
  end.
  destruct (bind_cases _ _ _ B) as [[e [U ->]] | [product [w1 [U B1]]]].
  - unfold updateProductStock in U. apply statement_cases in U.
    destruct U as [_ [[pe [_ D]] | [a [Ea _]]]]; [|discriminate].
    exists w2. now split.
  - apply updateProductStock_inr in U. destruct U as [D1 _].
    rewrite (@map_no_match id
               (fun p => set_stock p (plus3 (p_stock p) quantity))
               (products (db w)) Hid),
      with_products_same in D1.
    destruct (bind_cases _ _ _ B1) as [[e [S ->]] | [mv [w3 [S _]]]].
    + unfold createStockMovement in S. apply statement_cases in S.
      destruct S as [_ [[pe [_ D]] | [a [Ea _]]]]; [|discriminate].
      exists w2. split; [reflexivity | congruence].
    + exfalso. unfold createStockMovement in S. apply statement_inr in S.
      destruct S as [_ [_ R]].
      pose proof (run_insert_stockMovements_refs _ _ _ R) as [Hin _].
      apply run_insert_stockMovements_inr in R.
      destruct R as [_ [Mp _]]. cbn [ism_productId] in Mp.
      apply Hid. rewrite <- D1. congruence.
Qed.

(** X13.  The two writes of [PUT /api/products/:id/stock] are not one unit:
    when the update of the stock goes through and the insertion of the
    movement is lost, the answer is 500 and the stock stays changed with no
    movement to account for it. *)
Theorem put_api_products_stock_half (id : Id) (quantity : Numeral)
        (w : World) :
  fails env (List.length (journal w)) = false ->
  fails env (S (List.length (journal w))) = true ->
  (forall p, In p (products (db w)) -> p_id p = id ->
             - 10000000000 < plus3 (p_stock p) quantity < 10000000000) ->
  exists w',
    put_api_products_stock env id quantity w
    = (Refused 500 "Failed to update product stock", w')
    /\ products (db w')
       = map (fun p => if String.eqb (p_id p) id
                       then set_stock p (plus3 (p_stock p) quantity) else p)
             (products (db w))
    /\ stockMovements (db w') = stockMovements (db w).
Proof.
  intros F0 F1 Hfit.
  unfold put_api_products_stock, bind, updateProductStock,
    createStockMovement, statement. cbv zeta.
  rewrite F0. unfold run_updateProductStock.
  replace (forallb _ (products (db w))) with true.
  - cbn [journal db]. rewrite length_app. cbn [List.length].
    rewrite Nat.add_1_r, F1. eexists. split; [reflexivity|].
    cbn [db products stockMovements with_products]. now split.
  - symmetry. apply forallb_forall. intros p Hp.
    destruct (String.eqb_spec (p_id p) id) as [E | _]; [|reflexivity].
    cbn [negb orb]. apply numeric_10. now apply Hfit.
Qed.

End Adjusting.

(** * The ledger route *)

(** An entry that was taken refers to an order that exists, if to any. *)
Lemma run_insert_transactions_refs (env : Env) (v : InsertTransaction)
      (t : nat) (s s' : Store) (row : Transaction) :
  run_insert_transactions env v t s = inr (row, s') ->
  mem_opt (itx_orderId v) (map o_id (orders s)) = true.
Proof.
  unfold run_insert_transactions. cbv zeta.
  let_through Hnum. let_through Hpk. let_through Hfk. intros _.
  rewrite !andb_true_iff in Hfk. tauto.
Qed.

(** X14.  [POST /api/transactions] does one of three things.  It answers 400
    and nothing has been sent or changed: this is what a body that lacks its
    type, its amount or its payment method gets.  It answers 500 after a
    statement was sent, and every table is as it was.  Or it answers with the
    entry it appended to the ledger, whose identifier is new, whose fields
    are those of the body and whose user is "user-1"; the figures of
    [getDailySales] then grow by the weight of that entry. *)
Theorem post_api_transactions_outcomes (env : Env) (body : TransactionBody)
        (w w' : World) (reply : Reply Transaction) :
  post_api_transactions env body w = (reply, w') ->
  (tb_type body = None \/ tb_amount body = None
   \/ tb_paymentMethod body = None ->
   reply = Refused 400 "Invalid transaction data")
  /\ ((reply = Refused 400 "Invalid transaction data" /\ w' = w)
      \/ (reply = Refused 500 "Failed to create transaction"
          /\ db w' = db w /\ journal w' <> journal w)
      \/ (exists t,
             reply = Sent t
             /\ db w' = with_transactions (db w) (transactions (db w) ++ [t])
             /\ ~ In (t_id t) (map t_id (transactions (db w)))
             /\ t_userId t = "user-1"
             /\ tb_type body = Some (t_type t)
             /\ tb_amount body = Some (t_amount t)
             /\ tb_paymentMethod body = Some (t_paymentMethod t)
             /\ t_orderId t = tb_orderId body
             /\ t_customerId t = tb_customerId body
             /\ forall userId date,
                 getDailySales (db w') userId date
                 = plus_sales (getDailySales (db w) userId date)
                              (weight userId date t))).
Proof.
  unfold post_api_transactions, bind, lift. cbv zeta. intros H.
  unfold insertTransactionSchema_parse in H.
  destruct (tb_type body) as [ty|];
    [|inversion H; split; [reflexivity | left; tauto]].
  destruct (tb_amount body) as [a|];
    [|inversion H; split; [reflexivity | left; tauto]].
  destruct (tb_paymentMethod body) as [m|];
    [|inversion H; split; [reflexivity | left; tauto]].
  split; [intros [E | [E | E]]; discriminate|].
  right.
  match type of H with
  | (match createTransaction env ?v w with _ => _ end) = _ =>
      destruct (createTransaction env v w) as [[e | t] w1] eqn:T
  end.
  - left. unfold createTransaction in T. apply statement_cases in T.
    destruct T as [J [[pe [E D]] | [x [E _]]]]; [|discriminate].
    inversion E. subst e. inversion H. subst. repeat split; [assumption|].
    rewrite J. intros Ej. apply (f_equal (@List.length Statement)) in Ej.
    rewrite length_app in Ej. cbn in Ej. lia.
  - right. inversion H. subst. exists t.
    pose proof T as T'. apply createTransaction_row in T'.
    destruct T' as [Ht [D _]].
    unfold createTransaction in T. apply statement_inr in T.
    destruct T as [_ [_ R]]. apply run_insert_transactions_inr in R.
    destruct R as [_ [To [Tc [Tu [Tt [Ta [Tm Tnew]]]]]]].
    cbn in To, Tc, Tu, Tt, Ta, Tm.
    repeat split; try assumption; try congruence.
    intros userId date. apply getDailySales_snoc. now rewrite D.
Qed.

(** X15.  A body that names an order the shop does not have never reaches
    the ledger: the answer is a refusal and every table is as it was. *)
Theorem post_api_transactions_unknown_order (env : Env)
        (body : TransactionBody) (w w' : World) (reply : Reply Transaction)
        (orderId : Id) :
  tb_orderId body = Some orderId ->
  ~ In orderId (map o_id (orders (db w))) ->
  post_api_transactions env body w = (reply, w') ->
  db w' = db w /\ exists code error, reply = Refused code error.
Proof.
  intros Ho Hnone H.
  unfold post_api_transactions, bind, lift in H. cbv zeta in H.
  destruct (insertTransactionSchema_parse body) as [e | data] eqn:P.
  - assert (E : e = ZodError).
    { unfold insertTransactionSchema_parse in P.
      destruct (tb_type body); destruct (tb_amount body);
        destruct (tb_paymentMethod body); congruence. }
    subst e. inversion H. split; [reflexivity | now eexists; eexists].
  - assert (Hdata : itx_orderId (data "user-1") = Some orderId).
    { unfold insertTransactionSchema_parse in P.
      destruct (tb_type body); destruct (tb_amount body);
        destruct (tb_paymentMethod body); try discriminate.
      inversion P. cbn. exact Ho. }
    destruct (createTransaction env (data "user-1") w) as [[e | t] w1] eqn:T;
      unfold createTransaction in T.
    + apply statement_cases in T.
      destruct T as [_ [[pe [E D]] | [x [E _]]]]; [|discriminate].
      inversion E. subst e. inversion H. subst.
      split; [assumption | now eexists; eexists].
    + exfalso. apply statement_inr in T. destruct T as [_ [_ R]].
      apply run_insert_transactions_refs in R.
      rewrite Hdata in R. cbn [mem_opt] in R.
      apply mem_In in R. contradiction.
Qed.

(** * Deletions *)

Lemma NoDup_map_filter {A} (f : A -> Id) (c : A -> bool) (l : list A) :
  NoDup (map f l) -> NoDup (map f (filter c l)).
Proof.
  induction l as [|x l IH]; cbn; intros N; [constructor|].
  inversion N as [|? ? Hx Nl]. subst. destruct (c x); cbn.
  - constructor; [|now apply IH]. intros H. apply Hx.
    apply in_map_iff in H. destruct H as [y [E Hy]].
    apply filter_In in Hy. rewrite <- E. apply in_map. tauto.
  - now apply IH.
Qed.

Lemma In_orders_but (id x : Id) (l : list Order) :
  In x (map o_id l) -> x <> id ->
  In x (map o_id (filter (fun o => negb (String.eqb (o_id o) id)) l)).
Proof.
  intros H Hx. apply in_map_iff in H. destruct H as [o [E Ho]].
  apply in_map_iff. exists o. split; [assumption|].
  apply filter_In. split; [assumption|].
  apply negb_true_iff, String.eqb_neq. congruence.
Qed.

Lemma refers_false (x : option Id) (id : Id) (l : list Order) :
  refers x id = false -> mem_opt x (map o_id l) = true ->
  mem_opt x (map o_id (filter (fun o => negb (String.eqb (o_id o) id)) l))
  = true.
Proof.
  destruct x as [i|]; [|reflexivity]. cbn. intros Hr Hm.
  apply mem_In. apply In_orders_but; [now apply mem_In|].
  now apply String.eqb_neq.
Qed.

(** X16.  When [deleteOrder] goes through on tables that agree with their
    schema, they still agree with it; the order can no longer be read, every
    other order reads as before and no other table has changed. *)
Theorem deleteOrder_removes (s s' : Store) (id : Id) :
  consistent s ->
  deleteOrder s id = inr s' ->
  consistent s'
  /\ getOrder s' id = None
  /\ (forall other, other <> id -> getOrder s' other = getOrder s other)
  /\ orderItems s' = orderItems s
  /\ transactions s' = transactions s
  /\ stockMovements s' = stockMovements s
  /\ products s' = products s.
Proof.
  intros C. unfold deleteOrder.
  destruct (existsb (fun o => String.eqb (o_id o) id) (orders s)
            && _) eqn:Hc; [discriminate|].
  intros E. inversion E. subst s'. clear E.
  assert (Hfree :
            (forall r, In r (orderItems s) -> oi_orderId r <> id)
            /\ (forall t, In t (transactions s) -> refers (t_orderId t) id = false)
            /\ (forall m, In m (stockMovements s) ->
                          refers (sm_orderId m) id = false)).
  { apply andb_false_iff in Hc. destruct Hc as [Hno | Href].
    - assert (Hid : ~ In id (map o_id (orders s))).
      { intros H. apply in_map_iff in H. destruct H as [o [Eo Ho]].
        assert (X : existsb (fun o => String.eqb (o_id o) id) (orders s)
                    = true).
        { apply existsb_exists. exists o. split; [assumption|].
          now apply String.eqb_eq. }
        congruence. }
      split; [|split].
      + intros r Hr Er. apply Hid. rewrite <- Er.
        pose proof (orderItems_refs C) as R. rewrite Forall_forall in R.
        now apply R.
      + intros t Ht. pose proof (transactions_refs C) as R.
        rewrite Forall_forall in R. destruct (R t Ht) as [Hm _].
        destruct (t_orderId t) as [i|]; [|reflexivity]. cbn in *.
        apply String.eqb_neq. intros Ei. apply Hid. rewrite <- Ei.
        now apply mem_In.
      + intros m Hm. pose proof (stockMovements_refs C) as R.
        rewrite Forall_forall in R. destruct (R m Hm) as [_ [_ Ho]].
        destruct (sm_orderId m) as [i|]; [|reflexivity]. cbn in *.
        apply String.eqb_neq. intros Ei. apply Hid. rewrite <- Ei.
        now apply mem_In.
    - rewrite !orb_false_iff in Href. destruct Href as [[H1 H2] H3].
      split; [|split].
      + intros r Hr. apply String.eqb_neq.
        destruct (String.eqb (oi_orderId r) id) eqn:Er; [|reflexivity].
        assert (X : existsb (fun r => String.eqb (oi_orderId r) id)
                            (orderItems s) = true)
          by (apply existsb_exists; now exists r).
        congruence.
      + intros t Ht.
        destruct (refers (t_orderId t) id) eqn:Er; [|reflexivity].
        assert (X : existsb (fun t => refers (t_orderId t) id)
                            (transactions s) = true)
          by (apply existsb_exists; now exists t).
        congruence.
      + intros m Hm.
        destruct (refers (sm_orderId m) id) eqn:Er; [|reflexivity].
        assert (X : existsb (fun m => refers (sm_orderId m) id)
                            (stockMovements s) = true)
          by (apply existsb_exists; now exists m).
        congruence. }
  destruct Hfree as [Fi [Ft Fm]].
  split; [|split; [|split; [|now repeat split]]].
  - destruct C as [Kp Ko Ki Kt Km Rp Ro Ri Rt Rm].
    constructor; cbn; try assumption.
    + now apply NoDup_map_filter.
    + apply incl_Forall with (l1 := orders s); [|assumption].
      intros o Ho. apply filter_In in Ho. tauto.
    + rewrite Forall_forall in *. intros r Hr.
      destruct (Ri r Hr) as [H1 H2]. split; [|assumption].
      apply In_orders_but; [assumption | now apply Fi].
    + rewrite Forall_forall in *. intros t Ht.
      destruct (Rt t Ht) as [H1 H2]. split; [|assumption].
      apply refers_false; [now apply Ft | assumption].
    + rewrite Forall_forall in *. intros m Hm.
      destruct (Rm m Hm) as [H1 [H2 H3]]. repeat split; try assumption.
      apply refers_false; [now apply Fm | assumption].
  - unfold getOrder. cbn [orders with_orders]. rewrite filter_filter.
    rewrite filter_none; [reflexivity|]. intros o _.
    now destruct (String.eqb (o_id o) id).
  - intros other Hother. unfold getOrder. cbn [orders with_orders].
    rewrite filter_filter. f_equal. apply filter_ext. intros o.
    destruct (String.eqb_spec (o_id o) other) as [Eo | _];
      [|now rewrite andb_false_r].
    rewrite andb_true_r. apply negb_true_iff, String.eqb_neq. congruence.
Qed.

(** X17.  An order that [createOrder] has returned for a cart that is not
    empty can not be deleted: [deleteOrder] is refused, because its items
    refer to it. *)
Theorem deleteOrder_sold (env : Env) (order : InsertOrderOfUser)
        (items : list InsertOrderItem) (w w' : World) (newOrder : Order) :
  createOrder env order items w = (inr newOrder, w') ->
  items <> [] ->
  deleteOrder (db w') (o_id newOrder) = inl ForeignKeyViolation.
Proof.
  intros H Hitems. apply createOrder_effect in H.
  destruct H as [_ [_ [ois [mvs [Fi [_ [D _]]]]]]].
  unfold deleteOrder. rewrite D. cbn [orders orderItems].
  replace (existsb _ (orders (db w) ++ [newOrder])) with true.
  - replace (existsb _ (orderItems (db w) ++ ois)) with true; [reflexivity|].
    symmetry. apply existsb_exists.
    destruct Fi as [|item row its rows Hrow _]; [contradiction|].
    exists row. split; [apply in_or_app; right; now left|].
    apply String.eqb_eq. apply Hrow.
  - symmetry. apply existsb_exists. exists newOrder.
    split; [apply in_or_app; right; now left | apply String.eqb_refl].
Qed.

(** X18.  A product that has been sold can not be deleted either: after a
    call of [createOrder] that returned, [deleteProduct] is refused for every
    product the cart names. *)
Theorem deleteProduct_sold (env : Env) (order : InsertOrderOfUser)
        (items : list InsertOrderItem) (w w' : World) (newOrder : Order)
        (item : InsertOrderItem) (pid : Id) :
  consistent (db w) ->
  createOrder env order items w = (inr newOrder, w') ->
  In item items ->
  it_productId item = Some pid ->
  deleteProduct (db w') pid = inl ForeignKeyViolation.
Proof.
  intros C H Hitem Hpid.
  assert (C' : consistent (db w'))
    by (eapply createOrder_keeps_consistent; eassumption).
  apply createOrder_effect in H.
  destruct H as [_ [_ [ois [mvs [Fi [_ [D _]]]]]]].
  assert (Hrow : exists row, In row ois /\ oi_productId row = pid).
  { clear D C'. induction Fi as [|it row its rows Hrow _ IH];
      [contradiction|].
    destruct Hitem as [-> | Hin].
    - exists row. split; [now left|].
      destruct Hrow as [_ [Hp _]]. congruence.
    - destruct (IH Hin) as [r [Hr Er]]. exists r. split; [now right|].
      exact Er. }
  destruct Hrow as [row [Hin Er]].
  assert (Hrow' : In row (orderItems (db w'))).
  { rewrite D. cbn. apply in_or_app. now right. }
  pose proof (orderItems_refs C') as R. rewrite Forall_forall in R.
  destruct (R row Hrow') as [_ Hprod]. rewrite Er in Hprod.
  unfold deleteProduct.
  replace (existsb (fun p => String.eqb (p_id p) pid) (products (db w')))
    with true.
  - replace (existsb (fun r => String.eqb (oi_productId r) pid)
                     (orderItems (db w'))) with true; [reflexivity|].
    symmetry. apply existsb_exists. exists row.
    split; [assumption | now apply String.eqb_eq].
  - symmetry. apply existsb_exists. apply in_map_iff in Hprod.
    destruct Hprod as [p [Ep Hp]]. exists p.
    split; [assumption | now apply String.eqb_eq].
Qed.

(** * Items the database refuses *)


(** X19.  An item of the cart that lacks its product, its quantity, its unit
    price or its total price, or whose quantity is negative, wherever it
    stands in the cart, makes [createOrder] throw a database error and leave
    every table as it was. *)
Theorem createOrder_refused_item (env : Env) (order : InsertOrderOfUser)
        (items : list InsertOrderItem) (w : World) (item : InsertOrderItem) :
  In item items ->
  (it_productId item = None \/ it_quantity item = None
   \/ it_unitPrice item = None \/ it_totalPrice item = None
   \/ exists q, it_quantity item = Some q /\ digits q < 0) ->
  exists e w',
    createOrder env order items w = (inl (DatabaseError e), w')
    /\ db w' = db w.
Proof.
  intros Hin Hbad.
  destruct (createOrder env order items w) as [[e | o] w'] eqn:H.
  - destruct (@createOrder_throws env order items w w' e H) as [D [pe ->]].
    now exists pe, w'.
  - exfalso.
    pose proof (createOrder_quantities _ _ _ _ H) as Hq.
    apply createOrder_effect in H.
    destruct H as [_ [_ [ois [mvs [Fi _]]]]].
    rewrite Forall_forall in Hq. destruct (Hq item Hin) as [q [Eq Hpos]].
    assert (Hrow : exists row, item_row (o_id o) item row).
    { clear - Fi Hin. induction Fi as [|it row its rows Hrow _ IH];
        [contradiction|].
      destruct Hin as [-> | Hin]; [now exists row | now apply IH]. }
    destruct Hrow as [row [_ [Hp [_ [Hu Ht]]]]].
    destruct Hbad as [E | [E | [E | [E | [q' [E Hneg]]]]]]; try congruence.
    assert (Eq' : q' = q) by congruence. subst q'. lia.
Qed.

(** * Whose product it is *)

Lemma blind_ret (f : Id -> Id) {A} (a : A) : blind f (ret a).
Proof. intros w. reflexivity. Qed.

Lemma blind_bind (f : Id -> Id) {A B} (m : M A) (k : A -> M B) :
  blind f m -> (forall a, blind f (k a)) -> blind f (bind m k).
Proof.
  intros Hm Hk w. unfold bind. rewrite Hm.
  destruct (m w) as [[e | a] w1]; cbn [fst snd]; [reflexivity|].
  rewrite Hk. reflexivity.
Qed.

Lemma blind_forEach (f : Id -> Id) {A} (g : A -> M unit) (l : list A) :
  (forall x, blind f (g x)) -> blind f (forEach g l).
Proof.
  intros Hg. induction l as [|x l IH]; cbn [forEach].
  - apply blind_ret.
  - apply blind_bind; [apply Hg | intros _; exact IH].
Qed.

Lemma blind_db_transaction (f : Id -> Id) {A} (body : M A) :
  blind f body -> blind f (db_transaction body).
Proof.
  intros Hb w. unfold db_transaction. rewrite Hb.
  destruct (body w) as [[e | a] w1]; reflexivity.
Qed.

Lemma blind_statement (f : Id -> Id) {A} (env : Env) (stmt : Statement)
      (run : nat -> Store -> PgError + A * Store) :
  (forall t s, run t (reown f s) = reown_run f (run t s)) ->
  blind f (statement env stmt run).
Proof.
  intros Hrun w. unfold statement. cbn [journal db reown_world].
  destruct (fails env _); [reflexivity|]. rewrite Hrun.
  destruct (run _ (db w)) as [e | [a s']]; reflexivity.
Qed.

Lemma lowering_reown (f : Id -> Id) (pid : Id) (q : Numeral)
      (ps : list Product) :
  map (fun p => if String.eqb (p_id p) pid
                then set_stock p (minus3 (p_stock p) q) else p)
      (map (fun p => set_owner p (f (p_userId p))) ps)
  = map (fun p => set_owner p (f (p_userId p)))
        (map (fun p => if String.eqb (p_id p) pid
                       then set_stock p (minus3 (p_stock p) q) else p) ps).
Proof.
  rewrite !map_map. apply map_ext. intros p. cbn [p_id set_owner].
  now destruct (String.eqb (p_id p) pid).
Qed.

Lemma forallb_over_map {A B} (c : B -> bool) (g : A -> B) (l : list A) :
  forallb c (map g l) = forallb (fun x => c (g x)) l.
Proof.
  induction l as [|x l IH]; [reflexivity|]. cbn. now rewrite IH.
Qed.

Lemma ids_reown (f : Id -> Id) (ps : list Product) :
  map p_id (map (fun p => set_owner p (f (p_userId p))) ps) = map p_id ps.
Proof. rewrite map_map. apply map_ext. reflexivity. Qed.

(** X20.  [createOrder] never looks at whose product it sells.  Whoever the
    products belong to, the call does the same: on tables where the owners
    of the products are renamed in any way it returns or throws the same and
    leaves the same tables, with the owners renamed. *)
Theorem createOrder_ignores_owners (f : Id -> Id) (env : Env)
        (order : InsertOrderOfUser) (items : list InsertOrderItem)
        (w w' : World) (r : Exn + Order) :
  createOrder env order items w = (r, w') ->
  createOrder env order items (reown_world f w) = (r, reown_world f w').
Proof.
  intros H.
  assert (B : blind f (createOrder env order items)).
  { unfold createOrder. apply blind_db_transaction. apply blind_bind.
    - apply blind_statement. intros t s. unfold run_insert_orders.
      cbn [reown with_products orders users customers]. cbv zeta.
      destruct (negb _); [reflexivity|].
      destruct (mem _ (map o_id (orders s))); [reflexivity|].
      destruct (negb _); reflexivity.
    - intros newOrder. apply blind_bind; [|intros _; apply blind_ret].
      apply blind_forEach. intros item. unfold sell.
      apply blind_bind.
      { apply blind_statement. intros t s. unfold run_insert_orderItems.
        cbn [reown with_products orders orderItems products].
        rewrite ids_reown.
        cbn [spread_orderId it_orderId it_productId it_quantity it_unitPrice
             it_totalPrice it_gstRate].
        cbv zeta. destruct (negb _); [reflexivity|].
        destruct (it_productId item), (it_quantity item),
          (it_unitPrice item), (it_totalPrice item); try reflexivity.
        cbn [option_map].
        destruct (mem _ (map oi_id (orderItems s))); [reflexivity|].
        destruct (negb _); reflexivity. }
      intros _. apply blind_bind.
      { apply blind_statement. intros t s.
        unfold run_update_products_stock.
        destruct (it_productId item) as [pid|]; [|reflexivity].
        destruct (it_quantity item) as [q|]; [|reflexivity].
        cbn [reown with_products products]. rewrite forallb_over_map.
        cbn [p_id p_stock set_owner].
        destruct (forallb _ (products s)); [|reflexivity].
        cbn [reown_run]. rewrite lowering_reown. reflexivity. }
      intros _. apply blind_bind; [|intros _; apply blind_ret].
      apply blind_statement. intros t s. unfold run_insert_stockMovements.
      cbn [reown with_products orders stockMovements products users
           ism_productId ism_quantity ism_userId ism_orderId].
      rewrite ids_reown.
      destruct (neg_text (it_quantity item)) as [q|]; [|reflexivity].
      cbv zeta. destruct (negb _); [reflexivity|].
      destruct (it_productId item) as [pid|]; [|reflexivity].
      destruct (mem _ (map sm_id (stockMovements s))); [reflexivity|].
      destruct (negb _); reflexivity. }
  rewrite B, H. reflexivity.
Qed.

(** * The shop again *)

Lemma shop_consistent : consistent (db Shop.world).
Proof.
  constructor; cbn; repeat constructor; cbn; intuition discriminate.
Qed.

Lemma shop_sold :
  createOrder Shop.env Shop.order Shop.cart Shop.world
  = (inr Shop.newOrder, Shop.sold).
Proof. vm_compute. reflexivity. Qed.

Lemma createOrder_consistent_witness :
  consistent (db Shop.world)
  /\ createOrder Shop.env Shop.order Shop.cart Shop.world
     = (inr Shop.newOrder, Shop.sold)
  /\ consistent (db Shop.sold).
Proof.
  split; [exact shop_consistent|]. split; [exact shop_sold|].
  exact (@createOrder_consistent Shop.env Shop.order Shop.cart Shop.world
           Shop.sold (inr Shop.newOrder) shop_consistent shop_sold).
Defined.

Lemma post_api_orders_consistent_witness :
  consistent (db Shop.world)
  /\ post_api_orders Shop.env Shop.request Shop.world
     = (Json Shop.newOrder, Till.after_paid)
  /\ consistent (db Till.after_paid).
Proof.
  assert (H : post_api_orders Shop.env Shop.request Shop.world
              = (Json Shop.newOrder, Till.after_paid))
    by (vm_compute; reflexivity).
  split; [exact shop_consistent|]. split; [exact H|].
  exact (@post_api_orders_consistent Shop.env Shop.request Shop.world
           Till.after_paid (Json Shop.newOrder) shop_consistent H).
Defined.

Lemma getOrder_createOrder_witness :
  createOrder Shop.env Shop.order Shop.cart Shop.world
  = (inr Shop.newOrder, Shop.sold)
  /\ getOrder (db Shop.sold) "#" = Some Shop.newOrder
  /\ getOrder (db Shop.world) "#" = None.
Proof.
  split; [exact shop_sold|].
  destruct (@getOrder_createOrder Shop.env Shop.order Shop.cart Shop.world
              Shop.sold Shop.newOrder shop_sold) as [H1 [H2 _]].
  split; assumption.
Defined.

Lemma getOrderWithItems_createOrder_witness :
  consistent (db Shop.world)
  /\ createOrder Shop.env Shop.order Shop.cart Shop.world
     = (inr Shop.newOrder, Shop.sold)
  /\ exists rows,
      getOrderWithItems (db Shop.sold) "#" = Some (Shop.newOrder, rows)
      /\ List.length rows = 2%nat.
Proof.
  split; [exact shop_consistent|]. split; [exact shop_sold|].
  destruct (@getOrderWithItems_createOrder Shop.env Shop.order Shop.cart
              Shop.world Shop.sold Shop.newOrder shop_consistent shop_sold)
    as [rows [ois [G [L _]]]].
  exists rows. split; assumption.
Defined.

Lemma sold_consistent : consistent (db Shop.sold).
Proof.
  eapply createOrder_keeps_consistent;
    [exact shop_consistent | exact shop_sold].
Qed.

Lemma getOrderWithItems_join_witness :
  consistent (db Shop.sold)
  /\ getOrderWithItems (db Shop.sold) "no such order" = None
  /\ getOrder (db Shop.sold) "#" = Some Shop.newOrder.
Proof.
  split; [exact sold_consistent|].
  destruct (@getOrderWithItems_join (db Shop.sold) "no such order"
              sold_consistent) as [[_ Hnone] _].
  split; [apply Hnone; reflexivity|].
  destruct (@getOrderWithItems_join (db Shop.sold) "#" sold_consistent)
    as [_ Hsome].
  destruct (getOrderWithItems (db Shop.sold) "#") as [[o rows]|] eqn:G;
    [|vm_compute in G; discriminate].
  destruct (Hsome o rows eq_refl) as [Ho _].
  assert (E : o = Shop.newOrder)
    by (vm_compute in G; inversion G; reflexivity).
  rewrite <- E. exact Ho.
Defined.

Lemma shop_slivered :
  createOrder Shop.env Shop.order [Shop.sliver] Shop.world
  = (inr Shop.newOrder, Shop.slivered).
Proof. vm_compute. reflexivity. Qed.

Lemma createOrder_movements_account_witness :
  (createOrder Shop.env Shop.order Shop.cart Shop.world
   = (inr Shop.newOrder, Shop.sold)
   /\ exists mvs,
       stockMovements (db Shop.sold) = mvs
       /\ moved "A" mvs = -2000
       /\ moved "B" mvs = -1000
       /\ option_map p_stock (getProduct (db Shop.sold) "A") = Some 8000)
  /\ (createOrder Shop.env Shop.order [Shop.sliver] Shop.world
      = (inr Shop.newOrder, Shop.slivered)
      /\ exists mvs p',
          stockMovements (db Shop.slivered) = mvs
          /\ moved "A" mvs = -1001
          /\ getProduct (db Shop.slivered) "A" = Some p'
          /\ 8999 <= p_stock p' <= 9000).
Proof.
  split.
  - split; [exact shop_sold|].
    destruct (@createOrder_movements_account Shop.env Shop.order Shop.cart
                Shop.world Shop.sold Shop.newOrder shop_sold)
      as [mvs [Hm Hacc]].
    exists mvs. split; [exact Hm|].
    destruct (Hacc "A") as [MA [_ HA]]. destruct (Hacc "B") as [MB _].
    split; [exact MA|]. split; [exact MB|].
    destruct (HA Shop.productA eq_refl) as [p' [G [_ Hgram]]].
    rewrite G. cbn [option_map]. rewrite (Hgram eq_refl), MA. reflexivity.
  - split; [exact shop_slivered|].
    destruct (@createOrder_movements_account Shop.env Shop.order
                [Shop.sliver] Shop.world Shop.slivered Shop.newOrder
                shop_slivered)
      as [mvs [Hm Hacc]].
    destruct (Hacc "A") as [MA [_ HA]].
    destruct (HA Shop.productA eq_refl) as [p' [G [Hnear _]]].
    exists mvs, p'. split; [exact Hm|]. split; [exact MA|].
    split; [exact G|]. rewrite MA in Hnear. exact Hnear.
Defined.

Lemma post_api_orders_400_witness :
  ob_orderNumber (rb_order Till.blank) = None
  /\ post_api_orders Shop.env Till.blank Shop.world
     = (Status 400 "Invalid order data", Shop.world)
  /\ forall resp w',
      post_api_orders Shop.env Shop.careless Shop.world = (resp, w') ->
      resp <> Status 400 "Invalid order data".
Proof.
  destruct (@post_api_orders_400 Shop.env Till.blank Shop.world) as [H1 _].
  split; [reflexivity|]. split; [apply H1; now left|].
  intros resp w' H.
  apply (proj2 (proj2 (@post_api_orders_400 Shop.env Shop.careless
                         Shop.world)) resp w' H).
  vm_compute in H. inversion H. discriminate.
Defined.

Lemma post_api_orders_ledger_only_if_paid_witness :
  post_api_orders Shop.env Till.unpaid Shop.world
  = (Json Till.unpaid_order, Till.after_unpaid)
  /\ ob_paymentStatus (rb_order Till.unpaid) <> Some "paid"
  /\ transactions (db Till.after_unpaid) = []
  /\ List.length (orders (db Till.after_unpaid)) = 1%nat.
Proof.
  assert (H : post_api_orders Shop.env Till.unpaid Shop.world
              = (Json Till.unpaid_order, Till.after_unpaid))
    by (vm_compute; reflexivity).
  assert (N : ob_paymentStatus (rb_order Till.unpaid) <> Some "paid")
    by discriminate.
  split; [exact H|]. split; [exact N|].
  destruct (@post_api_orders_ledger_only_if_paid Shop.env Till.unpaid
              Shop.world Till.after_unpaid (Json Till.unpaid_order) H)
    as [_ Hsame].
  split; [exact (Hsame N) | reflexivity].
Defined.

Lemma post_api_orders_dashboard_witness :
  post_api_orders Shop.env Shop.request Shop.world
  = (Json Shop.newOrder, Till.after_paid)
  /\ within_day 0 (Some (now Shop.env 7)) = true
  /\ ordersCount (getDashboardStats (db Till.after_paid) "user-1" 0) = 1
  /\ todaySales (getDashboardStats (db Till.after_paid) "user-1" 0) = 12000
  /\ upiCollection (getDashboardStats (db Till.after_paid) "user-1" 0)
     = 12000.
Proof.
  assert (H : post_api_orders Shop.env Shop.request Shop.world
              = (Json Shop.newOrder, Till.after_paid))
    by (vm_compute; reflexivity).
  split; [exact H|]. split; [reflexivity|].
  destruct (@post_api_orders_dashboard Shop.env Shop.request Shop.world
              Till.after_paid Shop.newOrder 0 H) as [_ [_ Hpaid]].
  destruct (Hpaid eq_refl eq_refl) as [H1 [H2 H3]].
  rewrite H1, H2, H3. repeat split.
Defined.

Lemma getDailySales_bounds_witness :
  (forall t, In t (transactions Shop.books) -> t_type t = "sale" ->
             0 <= t_amount t)
  /\ 0 <= upiTotal (getDailySales Shop.books "user-1" Shop.day)
     <= total (getDailySales Shop.books "user-1" Shop.day)
  /\ (count (getDailySales Shop.books "user-3" Shop.day) = 0
      /\ total (getDailySales Shop.books "user-3" Shop.day) = 0).
Proof.
  assert (P : forall t, In t (transactions Shop.books) ->
                        t_type t = "sale" -> 0 <= t_amount t).
  { intros t Ht _. cbn in Ht.
    repeat (destruct Ht as [<- | Ht]; [cbn; lia|]). contradiction. }
  split; [exact P|].
  destruct (@getDailySales_bounds Shop.books "user-1" Shop.day)
    as [_ [_ Hupi]].
  split; [exact (Hupi P)|].
  destruct (@getDailySales_bounds Shop.books "user-3" Shop.day)
    as [_ [Hzero _]].
  assert (Z : count (getDailySales Shop.books "user-3" Shop.day) = 0)
    by reflexivity.
  split; [exact Z | exact (proj1 (Hzero Z))].
Defined.

Lemma put_api_products_stock_sent_witness :
  (exists found w',
      put_api_products_stock Shop.env "A" (milli (-3000)) Shop.world
      = (Sent found, w')
      /\ map p_stock (products (db w')) = [7000; 1000]
      /\ map sm_quantity (stockMovements (db w')) = [3000]
      /\ map sm_type (stockMovements (db w')) = ["out"])
  /\ (exists found w',
         put_api_products_stock Shop.env "A" Till.pinch Shop.world
         = (Sent found, w')
         /\ map p_stock (products (db w')) = [10001; 1000]
         /\ map sm_quantity (stockMovements (db w')) = [1]
         /\ map sm_type (stockMovements (db w')) = ["in"]).
Proof.
  split.
  - destruct (put_api_products_stock Shop.env "A" (milli (-3000)) Shop.world)
      as [[found | code error] w'] eqn:H; [|vm_compute in H; discriminate].
    exists found, w'. split; [reflexivity|].
    destruct (@put_api_products_stock_sent Shop.env "A" (milli (-3000))
                Shop.world w' found H)
      as [_ [Hp [_ [_ [[mv [Hm [_ [Hq [_ [_ [Ht _]]]]]]] _]]]]].
    rewrite (Hp eq_refl), Hm.
    cbn [map app Shop.world db stockMovements Shop.store].
    rewrite Hq, Ht. repeat split.
  - destruct (put_api_products_stock Shop.env "A" Till.pinch Shop.world)
      as [[found | code error] w'] eqn:H; [|vm_compute in H; discriminate].
    exists found, w'. split; [reflexivity|].
    destruct (@put_api_products_stock_sent Shop.env "A" Till.pinch
                Shop.world w' found H)
      as [Hp [_ [_ [_ [[mv [Hm [_ [Hq [_ [_ [Ht _]]]]]]] _]]]]].
    rewrite Hp, Hm.
    cbn [map app Shop.world db stockMovements Shop.store].
    rewrite Hq, Ht. repeat split.
Defined.

Lemma put_api_products_stock_unknown_witness :
  ~ In "Z" (map p_id (products (db Shop.world)))
  /\ exists w',
      put_api_products_stock Shop.env "Z" (milli 5000) Shop.world
      = (Refused 500 "Failed to update product stock", w')
      /\ db w' = db Shop.world.
Proof.
  assert (N : ~ In "Z" (map p_id (products (db Shop.world))))
    by (cbn; intuition discriminate).
  split; [exact N|].
  exact (@put_api_products_stock_unknown Shop.env "Z" (milli 5000)
           Shop.world N).
Defined.

Lemma put_api_products_stock_half_witness :
  fails Till.halting 0 = false
  /\ fails Till.halting 1 = true
  /\ exists w',
      put_api_products_stock Till.halting "A" (milli 5000) Shop.world
      = (Refused 500 "Failed to update product stock", w')
      /\ map p_stock (products (db w')) = [15000; 1000]
      /\ stockMovements (db w') = [].
Proof.
  split; [reflexivity|]. split; [reflexivity|].
  destruct (@put_api_products_stock_half Till.halting "A" (milli 5000)
              Shop.world)
    as [w' [H [Hp Hm]]].
  - reflexivity.
  - reflexivity.
  - intros p [<- | [<- | []]]; cbn [p_id Shop.productA Shop.productB];
      intros E; [vm_compute; split; reflexivity | discriminate].
  - exists w'. split; [exact H|]. rewrite Hp, Hm. split; reflexivity.
Defined.

Lemma post_api_transactions_outcomes_witness :
  exists t w',
    post_api_transactions Shop.env Till.expense Shop.world = (Sent t, w')
    /\ transactions (db w') = [t]
    /\ t_userId t = "user-1"
    /\ t_type t = "expense".
Proof.
  destruct (post_api_transactions Shop.env Till.expense Shop.world)
    as [[t | code error] w'] eqn:H; [|vm_compute in H; discriminate].
  exists t, w'. split; [reflexivity|].
  destruct (@post_api_transactions_outcomes Shop.env Till.expense Shop.world
              w' (Sent t) H)
    as [_ [[E _] | [[E _] | [t' [E [D [_ [Hu [Hty _]]]]]]]]];
    try discriminate.
  inversion E. subst t'. rewrite D. cbn in Hty. inversion Hty.
  repeat split. exact Hu.
Defined.

Lemma post_api_transactions_unknown_order_witness :
  tb_orderId Till.orphan = Some "no such order"
  /\ ~ In "no such order" (map o_id (orders (db Shop.sold)))
  /\ exists reply w',
      post_api_transactions Shop.env Till.orphan Shop.sold = (reply, w')
      /\ db w' = db Shop.sold.
Proof.
  assert (N : ~ In "no such order" (map o_id (orders (db Shop.sold))))
    by (cbn; intuition discriminate).
  split; [reflexivity|]. split; [exact N|].
  destruct (post_api_transactions Shop.env Till.orphan Shop.sold)
    as [reply w'] eqn:H.
  exists reply, w'. split; [reflexivity|].
  exact (proj1 (@post_api_transactions_unknown_order Shop.env Till.orphan
                  Shop.sold w' reply "no such order" eq_refl N H)).
Defined.

Lemma bare_consistent : consistent (db Till.after_bare).
Proof.
  apply (@createOrder_keeps_consistent Shop.env Shop.order [] Shop.world
           (fst (createOrder Shop.env Shop.order [] Shop.world))
           Till.after_bare shop_consistent).
  vm_compute. reflexivity.
Qed.

Lemma deleteOrder_removes_witness :
  consistent (db Till.after_bare)
  /\ exists s',
      deleteOrder (db Till.after_bare) "#" = inr s'
      /\ getOrder (db Till.after_bare) "#" = Some Shop.newOrder
      /\ getOrder s' "#" = None
      /\ consistent s'.
Proof.
  split; [exact bare_consistent|].
  destruct (deleteOrder (db Till.after_bare) "#") as [e | s'] eqn:H;
    [vm_compute in H; discriminate|].
  exists s'. split; [reflexivity|]. split; [reflexivity|].
  destruct (@deleteOrder_removes (db Till.after_bare) s' "#"
              bare_consistent H) as [C [G _]].
  split; assumption.
Defined.

Lemma deleteOrder_sold_witness :
  createOrder Shop.env Shop.order Shop.cart Shop.world
  = (inr Shop.newOrder, Shop.sold)
  /\ Shop.cart <> []
  /\ deleteOrder (db Shop.sold) "#" = inl ForeignKeyViolation.
Proof.
  assert (N : Shop.cart <> []) by discriminate.
  split; [exact shop_sold|]. split; [exact N|].
  exact (@deleteOrder_sold Shop.env Shop.order Shop.cart Shop.world Shop.sold
           Shop.newOrder shop_sold N).
Defined.

Lemma deleteProduct_sold_witness :
  consistent (db Shop.world)
  /\ createOrder Shop.env Shop.order Shop.cart Shop.world
     = (inr Shop.newOrder, Shop.sold)
  /\ In Shop.itemA Shop.cart
  /\ deleteProduct (db Shop.sold) "A" = inl ForeignKeyViolation
  /\ exists s', deleteProduct (db Shop.world) "A" = inr s'.
Proof.
  assert (I : In Shop.itemA Shop.cart) by (now left).
  split; [exact shop_consistent|]. split; [exact shop_sold|].
  split; [exact I|]. split.
  - exact (@deleteProduct_sold Shop.env Shop.order Shop.cart Shop.world
             Shop.sold Shop.newOrder Shop.itemA "A" shop_consistent shop_sold
             I eq_refl).
  - eexists. vm_compute. reflexivity.
Defined.

Lemma createOrder_refused_item_witness :
  In Till.returned [Shop.itemB; Till.returned]
  /\ it_quantity Till.returned = Some (milli (-2000))
  /\ exists e w',
      createOrder Shop.env Shop.order [Shop.itemB; Till.returned] Shop.world
      = (inl (DatabaseError e), w')
      /\ db w' = db Shop.world.
Proof.
  assert (I : In Till.returned [Shop.itemB; Till.returned])
    by (right; now left).
  split; [exact I|]. split; [reflexivity|].
  apply (@createOrder_refused_item Shop.env Shop.order
           [Shop.itemB; Till.returned] Shop.world Till.returned I).
  do 4 right. exists (milli (-2000)). split; [reflexivity | cbn; lia].
Defined.

Lemma createOrder_ignores_owners_witness :
  createOrder Shop.env Shop.order Shop.cart Shop.world
  = (inr Shop.newOrder, Shop.sold)
  /\ map p_userId (products (db (reown_world Till.handover Shop.world)))
     = ["user-2"; "user-2"]
  /\ createOrder Shop.env Shop.order Shop.cart
                 (reown_world Till.handover Shop.world)
     = (inr Shop.newOrder, reown_world Till.handover Shop.sold).
Proof.
  split; [exact shop_sold|]. split; [reflexivity|].
  exact (@createOrder_ignores_owners Till.handover Shop.env Shop.order
           Shop.cart Shop.world Shop.sold (inr Shop.newOrder) shop_sold).
Defined.
